(** * mISDN DSP: the CMX conference mixer and the DTMF decoder

    A shallow embedding of [dsp_cmx.c] and [dsp_dtmf.c] (mISDN, revision
    1.1 of 2003/10/24), and the properties of the mixer's ring buffers,
    of the conference bookkeeping and of the DTMF debouncer.

    Conventions of the embedding:
    - a C [int]/[long] is a [Z]; expressions that the source masks with
      [CMX_BUFF_MASK] are written with [Z.land], so their wrap-around is
      the one of the source (the mask absorbs the 32-bit wrap of what is
      computed under it, see [mask_int_wrap]); [len<<1] and the free
      space of the tx-buffer wrap at 32 bits, and so does every sum
      that reads or writes a cell of [conf_buff], an array of
      [signed long] (a sum of two or three entries of the decoding
      tables, which hold 16-bit samples, stays far below that limit and
      is written as it is);
    - an array is a [list Z], read with [!!!] and written with [<[_:=_]>];
    - pointers to [dsp_t] and [conference_t] are addresses into two finite
      maps; the chains [Conf_list] and [conf->mlist] are lists of
      addresses in chain order;
    - a function of the source that can loop takes a [fuel] and answers
      [Timeout] when the fuel does not suffice; dereferencing a pointer
      that is not mapped answers [Fault]. *)

From Stdlib Require Import ZArith Lia List Bool Ascii.
From stdpp Require Import base option list gmap.
Import ListNotations.

Local Open Scope Z_scope.

(** ** Results of the embedded functions *)

Inductive res (A : Type) : Type :=
| Ret (a : A)
| Fault
| Timeout.
Arguments Ret {A} a.
Arguments Fault {A}.
Arguments Timeout {A}.

Definition res_bind {A B : Type} (m : res A) (k : A -> res B) : res B :=
  match m with
  | Ret a => k a
  | Fault => Fault
  | Timeout => Timeout
  end.

Notation "'let*' x ':=' m 'in' k" := (res_bind m (fun x => k))
  (at level 10, x pattern, m at level 100, k at level 200).

(** A pointer dereference: the address must be mapped. *)
Definition deref {A : Type} (m : gmap nat A) (a : nat) : res A :=
  match m !! a with
  | Some x => Ret x
  | None => Fault
  end.

(** ** Constants and tables of [dsp.h] and [dsp_audio.c]

    Neither file is part of the sources at hand, so the ring size, the
    companding tables, the silence bytes, the tone generator and the DTMF
    frame size are parameters of the development. *)

Record platform : Type := {
  (** [CMX_BUFF_SIZE] is [2 ^ buff_bits] ("must be 2**n") *)
  buff_bits : Z;
  dsp_audio_alaw_to_s32 : Z -> Z;
  dsp_audio_ulaw_to_s32 : Z -> Z;
  dsp_audio_s16_to_alaw : Z -> Z;
  dsp_audio_s16_to_ulaw : Z -> Z;
  alawsilence : Z;
  ulawsilence : Z;
  (** the [i]-th sample [dsp_tone_copy] delivers for tone number [tone] *)
  tone_sample : Z -> Z -> Z;
  (** [DSP_DTMF_NPOINTS], as a number of samples *)
  dtmf_npoints : nat;
  (** [sizeof(dsp->dtmf.digits)] *)
  dtmf_digits_size : nat
}.

(** ** Ring arithmetic *)

Module Ring.
Section WithPlatform.
Context (pf : platform).

Definition CMX_BUFF_SIZE : Z := 2 ^ buff_bits pf.
Definition CMX_BUFF_HALF : Z := 2 ^ (buff_bits pf - 1).
Definition CMX_BUFF_MASK : Z := Z.ones (buff_bits pf).

(** [x & CMX_BUFF_MASK] *)
Definition mask (x : Z) : Z := Z.land x CMX_BUFF_MASK.

(** [(i + 1) & CMX_BUFF_MASK] *)
Definition next (i : Z) : Z := mask (i + 1).

(** [((a - b) & CMX_BUFF_MASK) >= CMX_BUFF_HALF]: in the ring, [a] lies
    behind [b]. *)
Definition behind (a b : Z) : bool := CMX_BUFF_HALF <=? mask (a - b).

Definition in_ring (i : Z) : Prop := 0 <= i < CMX_BUFF_SIZE.

(** [a[i]] and [a[i] = v] on an array.  An index outside the array is
    undefined behaviour in C; here such a read gives 0 and such a write
    changes nothing.  The mixer masks or bounds every index it uses. *)
Definition rd (a : list Z) (i : Z) : Z := a !!! Z.to_nat i.
Definition wr (a : list Z) (i v : Z) : list Z := <[Z.to_nat i := v]> a.

End WithPlatform.
End Ring.

(** ** The data of [dsp.h] the mixer works on *)

Module Cmx.

(** [dsp_t], restricted to the fields [dsp_cmx.c] reads or writes.  The
    field [debug] only selects [printk] output and is left out.  A
    [conf_member_t] node is identified with the [dsp_t] it points to: it
    is allocated by [dsp_cmx_add_conf_member] for one dsp and holds
    nothing but that pointer and the chain links. *)
Record dsp_t : Type := mk_dsp {
  ulaw : bool;
  echo : bool;
  tx_mix : bool;
  hfc_id : Z;
  conf_id : Z;
  b_active : bool;
  tone : Z;                 (* dsp->tone.tone *)
  rx_buff : list Z;
  tx_buff : list Z;
  W_rx : Z;
  R_rx : Z;
  W_tx : Z;
  R_tx : Z;
  largest : Z;
  conf : option nat;        (* dsp->conf, NULL is None *)
  member : option nat       (* dsp->member, NULL is None *)
}.

(** [conference_t]; [next] is the successor in [Conf_list]. *)
Record conference_t : Type := mk_conf {
  id : Z;
  solution : Z;
  c_hfc_id : Z;
  mlist : list nat;
  conf_buff : list Z;
  W_min : Z;
  W_max : Z;
  c_largest : Z
}.

(** The two stubs that talk to the HFC chip have empty bodies; a call is
    recorded as an event so that it can be observed. *)
Inductive hfc_message : Type :=
| cross_message (dsp1 dsp2 : nat) (enable : Z)
| conf_message (dsp : nat) (num : Z).

(** The memory the mixer sees: the dsp objects, the conferences, the
    chain [Conf_list], what [vmalloc]/[alloc_skb] can still hand out, the
    next fresh conference address, and the messages sent so far. *)
Record cmx_state : Type := mk_state {
  dsps : gmap nat dsp_t;
  confs : gmap nat conference_t;
  Conf_list : list nat;
  heap_free : nat;
  next_conf : nat;
  hfc_log : list hfc_message
}.

(** [struct sk_buff] of an outgoing frame: the [dinfo] of its header, the
    length given to [skb_put], and the bytes written through [d] in
    order. *)
Record sk_buff : Type := mk_skb {
  skb_dinfo : Z;
  skb_len : Z;
  skb_data : list Z
}.

(** *** Field updates *)

Definition set_rx_buff (v : list Z) (d : dsp_t) : dsp_t :=
  mk_dsp (ulaw d) (echo d) (tx_mix d) (hfc_id d) (conf_id d) (b_active d)
    (tone d) v (tx_buff d) (W_rx d) (R_rx d) (W_tx d) (R_tx d)
    (largest d) (conf d) (member d).
Definition set_tx_buff (v : list Z) (d : dsp_t) : dsp_t :=
  mk_dsp (ulaw d) (echo d) (tx_mix d) (hfc_id d) (conf_id d) (b_active d)
    (tone d) (rx_buff d) v (W_rx d) (R_rx d) (W_tx d) (R_tx d)
    (largest d) (conf d) (member d).
Definition set_W_rx (v : Z) (d : dsp_t) : dsp_t :=
  mk_dsp (ulaw d) (echo d) (tx_mix d) (hfc_id d) (conf_id d) (b_active d)
    (tone d) (rx_buff d) (tx_buff d) v (R_rx d) (W_tx d) (R_tx d)
    (largest d) (conf d) (member d).
Definition set_R_rx (v : Z) (d : dsp_t) : dsp_t :=
  mk_dsp (ulaw d) (echo d) (tx_mix d) (hfc_id d) (conf_id d) (b_active d)
    (tone d) (rx_buff d) (tx_buff d) (W_rx d) v (W_tx d) (R_tx d)
    (largest d) (conf d) (member d).
Definition set_W_tx (v : Z) (d : dsp_t) : dsp_t :=
  mk_dsp (ulaw d) (echo d) (tx_mix d) (hfc_id d) (conf_id d) (b_active d)
    (tone d) (rx_buff d) (tx_buff d) (W_rx d) (R_rx d) v (R_tx d)
    (largest d) (conf d) (member d).
Definition set_R_tx (v : Z) (d : dsp_t) : dsp_t :=
  mk_dsp (ulaw d) (echo d) (tx_mix d) (hfc_id d) (conf_id d) (b_active d)
    (tone d) (rx_buff d) (tx_buff d) (W_rx d) (R_rx d) (W_tx d) v
    (largest d) (conf d) (member d).
Definition set_largest (v : Z) (d : dsp_t) : dsp_t :=
  mk_dsp (ulaw d) (echo d) (tx_mix d) (hfc_id d) (conf_id d) (b_active d)
    (tone d) (rx_buff d) (tx_buff d) (W_rx d) (R_rx d) (W_tx d) (R_tx d)
    v (conf d) (member d).
Definition set_conf (c m : option nat) (d : dsp_t) : dsp_t :=
  mk_dsp (ulaw d) (echo d) (tx_mix d) (hfc_id d) (conf_id d) (b_active d)
    (tone d) (rx_buff d) (tx_buff d) (W_rx d) (R_rx d) (W_tx d) (R_tx d)
    (largest d) c m.

Definition set_solution (s h : Z) (c : conference_t) : conference_t :=
  mk_conf (id c) s h (mlist c) (conf_buff c) (W_min c) (W_max c)
    (c_largest c).
Definition set_mlist (v : list nat) (c : conference_t) : conference_t :=
  mk_conf (id c) (solution c) (c_hfc_id c) v (conf_buff c) (W_min c)
    (W_max c) (c_largest c).
Definition set_conf_buff (v : list Z) (c : conference_t) : conference_t :=
  mk_conf (id c) (solution c) (c_hfc_id c) (mlist c) v (W_min c) (W_max c)
    (c_largest c).
Definition set_W_min (v : Z) (c : conference_t) : conference_t :=
  mk_conf (id c) (solution c) (c_hfc_id c) (mlist c) (conf_buff c) v
    (W_max c) (c_largest c).
Definition set_W_max (v : Z) (c : conference_t) : conference_t :=
  mk_conf (id c) (solution c) (c_hfc_id c) (mlist c) (conf_buff c)
    (W_min c) v (c_largest c).
Definition set_c_largest (v : Z) (c : conference_t) : conference_t :=
  mk_conf (id c) (solution c) (c_hfc_id c) (mlist c) (conf_buff c)
    (W_min c) (W_max c) v.

Definition put_dsp (a : nat) (d : dsp_t) (st : cmx_state) : cmx_state :=
  mk_state (<[a := d]> (dsps st)) (confs st) (Conf_list st) (heap_free st)
    (next_conf st) (hfc_log st).
Definition put_conf (a : nat) (c : conference_t) (st : cmx_state)
  : cmx_state :=
  mk_state (dsps st) (<[a := c]> (confs st)) (Conf_list st) (heap_free st)
    (next_conf st) (hfc_log st).

(** *** Chains *)

(** Modelled from the spec: the macros [APPEND_TO_LIST] and
    [REMOVE_FROM_LISTBASE] of [helper.h], which is not part of the
    sources at hand; "append to [conf.members]" puts the node at the tail
    of the chain, "unlink from [conf.members]" takes one node out. *)
Definition APPEND_TO_LIST (item : nat) (base : list nat) : list nat :=
  base ++ [item].

Fixpoint REMOVE_FROM_LISTBASE (item : nat) (base : list nat) : list nat :=
  match base with
  | [] => []
  | a :: l => if bool_decide (a = item) then l
              else a :: REMOVE_FROM_LISTBASE item l
  end.

(** [base->next != NULL] and [base->next->next != NULL] for a chain whose
    head is [base] *)
Definition has_next (base : list nat) : bool :=
  match base with _ :: _ :: _ => true | _ => false end.
Definition has_next_next (base : list nat) : bool :=
  match base with _ :: _ :: _ :: _ => true | _ => false end.

(** [item->next] for a node of a chain *)
Fixpoint chain_next (base : list nat) (item : nat) : option nat :=
  match base with
  | [] => None
  | a :: l => if bool_decide (a = item) then head l else chain_next l item
  end.

Definition EINVAL : Z := 22.
Definition ENOMEM : Z := 12.

(** A C [int] or [long] computed without a mask wraps at 32 bits. *)
Definition int_wrap (x : Z) : Z := (x + 2 ^ 31) mod 2 ^ 32 - 2 ^ 31.

Section WithPlatform.
Context (pf : platform).

#[local] Abbreviation CMX_BUFF_SIZE := (Ring.CMX_BUFF_SIZE pf).
#[local] Abbreviation CMX_BUFF_HALF := (Ring.CMX_BUFF_HALF pf).
#[local] Abbreviation mask := (Ring.mask pf).
#[local] Abbreviation next := (Ring.next pf).
#[local] Abbreviation behind := (Ring.behind pf).
#[local] Abbreviation rd := Ring.rd.
#[local] Abbreviation wr := Ring.wr.

(** ** Conference registry and membership *)

(** [dsp_cmx_search_conf]: the walk over [Conf_list] *)
Fixpoint search_chain (cs : gmap nat conference_t) (chain : list nat)
    (cid : Z) : res (option nat) :=
  match chain with
  | [] => Ret None
  | a :: chain' =>
      let* c := deref cs a in
      if id c =? cid then Ret (Some a) else search_chain cs chain' cid
  end.

Definition dsp_cmx_search_conf (st : cmx_state) (cid : Z)
  : res (option nat) :=
  if cid =? 0 then Ret None
  else search_chain (confs st) (Conf_list st) cid.

(** [dsp_cmx_add_conf_member].  Both arguments are addresses, so the
    test for NULL arguments cannot fire. *)
Definition dsp_cmx_add_conf_member (st : cmx_state) (dsp cf : nat)
  : res (Z * cmx_state) :=
  let* d := deref (dsps st) dsp in
  if bool_decide (member d <> None) then Ret (- EINVAL, st)
  else if bool_decide (conf d <> None) then Ret (- EINVAL, st)
  else
    match heap_free st with
    | O => Ret (- ENOMEM, st)
    | S hf =>
        let* c := deref (confs st) cf in
        let zero := if ulaw d then ulawsilence pf else alawsilence pf in
        let d1 := set_rx_buff (replicate (length (rx_buff d)) zero) d in
        let d2 := set_R_rx (W_max c) (set_W_rx (W_max c) d1) in
        let c1 := set_mlist (APPEND_TO_LIST dsp (mlist c)) c in
        (* zero conf-buffer if we change from 2 to 3 members *)
        let c2 :=
          if has_next (mlist c1) then
            if negb (has_next_next (mlist c1))
            then set_conf_buff (replicate (length (conf_buff c1)) 0) c1
            else c1
          else c1 in
        let d3 := set_conf (Some cf) (Some dsp) d2 in
        Ret (0, mk_state (<[dsp := d3]> (dsps st))
                  (<[cf := c2]> (confs st)) (Conf_list st) hf
                  (next_conf st) (hfc_log st))
    end.

(** [dsp_cmx_del_conf_member] *)
Definition dsp_cmx_del_conf_member (st : cmx_state) (dsp : nat)
  : res (Z * cmx_state) :=
  let* d := deref (dsps st) dsp in
  match conf d with
  | None => Ret (- EINVAL, st)
  | Some cf =>
      let* c := deref (confs st) cf in
      match mlist c with
      | [] => Ret (- EINVAL, st)
      | _ =>
          if bool_decide (dsp ∈ mlist c) then
            let c1 := set_mlist (REMOVE_FROM_LISTBASE dsp (mlist c)) c in
            let d1 := set_conf None None d in
            Ret (0, mk_state (<[dsp := d1]> (dsps st))
                      (<[cf := c1]> (confs st)) (Conf_list st)
                      (S (heap_free st)) (next_conf st) (hfc_log st))
          else Ret (- EINVAL, st)
      end
  end.

(** [dsp_cmx_new_conf]: NULL is [None].  The [memset] leaves an empty
    member chain, pointers at 0 and a [conf_buff] of [CMX_BUFF_SIZE]
    zeros. *)
Definition dsp_cmx_new_conf (st : cmx_state) (cid : Z)
  : option nat * cmx_state :=
  if cid =? 0 then (None, st)
  else
    match heap_free st with
    | O => (None, st)
    | S hf =>
        let a := next_conf st in
        let c := mk_conf cid (-1) 0 []
                   (replicate (Z.to_nat CMX_BUFF_SIZE) 0) 0 0 0 in
        (Some a, mk_state (dsps st) (<[a := c]> (confs st))
                   (APPEND_TO_LIST a (Conf_list st)) hf (S a)
                   (hfc_log st))
    end.

(** [dsp_cmx_del_conf] *)
Definition dsp_cmx_del_conf (st : cmx_state) (cf : nat)
  : res (Z * cmx_state) :=
  let* c := deref (confs st) cf in
  match mlist c with
  | _ :: _ => Ret (- EINVAL, st)
  | [] =>
      Ret (0, mk_state (dsps st) (delete cf (confs st))
                (REMOVE_FROM_LISTBASE cf (Conf_list st))
                (S (heap_free st)) (next_conf st) (hfc_log st))
  end.

(** ** The hardware classifier [dsp_cmx_hfc] *)

(** The members loop: [None] when the function returns -1 from inside the
    loop, otherwise the final [memb]. *)
Fixpoint hfc_members (ds : gmap nat dsp_t) (first_hfc_id : Z)
    (members : list nat) (memb : Z) : res (option Z) :=
  match members with
  | [] => Ret (Some memb)
  | m :: members' =>
      let* d := deref ds m in
      if tx_mix d then Ret None
      else if hfc_id d =? 0 then Ret None
      else if negb (hfc_id d =? first_hfc_id) then Ret None
      else hfc_members ds first_hfc_id members' (memb + 1)
  end.

(** The walk over the other conferences: [None] when the function returns
    -1 from inside the loop, otherwise [freeunits] and [unit]. *)
Fixpoint hfc_units (cs : gmap nat conference_t) (cf : nat) (cf_hfc_id : Z)
    (chain : list nat) (freeunits : list Z) (unit : Z)
    : res (option (list Z * Z)) :=
  match chain with
  | [] => Ret (Some (freeunits, unit))
  | a :: chain' =>
      if bool_decide (a <> cf) then
        let* ct := deref cs a in
        if cf_hfc_id =? c_hfc_id ct then
          if 8 <? solution ct then Ret None
          else if 0 <? solution ct then
            if negb (rd freeunits (solution ct - 1) =? 0) then Ret None
            else hfc_units cs cf cf_hfc_id chain'
                   (wr freeunits (solution ct - 1) (id ct)) (unit + 1)
          else hfc_units cs cf cf_hfc_id chain' freeunits unit
        else hfc_units cs cf cf_hfc_id chain' freeunits unit
      else hfc_units cs cf cf_hfc_id chain' freeunits unit
  end.

(** The last loop, as the source has it:
    [while(i < 8) if (unit > 8) { if (freeunits[i] == 0) return(i+1); i++; }]
    followed by [return(-1)]. *)
Fixpoint hfc_free_unit (fuel : nat) (freeunits : list Z) (unit i : Z)
    : res Z :=
  match fuel with
  | O => Timeout
  | S fuel' =>
      if i <? 8 then
        if 8 <? unit then
          if rd freeunits i =? 0 then Ret (i + 1)
          else hfc_free_unit fuel' freeunits unit (i + 1)
        else hfc_free_unit fuel' freeunits unit i
      else Ret (-1)
  end.

Definition dsp_cmx_hfc (fuel : nat) (st : cmx_state) (cf : nat) : res Z :=
  let* c := deref (confs st) cf in
  let* first_hfc_id :=
    match mlist c with
    | [] => Ret 0
    | m :: _ => let* d := deref (dsps st) m in Ret (hfc_id d)
    end in
  let* om := hfc_members (dsps st) first_hfc_id (mlist c) 0 in
  match om with
  | None => Ret (-1)
  | Some memb =>
      if memb <? 2 then Ret (-1)
      else if memb =? 2 then Ret 0
      else
        let* ou := hfc_units (confs st) cf (c_hfc_id c) (Conf_list st)
                     (replicate 8 0) 0 in
        match ou with
        | None => Ret (-1)
        | Some (freeunits, unit) =>
            if 8 <? unit then Ret (-1)
            else if 0 <? solution c then Ret (solution c)
            else hfc_free_unit fuel freeunits unit 0
        end
  end.

(** ** The reconfiguration entry point [dsp_cmx] *)

Definition log_msg (m : hfc_message) (st : cmx_state) : cmx_state :=
  mk_state (dsps st) (confs st) (Conf_list st) (heap_free st)
    (next_conf st) (hfc_log st ++ [m]).

(** [dsp_cmx_hfc_conf_message(member->dsp, num)] for every member *)
Definition conf_message_all (members : list nat) (num : Z)
    (st : cmx_state) : cmx_state :=
  fold_left (fun s m => log_msg (conf_message m num) s) members st.

(** [member1], [member2]: set when the chain has exactly two nodes *)
Definition two_members (members : list nat) : option (nat * nat) :=
  match members with
  | [m1; m2] => Some (m1, m2)
  | _ => None
  end.

(** [conf->solution = s; conf->hfc_id = h] *)
Definition store_solution (cf : nat) (s h : Z) (st : cmx_state)
    : res cmx_state :=
  let* c := deref (confs st) cf in
  Ret (put_conf cf (set_solution s h c) st).

(** The part of [dsp_cmx] under the label [remove_from_conf].  The first
    component is [Some err] when the function returns there, and [None]
    when control reaches the label [add_to_conf]. *)
Definition remove_from_conf (fuel : nat) (st : cmx_state) (dsp : nat)
    : res (option Z * cmx_state) :=
  let* d := deref (dsps st) dsp in
  let* cf := match conf d with Some cf => Ret cf | None => Fault end in
  let* c := deref (confs st) cf in
  let old := solution c in
  let m12 := two_members (mlist c) in
  let* (err, st1) := dsp_cmx_del_conf_member st dsp in
  if negb (err =? 0) then Ret (Some err, st1)
  else
    let* new := dsp_cmx_hfc fuel st1 cf in
    let st2 :=
      if (0 <? new) && (0 <? old) then log_msg (conf_message dsp 0) st1
      else st1 in
    let* st3 :=
      if (new <=? 0) && (0 <? old) then
        let* c2 := deref (confs st2) cf in
        store_solution cf (-1) 0 (conf_message_all (mlist c2) 0 st2)
      else Ret st2 in
    let* r4 :=
      if (new <? 0) && (old =? 0) then
        match m12 with
        | None => Ret (Some (- EINVAL), st3)
        | Some (m1, m2) =>
            let* s := store_solution cf (-1) 0
                        (log_msg (cross_message m1 m2 0) st3) in
            Ret (None, s)
        end
      else Ret (None, st3) in
    match r4 with
    | (Some e, st4) => Ret (Some e, st4)
    | (None, st4) =>
        let* r5 :=
          if new =? 0 then
            let* c4 := deref (confs st4) cf in
            match two_members (mlist c4) with
            | None => Ret (Some (- EINVAL), st4)
            | Some (m1, m2) =>
                let* s := store_solution cf 0 (hfc_id d)
                            (log_msg (cross_message m1 m2 1) st4) in
                Ret (None, s)
            end
          else Ret (None, st4) in
        match r5 with
        | (Some e, st5) => Ret (Some e, st5)
        | (None, st5) =>
            let* c5 := deref (confs st5) cf in
            match mlist c5 with
            | [] =>
                let* (err6, st6) := dsp_cmx_del_conf st5 cf in
                if negb (err6 =? 0) then Ret (Some err6, st6)
                else Ret (None, st6)
            | _ :: _ => Ret (None, st5)
            end
        end
    end.

(** The part of [dsp_cmx] under the label [add_to_conf]; the result is
    the returned [int]. *)
Definition add_to_conf (fuel : nat) (st : cmx_state) (dsp : nat)
    : res (Z * cmx_state) :=
  let* d := deref (dsps st) dsp in
  if negb (conf_id d =? 0) && b_active d then
    let* found := dsp_cmx_search_conf st (conf_id d) in
    let '(ocf, st0) :=
      match found with
      | Some cf => (Some cf, st)
      | None => dsp_cmx_new_conf st (conf_id d)
      end in
    match ocf with
    | None => Ret (- EINVAL, st0)
    | Some cf =>
        let* c := deref (confs st0) cf in
        let m12 := two_members (mlist c) in
        let* (err, st1) := dsp_cmx_add_conf_member st0 dsp cf in
        if negb (err =? 0) then Ret (err, st1)
        else
          (* if we are alone, we do nothing! *)
          match chain_next (Conf_list st1) cf with
          | None => Ret (0, st1)
          | Some _ =>
              let* new := dsp_cmx_hfc fuel st1 cf in
              let* c1 := deref (confs st1) cf in
              let old := solution c1 in
              let* st2 :=
                if (new <=? 0) && (0 <? old) then
                  store_solution cf (-1) 0
                    (conf_message_all (mlist c1) 0 st1)
                else Ret st1 in
              let* r3 :=
                if negb (new =? 0) && (old =? 0) then
                  match m12 with
                  | None => Ret (Some (- EINVAL), st2)
                  | Some (m1, m2) =>
                      let* s := store_solution cf (-1) 0
                                  (log_msg (cross_message m1 m2 0) st2) in
                      Ret (None, s)
                  end
                else Ret (None, st2) in
              match r3 with
              | (Some e, st3) => Ret (e, st3)
              | (None, st3) =>
                  let* st4 :=
                    if 0 <? new then
                      let* c3 := deref (confs st3) cf in
                      store_solution cf new (hfc_id d)
                        (conf_message_all (mlist c3) new st3)
                    else Ret st3 in
                  if new =? 0 then
                    let* c4 := deref (confs st4) cf in
                    match two_members (mlist c4) with
                    | None => Ret (- EINVAL, st4)
                    | Some (m1, m2) =>
                        let* s := store_solution cf 0 (hfc_id d)
                                    (log_msg (cross_message m1 m2 1) st4) in
                        Ret (0, s)
                    end
                  else Ret (0, st4)
              end
          end
    end
  else Ret (0, st).

(** [dsp_cmx] *)
Definition dsp_cmx (fuel : nat) (st : cmx_state) (dsp : nat)
    : res (Z * cmx_state) :=
  let* d := deref (dsps st) dsp in
  match conf d with
  | None =>
      if conf_id d =? 0 then Ret (0, st) else add_to_conf fuel st dsp
  | Some cf =>
      let* c := deref (confs st) cf in
      if negb (conf_id d =? 0) && b_active d
         && (conf_id d =? id c) then Ret (0, st) (* nothing changed *)
      else
        let* (oerr, st1) := remove_from_conf fuel st dsp in
        match oerr with
        | Some err => Ret (err, st1)
        | None => add_to_conf fuel st1 dsp
        end
  end.

(** ** The receive path [dsp_cmx_receive] *)

Definition decode_law (d : dsp_t) : Z -> Z :=
  if ulaw d then dsp_audio_ulaw_to_s32 pf else dsp_audio_alaw_to_s32 pf.
Definition encode_law (d : dsp_t) : Z -> Z :=
  if ulaw d then dsp_audio_s16_to_ulaw pf else dsp_audio_s16_to_alaw pf.

(** The scan of the members for the lowest write pointer *)
Fixpoint lowest_W_rx (ds : gmap nat dsp_t) (own : option nat)
    (members : list nat) (W_min : Z) : res Z :=
  match members with
  | [] => Ret W_min
  | m :: members' =>
      if bool_decide (Some m <> own) then
        let* md := deref ds m in
        (* if W_rx is lower *)
        if behind (W_rx md) W_min
        then lowest_W_rx ds own members' (W_rx md)
        else lowest_W_rx ds own members' W_min
      else lowest_W_rx ds own members' W_min
  end.

(** [while(i < ii) { d[w++ & CMX_BUFF_MASK] = *p++; i++; }] *)
Fixpoint rx_write (d : list Z) (w : Z) (p : list Z) : list Z :=
  match p with
  | [] => d
  | b :: p' => rx_write (wr d (mask w) b) (w + 1) p'
  end.

(** [while(i<ii && w!=ww) { c[w] += decode_law[*p++]; ... }]: the result
    is the buffer, [w] and the bytes not yet consumed.  The cells of
    [conf_buff] are [signed long], so the sum wraps at 32 bits. *)
Fixpoint conf_add (dec : Z -> Z) (c : list Z) (w ww : Z) (p : list Z)
    : list Z * Z * list Z :=
  match p with
  | [] => (c, w, [])
  | b :: p' =>
      if w =? ww then (c, w, p)
      else conf_add dec (wr c w (int_wrap (rd c w + dec b))) (next w) ww p'
  end.

(** [while(i < ii) { c[w] = decode_law[*p++]; ... }] *)
Fixpoint conf_set (dec : Z -> Z) (c : list Z) (w : Z) (p : list Z)
    : list Z :=
  match p with
  | [] => c
  | b :: p' => conf_set dec (wr c w (dec b)) (next w) p'
  end.

(** [conf->next && conf->next->next] *)
Definition conf_next_next (chain : list nat) (cf : nat) : bool :=
  match chain_next chain cf with
  | Some n => bool_decide (chain_next chain n <> None)
  | None => false
  end.

Definition dsp_cmx_receive (st : cmx_state) (dsp : nat) (skb : list Z)
    : res cmx_state :=
  let* d := deref (dsps st) dsp in
  let len := Z.of_nat (length skb) in
  if len <? 1 then Ret st
  else
    let d1 :=
      if largest d <? int_wrap (Z.shiftl len 1)
      then set_largest (int_wrap (Z.shiftl len 1)) d else d in
    if Z.shiftr CMX_BUFF_HALF 2 <=? len then Ret (put_dsp dsp d1 st)
    else
      let W_min0 := mask (W_rx d1 + len) in
      match conf d1 with
      | None =>
          let W_max' := W_min0 in
          if mask (W_max' - W_min0) <=? largest d1 then
            let d2 := set_rx_buff (rx_write (rx_buff d1) (W_rx d1) skb) d1 in
            Ret (put_dsp dsp (set_W_rx (mask (W_rx d1 + len)) d2) st)
          else Ret (put_dsp dsp d1 st)
      | Some cf =>
          let* c := deref (confs st) cf in
          (* who is larger? dsp or conf *)
          let c1 := if c_largest c <? largest d1
                    then set_c_largest (largest d1) c else c in
          let d2 := if largest d1 <? c_largest c1
                    then set_largest (c_largest c1) d1 else d1 in
          let ds2 := <[dsp := d2]> (dsps st) in
          let* W_min' := lowest_W_rx ds2 (member d2) (mlist c1) W_min0 in
          let c2 := set_W_min W_min' c1 in
          let W_max' := if behind W_min' (W_max c2)
                        then W_max c2 else W_min' in
          if mask (W_max' - W_min') <=? largest d2 then
            let d3 := set_rx_buff (rx_write (rx_buff d2) (W_rx d2) skb) d2 in
            let c3 :=
              if conf_next_next (Conf_list st) cf then
                let '(cb, w, rest) :=
                  conf_add (decode_law d2) (conf_buff c2) (W_rx d2)
                    (W_max c2) skb in
                set_conf_buff (conf_set (decode_law d2) cb w rest) c2
              else c2 in
            let c4 := set_W_max W_max' c3 in
            let d4 := set_W_rx (mask (W_rx d2 + len)) d3 in
            Ret (put_conf cf c4 (put_dsp dsp d4 st))
          else Ret (put_conf cf c2 (put_dsp dsp d2 st))
      end.

(** ** The transmit path [dsp_cmx_transmit] *)

(** [while(w != ww) { p[w]= *d++; w = (w+1) & CMX_BUFF_MASK; }]; a read
    past the end of the frame is a [Fault]. *)
Fixpoint tx_write (fuel : nat) (p : list Z) (w ww : Z) (d : list Z)
    : res (list Z) :=
  match fuel with
  | O => Timeout
  | S fuel' =>
      if w =? ww then Ret p
      else
        match d with
        | [] => Fault
        | b :: d' => tx_write fuel' (wr p w b) (next w) ww d'
        end
  end.

Definition dsp_cmx_transmit (fuel : nat) (st : cmx_state) (dsp : nat)
    (skb : list Z) : res cmx_state :=
  let* d := deref (dsps st) dsp in
  let len := Z.of_nat (length skb) in
  if len <? 1 then Ret st
  else
    let w := W_tx d in
    let ww := R_tx d in
    let space := int_wrap (ww - w) in
    let space := if space <=? 0 then int_wrap (space + CMX_BUFF_SIZE)
                 else space in
    let ww := if space - 1 <? len then mask (ww - 1) else mask (w + len) in
    let* p := tx_write fuel (tx_buff d) w ww skb in
    Ret (put_dsp dsp (set_tx_buff p (set_W_tx ww d)) st).

(** ** The send path [dsp_cmx_send] *)

(** The clamp every mixing branch applies to [sample] *)
Definition saturate (sample : Z) : Z :=
  if sample <? -32768 then -32768
  else if 32767 <? sample then 32767
  else sample.

(** [while(r!=rr && t!=tt) { *d++ = f(t, r); t = (t+1) & CMX_BUFF_MASK;
    r = (r+1) & CMX_BUFF_MASK; }]: the result is [r], [t] and the bytes
    written so far. *)
Fixpoint mix_loop (fuel : nat) (f : Z -> Z -> Z) (r rr t tt : Z)
    (out : list Z) : res (Z * Z * list Z) :=
  match fuel with
  | O => Timeout
  | S fuel' =>
      if negb (r =? rr) && negb (t =? tt)
      then mix_loop fuel' f (next r) rr (next t) tt (out ++ [f t r])
      else Ret (r, t, out)
  end.

(** [while(r != rr) { *d++ = g(r); r = (r+1) & CMX_BUFF_MASK; }] *)
Fixpoint rest_loop (fuel : nat) (g : Z -> Z) (r rr : Z) (out : list Z)
    : res (list Z) :=
  match fuel with
  | O => Timeout
  | S fuel' =>
      if negb (r =? rr) then rest_loop fuel' g (next r) rr (out ++ [g r])
      else Ret out
  end.

(** A mixing branch: the loop that consumes tx-data, then the loop for
    the rest; the result is the final [t] and the bytes written. *)
Definition mix_branch (fuel : nat) (f : Z -> Z -> Z) (g : Z -> Z)
    (r rr t tt : Z) (out : list Z) : res (Z * list Z) :=
  let* (r1, t1, out1) := mix_loop fuel f r rr t tt out in
  let* out2 := rest_loop fuel g r1 rr out1 in
  Ret (t1, out2).

(** Modelled from the spec: [dsp_tone_copy] of [dsp_tones.c], which is
    not part of the sources at hand; "fill [out] with tone samples" for
    the [len] bytes asked for. *)
Definition dsp_tone_copy (d : dsp_t) (len : Z) : list Z :=
  map (fun i => tone_sample pf (tone d) (Z.of_nat i))
    (seq 0 (Z.to_nat len)).

(** STEP 2.1, label [single]: one member or no conference *)
Definition send_single (fuel : nat) (d : dsp_t) (r rr t tt : Z)
    (out : list Z) : res (Z * list Z) :=
  let p := tx_buff d in
  let q := rx_buff d in
  let zero := if ulaw d then ulawsilence pf else alawsilence pf in
  if negb (echo d) then
    (* send tx-data if available or use 0-volume *)
    let* (r1, t1, out1) := mix_loop fuel (fun t _ => rd p t) r rr t tt out in
    if negb (r1 =? rr)
    then Ret (t1, out1 ++ replicate (Z.to_nat (mask (rr - r1))) zero)
    else Ret (t1, out1)
  else
    (* mix tx-data with echo if available, or use echo only *)
    mix_branch fuel
      (fun t r => encode_law d (Z.land
         (saturate (decode_law d (rd p t) + decode_law d (rd q r))) 65535))
      (fun r => rd q r) r rr t tt out.

(** STEP 2.2: two members *)
Definition send_pair (fuel : nat) (d other : dsp_t) (r rr t tt : Z)
    (out : list Z) : res (Z * list Z) :=
  let p := tx_buff d in
  let q := rx_buff d in
  let o := rx_buff other in
  if negb (echo d) then
    mix_branch fuel
      (fun t r => encode_law d (Z.land
         (saturate (decode_law d (rd p t) + decode_law other (rd o r)))
         65535))
      (fun r => rd o r) r rr t tt out
  else
    mix_branch fuel
      (fun t r => encode_law d (Z.land
         (saturate (decode_law d (rd p t) + decode_law other (rd o r)
                    + decode_law d (rd q r))) 65535))
      (fun r => encode_law d (Z.land
         (saturate (decode_law other (rd o r) + decode_law d (rd q r)))
         65535))
      r rr t tt out.

(** STEP 2.3: three or more members.  [sample] is a [signed long] and
    so are the cells of [conf_buff]: what is computed from a cell wraps
    at 32 bits before it is clipped. *)
Definition send_conf (fuel : nat) (d : dsp_t) (c : list Z)
    (r rr t tt : Z) (out : list Z) : res (Z * list Z) :=
  let p := tx_buff d in
  let q := rx_buff d in
  if negb (echo d) then
    mix_branch fuel
      (fun t r => encode_law d (Z.land
         (saturate (int_wrap (decode_law d (rd p t) + rd c r
                              - decode_law d (rd q r))))
         65535))
      (fun r => encode_law d (Z.land
         (saturate (int_wrap (rd c r - decode_law d (rd q r)))) 65535))
      r rr t tt out
  else
    mix_branch fuel
      (fun t r => encode_law d (Z.land
         (saturate (int_wrap (decode_law d (rd p t) + rd c r))) 65535))
      (fun r => encode_law d (Z.land (saturate (rd c r)) 65535))
      r rr t tt out.

(** The read window: the start [r] actually used and the new [R_rx] *)
Definition read_window (r rr len : Z) : Z * Z :=
  if CMX_BUFF_HALF <=? mask (rr - r - len)
  then (mask (rr - len), rr)      (* r is set "len" bytes before W_min *)
  else (r, mask (r + len)).       (* rr is set "len" bytes after R_rx *)

(** STEP 2.1 to 2.3, entered with the bytes [out] already written *)
Definition send_mix (fuel : nat) (st : cmx_state) (dsp : nat) (d : dsp_t)
    (r rr t tt : Z) (out : list Z) : res (Z * list Z) :=
  match conf d with
  | None => send_single fuel d r rr t tt out
  | Some cf =>
      let* c := deref (confs st) cf in
      match mlist c with
      | [] => Fault
      | [_] => send_single fuel d r rr t tt out
      | [m1; m2] =>
          (* "other" becomes other party *)
          let oa := if bool_decide (m1 = dsp) then m2 else m1 in
          let* other := deref (dsps st) oa in
          send_pair fuel d other r rr t tt out
      | _ => send_conf fuel d (conf_buff c) r rr t tt out
      end
  end.

(** [dsp_cmx_send]: [None] is the NULL of a failed [alloc_skb]. *)
Definition dsp_cmx_send (fuel : nat) (st : cmx_state) (dsp : nat)
    (len dinfo : Z) : res (option sk_buff * cmx_state) :=
  let* d := deref (dsps st) dsp in
  match heap_free st with
  | O => Ret (None, st)
  | S hf =>
      let t := R_tx d in
      let tt := W_tx d in
      let r := R_rx d in
      let* rr :=
        match conf d with
        | Some cf => let* c := deref (confs st) cf in Ret (W_min c)
        | None => Ret (W_rx d)
        end in
      let '(r, rr) := read_window r rr len in
      let d1 := set_R_rx rr d in
      let st1 := mk_state (<[dsp := d1]> (dsps st)) (confs st)
                   (Conf_list st) hf (next_conf st) (hfc_log st) in
      if negb (tone d1 =? 0) then
        (* copy tone, clear tx buffer *)
        Ret (Some (mk_skb dinfo len (dsp_tone_copy d1 len)),
             put_dsp dsp (set_W_tx 0 (set_R_tx 0 d1)) st1)
      else
        let* (r1, t1, out1) :=
          if negb (tx_mix d1) && negb (t =? tt)
          then mix_loop fuel (fun t _ => rd (tx_buff d1) t) r rr t tt []
          else Ret (r, t, []) in
        if negb (tx_mix d1) && negb (t =? tt) && (r1 =? rr) then
          Ret (Some (mk_skb dinfo len out1),
               put_dsp dsp (set_R_tx t1 d1) st1)
        else
          let* (t2, out2) := send_mix fuel st1 dsp d1 r1 rr t1 tt out1 in
          Ret (Some (mk_skb dinfo len out2),
               put_dsp dsp (set_R_tx t2 d1) st1)
  end.

End WithPlatform.
End Cmx.

(** ** The DTMF decoder of [dsp_dtmf.c] *)

Module Dtmf.

(** [NCOEFF] and [DTMF_TRESH] *)
Definition NCOEFF : Z := 8.
Definition DTMF_TRESH : Z := 200000.

(** [2 * cos(2 * PI * k / N)], shifted by 15 bits *)
Definition cos2pik : list Z :=
  [55960; 53912; 51402; 48438; 38146; 32650; 26170; 18630].

(** digit matrix *)
Definition dtmf_matrix : list (list ascii) :=
  [ ["1"; "2"; "3"; "A"];
    ["4"; "5"; "6"; "B"];
    ["7"; "8"; "9"; "C"];
    ["*"; "0"; "#"; "D"] ]%char.

(** The character [0], "no tone" *)
Definition NUL : ascii := zero.

(** [dsp->dtmf]: [digits] holds the characters of the C string in the
    array [digits], without its terminating 0. *)
Record dtmf_t : Type := mk_dtmf {
  size : nat;
  buffer : list Z;
  lastwhat : ascii;
  lastdigit : ascii;
  count : Z;
  digits : list ascii
}.

(** [dsp_dtmf_goertzel_init] *)
Definition dsp_dtmf_goertzel_init (dt : dtmf_t) : dtmf_t :=
  mk_dtmf 0 (buffer dt) NUL NUL 0 (digits dt).

(** A [signed long] has 32 bits and a [signed short] 16. *)
Definition long_wrap (x : Z) : Z := (x + 2 ^ 31) mod 2 ^ 32 - 2 ^ 31.
Definition short_wrap (x : Z) : Z := (x + 2 ^ 15) mod 2 ^ 16 - 2 ^ 15.

(** The inner [for] of the Goertzel pass over the samples: the result is
    [sk] and [sk2]. *)
Fixpoint goertzel_run (coef : Z) (buf : list Z) (sk sk1 sk2 : Z) : Z * Z :=
  match buf with
  | [] => (sk, sk2)
  | x :: buf' =>
      let sk' := long_wrap (Z.shiftr (coef * sk1) 15 - sk2 + x) in
      goertzel_run coef buf' sk' sk' sk1
  end.

(** [result[k]], that is [|X(k)|**2] *)
Definition goertzel_power (coef : Z) (buf : list Z) : Z :=
  let '(sk, sk2) := goertzel_run coef buf 0 0 0 in
  let sk := Z.shiftr sk 8 in
  let sk2 := Z.shiftr sk2 8 in
  long_wrap (long_wrap (sk * sk) - Z.shiftr (coef * sk) 15 * sk2
             + long_wrap (sk2 * sk2)).

Definition goertzel (buf : list Z) : list Z :=
  map (fun coef => goertzel_power coef buf) cos2pik.

(** The first loop under [coefficients:]: negative results become 0 and
    [tresh] is the largest result above [DTMF_TRESH]. *)
Fixpoint clip_and_peak (result : list Z) (tresh : Z) : list Z * Z :=
  match result with
  | [] => ([], tresh)
  | x :: result' =>
      let x := if x <? 0 then 0 else x in
      let tresh := if DTMF_TRESH <? x
                   then (if tresh <? x then x else tresh) else tresh in
      let '(l, tr) := clip_and_peak result' tresh in
      (x :: l, tr)
  end.

(** The group loop, from index [i] on: the result is [lowgroup] and
    [highgroup]. *)
Fixpoint groups (result : list Z) (i treshl tresh : Z)
    (lowgroup highgroup : Z) : Z * Z :=
  match result with
  | [] => (lowgroup, highgroup)
  | x :: result' =>
      if x <? treshl then
        groups result' (i + 1) treshl tresh lowgroup highgroup
      else if x <? tresh then (-1, -1)            (* noise inbetween *)
      else if i <? NCOEFF / 2 then
        if 0 <=? lowgroup then (-1, highgroup)
        else groups result' (i + 1) treshl tresh i highgroup
      else
        if 0 <=? highgroup then (lowgroup, -1)
        else groups result' (i + 1) treshl tresh lowgroup
               (i - NCOEFF / 2)
  end.

(** From the eight results to the character [what] of the frame *)
Definition frame_what (result : list Z) : ascii :=
  let '(result, tresh) := clip_and_peak result 0 in
  if tresh =? 0 then NUL
  else
    let treshl := Z.shiftr tresh 3 in
    let tresh := Z.shiftr tresh 2 in
    let '(lowgroup, highgroup) := groups result 0 treshl tresh (-1) (-1) in
    if (0 <=? lowgroup) && (0 <=? highgroup)
    then nth (Z.to_nat highgroup)
           (nth (Z.to_nat lowgroup) dtmf_matrix []) NUL
    else NUL.

Section WithPlatform.
Context (pf : platform).

(** The code under [storedigit:] *)
Definition storedigit (dt : dtmf_t) (what : ascii) : dtmf_t :=
  let cnt := if negb (Ascii.eqb (lastwhat dt) what) then 0 else count dt in
  (* the tone (or no tone) must remain 3 times without change *)
  if cnt =? 2 then
    if negb (Ascii.eqb (lastdigit dt) what) then
      let dg :=
        if negb (Ascii.eqb what NUL) then
          if (length (digits dt) + 1 <? dtmf_digits_size pf)%nat
          then digits dt ++ [what] else digits dt
        else digits dt in
      mk_dtmf (size dt) (buffer dt) what what cnt dg
    else mk_dtmf (size dt) (buffer dt) what (lastdigit dt) cnt (digits dt)
  else mk_dtmf (size dt) (buffer dt) what (lastdigit dt) (cnt + 1)
         (digits dt).

(** [while(size<DSP_DTMF_NPOINTS && len) { buf[size++] = law[*data++];
    len--; }]: the result is [buf], [size] and the rest of [data]. *)
Fixpoint convert (law : Z -> Z) (buf : list Z) (size : nat)
    (data : list Z) : list Z * nat * list Z :=
  match data with
  | [] => (buf, size, [])
  | b :: data' =>
      if (size <? dtmf_npoints pf)%nat
      then convert law (<[size := short_wrap (law b)]> buf) (S size) data'
      else (buf, size, data)
  end.

(** A [signed long] read from four bytes, lowest byte first *)
Definition long_of_bytes (b : list Z) : Z :=
  long_wrap (nth 0%nat b 0 + nth 1%nat b 0 * 2 ^ 8 + nth 2%nat b 0 * 2 ^ 16
             + nth 3%nat b 0 * 2 ^ 24).

(** [memcpy(result, data, sizeof(result))] for eight [signed long] *)
Definition results_of_bytes (data : list Z) : list Z :=
  map (fun k => long_of_bytes (take 4 (drop (4 * k) data))) (seq 0 8).

(** [dsp_dtmf_goertzel_decode]; one unit of [fuel] per passage through
    the label [again].  The digits are returned in [digits]. *)
Fixpoint decode_again (fuel : nat) (dt : dtmf_t) (data : list Z)
    (fmt : Z) : res dtmf_t :=
  match fuel with
  | O => Timeout
  | S fuel' =>
      if (fmt =? 0) || (fmt =? 1) then
        let law := if fmt =? 0 then dsp_audio_alaw_to_s32 pf
                   else dsp_audio_ulaw_to_s32 pf in
        let '(buf, sz, data') := convert law (buffer dt) (size dt) data in
        let dt1 := mk_dtmf sz buf (lastwhat dt) (lastdigit dt) (count dt)
                     (digits dt) in
        if (sz <? dtmf_npoints pf)%nat then Ret dt1
        else
          let dt2 := mk_dtmf 0 buf (lastwhat dt) (lastdigit dt) (count dt)
                       (digits dt) in
          let what := frame_what (goertzel (take (dtmf_npoints pf) buf)) in
          decode_again fuel' (storedigit dt2 what) data' fmt
      else
        (* HFC coefficients *)
        match data with
        | [] => Ret dt
        | _ :: _ =>
            if (length data <? 32)%nat then Ret dt
            else
              let what := frame_what (results_of_bytes data) in
              decode_again fuel' (storedigit dt what) (drop 32 data) fmt
        end
  end.

Definition dsp_dtmf_goertzel_decode (fuel : nat) (dt : dtmf_t)
    (data : list Z) (fmt : Z) : res dtmf_t :=
  decode_again fuel
    (mk_dtmf (size dt) (buffer dt) (lastwhat dt) (lastdigit dt) (count dt)
       [])
    data fmt.

End WithPlatform.
End Dtmf.

(** ** Well-formed states *)

Module Wf.
Import Cmx.

(** [0 <= i < CMX_BUFF_SIZE], as a test *)
Definition in_ringb (pf : platform) (i : Z) : bool :=
  (0 <=? i) && (i <? Ring.CMX_BUFF_SIZE pf).

(** Every node of a member chain points to a mapped dsp. *)
Definition members_mapped (st : cmx_state) (members : list nat) : bool :=
  forallb (fun m => bool_decide (is_Some (dsps st !! m))) members.

(** What [dsp_cmx_send] relies on for the dsp [d]: its read pointer and
    the read limit lie in the ring, and its conference, if any, is mapped
    and has a nonempty chain of mapped members. *)
Definition send_ready (pf : platform) (st : cmx_state) (d : dsp_t)
    : bool :=
  in_ringb pf (R_rx d) &&
  match conf d with
  | None => in_ringb pf (W_rx d)
  | Some cf =>
      match confs st !! cf with
      | None => false
      | Some c =>
          in_ringb pf (W_min c)
          && match mlist c with [] => false | _ :: _ => true end
          && members_mapped st (mlist c)
      end
  end.

(** The read limit of [dsp_cmx_send]: [conf->W_min] in a conference,
    else [dsp->W_rx] *)
Definition read_limit (st : cmx_state) (d : dsp_t) : option Z :=
  match conf d with
  | None => Some (W_rx d)
  | Some cf => W_min <$> confs st !! cf
  end.

End Wf.

(** ** A small platform and concrete states

    A ring of 64 bytes: [CMX_BUFF_HALF] is 32 and frames of up to 7 bytes
    are accepted.  The companding tables are linear stand-ins; nothing
    below depends on the G.711 curves. *)

Module Sample.
Import Cmx.

Definition pf : platform := {|
  buff_bits := 6;
  dsp_audio_alaw_to_s32 := fun b => (b - 128) * 256;
  dsp_audio_ulaw_to_s32 := fun b => (b - 128) * 128;
  dsp_audio_s16_to_alaw :=
    fun s => (if s <? 32768 then s else s - 65536) / 256 + 128;
  dsp_audio_s16_to_ulaw :=
    fun s => (if s <? 32768 then s else s - 65536) / 128 + 128;
  alawsilence := 42;
  ulawsilence := 255;
  tone_sample := fun tn i => (tn + i) mod 256;
  dtmf_npoints := 102;
  dtmf_digits_size := 16
|}.

(** A fresh A-law dsp outside any conference, on card [card], asking for
    conference [cid] *)
Definition new_dsp (card cid : Z) : dsp_t :=
  mk_dsp false false false card cid true 0
    (replicate 64 42) (replicate 64 42) 0 0 0 0 0 None None.

(** Five dsp objects on one card, no conference yet: the dsps 1, 2 and 3
    ask for conference 1, dsp 4 for conference 2, dsp 5 for conference 3. *)
Definition boot (card : Z) : cmx_state :=
  mk_state
    (<[1%nat := new_dsp card 1]> (<[2%nat := new_dsp card 1]>
       (<[3%nat := new_dsp card 1]> (<[4%nat := new_dsp card 2]>
          (<[5%nat := new_dsp card 3]> ∅)))))
    ∅ [] 16 0 [].

(** [dsp_cmx] for the dsps of a list, one after the other, from [st] *)
Fixpoint join_all (fuel : nat) (st : cmx_state) (l : list nat)
    : res cmx_state :=
  match l with
  | [] => Ret st
  | a :: l' =>
      let* (_, st1) := dsp_cmx pf fuel st a in
      join_all fuel st1 l'
  end.

(** [dsp_cmx_receive] of the frames of a list on one dsp *)
Fixpoint receive_all (st : cmx_state) (dsp : nat) (frames : list (list Z))
    : res cmx_state :=
  match frames with
  | [] => Ret st
  | f :: frames' =>
      let* st1 := dsp_cmx_receive pf st dsp f in
      receive_all st1 dsp frames'
  end.

(** What a state tells about one dsp and about one conference *)
Definition dsp_of (r : res cmx_state) (a : nat) : option dsp_t :=
  match r with Ret st => dsps st !! a | _ => None end.
Definition conf_of (r : res cmx_state) (a : nat) : option conference_t :=
  match r with Ret st => confs st !! a | _ => None end.

(** The state a run ended in, and its objects *)
Definition state_of (r : res cmx_state) : cmx_state :=
  match r with Ret st => st | _ => boot 0 end.
Definition the_dsp (st : cmx_state) (a : nat) : dsp_t :=
  default (new_dsp 0 0) (dsps st !! a).
Definition the_conf (st : cmx_state) (a : nat) : conference_t :=
  default (mk_conf 0 0 0 [] [] 0 0 0) (confs st !! a).

(** A dsp that plays tone 3, alone in the memory, with ten bytes received
    and none read *)
Definition tone_dsp : dsp_t :=
  mk_dsp false false false 0 0 true 3
    (replicate 64 42) (replicate 64 42) 10 0 0 0 0 None None.
Definition tone_state : cmx_state :=
  mk_state (<[1%nat := tone_dsp]> ∅) ∅ [] 16 0 [].

(** Two members in conference 1 on a card without HFC chip *)
Definition pair_state : cmx_state :=
  state_of (join_all 20 (boot 0) [1; 2]%nat).

(** Three members in conference 1, the only conference *)
Definition three_alone : res cmx_state :=
  join_all 20 (boot 0) [1; 2; 3]%nat.

(** One member in conference 1, followed in [Conf_list] by the
    conferences 2 and 3 *)
Definition one_of_three_confs : res cmx_state :=
  join_all 20 (boot 0) [1; 4; 5]%nat.

(** Three members on card 7 in conference 1, the only conference *)
Definition three_on_card : cmx_state :=
  state_of (join_all 20 (boot 7) [1; 2; 3]%nat).

(** The frame a call of [dsp_cmx_send] returned, if any *)
Definition frame_of (r : res (option sk_buff * cmx_state))
    : option sk_buff :=
  match r with Ret (Some skb, _) => Some skb | _ => None end.
Definition after_send (r : res (option sk_buff * cmx_state))
    : res cmx_state :=
  match r with
  | Ret (_, st) => Ret st
  | Fault => Fault
  | Timeout => Timeout
  end.

(** Eight results of the HFC hardware decoder, as the 32 bytes handed to
    the DTMF decoder: 1000000 in the bins [low] and [high + 4], 0 in the
    others. *)
Definition hfc_frame (low high : nat) : list Z :=
  flat_map (fun k => if bool_decide (k = low \/ k = (high + 4)%nat)
                     then [64; 66; 15; 0] else [0; 0; 0; 0])
    (seq 0 8).

(** An initialised decoder with an empty sample buffer *)
Definition dtmf0 : Dtmf.dtmf_t :=
  Dtmf.dsp_dtmf_goertzel_init
    (Dtmf.mk_dtmf 0 (replicate 102 0) Dtmf.NUL Dtmf.NUL 0 []).

End Sample.

(** ** The frames a DTMF decoder has seen *)

Module DtmfHistory.
Import Dtmf.

(** [dsp->dtmf.digits[0] = '\0'] at the entry of the decoder *)
Definition clear_digits (dt : dtmf_t) : dtmf_t :=
  mk_dtmf (size dt) (buffer dt) (lastwhat dt) (lastdigit dt) (count dt) [].

(** The sample buffer is refilled; the debouncer is left alone. *)
Definition refill (sz : nat) (buf : list Z) (dt : dtmf_t) : dtmf_t :=
  mk_dtmf sz buf (lastwhat dt) (lastdigit dt) (count dt) (digits dt).

(** [history pf dt whats]: the decoder state [dt] is reached from an
    initialised decoder, and [whats] are the decisions of the frames
    completed since then, oldest first. *)
Inductive history (pf : platform) : dtmf_t -> list ascii -> Prop :=
| history_init (dt : dtmf_t) :
    history pf (dsp_dtmf_goertzel_init dt) []
| history_frame (dt : dtmf_t) (whats : list ascii) (what : ascii) :
    history pf dt whats ->
    history pf (storedigit pf dt what) (whats ++ [what])
| history_call (dt : dtmf_t) (whats : list ascii) :
    history pf dt whats -> history pf (clear_digits dt) whats
| history_refill (dt : dtmf_t) (whats : list ascii) (sz : nat)
    (buf : list Z) :
    history pf dt whats -> history pf (refill sz buf dt) whats.

End DtmfHistory.

(** ** What the loops of the send path read *)

Module Runs.

(** The bytes a loop over [m] ring positions yields when its body takes
    [f] of the tx position and the rx position, from [t] and [r] on *)
Definition run2 (pf : platform) (f : Z -> Z -> Z) (t r : Z) (m : nat)
    : list Z :=
  map (fun i => f (Ring.mask pf (t + Z.of_nat i))
                  (Ring.mask pf (r + Z.of_nat i)))
    (seq 0 m).

(** The same for a body that takes [g] of the rx position alone *)
Definition run1 (pf : platform) (g : Z -> Z) (r : Z) (m : nat) : list Z :=
  map (fun i => g (Ring.mask pf (r + Z.of_nat i))) (seq 0 m).

Import Cmx.

(** The state [dsp_cmx_send] leaves when it returns a frame without a
    tone: one allocation less, [R_rx] and [R_tx] of the dsp moved. *)
Definition sent (st : cmx_state) (dsp : nat) (d : dsp_t) (rr t : Z)
    : cmx_state :=
  put_dsp dsp (set_R_tx t (set_R_rx rr d))
    (mk_state (<[dsp := set_R_rx rr d]> (dsps st)) (confs st)
       (Conf_list st) (Nat.pred (heap_free st)) (next_conf st)
       (hfc_log st)).

(** The dsp [d] is alone: outside any conference, or the only member of
    its conference. *)
Definition alone (st : cmx_state) (d : dsp_t) : bool :=
  match conf d with
  | None => true
  | Some cf =>
      match confs st !! cf with
      | Some c => match mlist c with [_] => true | _ => false end
      | None => false
      end
  end.

End Runs.

(** ** Invariants of the mixer's memory *)

Module Inv.
Import Cmx.

(** One call of an entry point of the mixer that returns *)
Inductive cmx_step (pf : platform) : cmx_state -> cmx_state -> Prop :=
| step_receive (st : cmx_state) (dsp : nat) (skb : list Z)
    (st' : cmx_state) :
    dsp_cmx_receive pf st dsp skb = Ret st' -> cmx_step pf st st'
| step_send (fuel : nat) (st : cmx_state) (dsp : nat) (len dinfo : Z)
    (nskb : option sk_buff) (st' : cmx_state) :
    dsp_cmx_send pf fuel st dsp len dinfo = Ret (nskb, st') ->
    cmx_step pf st st'
| step_transmit (fuel : nat) (st : cmx_state) (dsp : nat) (skb : list Z)
    (st' : cmx_state) :
    dsp_cmx_transmit pf fuel st dsp skb = Ret st' -> cmx_step pf st st'
| step_cmx (fuel : nat) (st : cmx_state) (dsp : nat) (err : Z)
    (st' : cmx_state) :
    dsp_cmx pf fuel st dsp = Ret (err, st') -> cmx_step pf st st'.

(** One call of one of the three audio paths that returns *)
Inductive audio_step (pf : platform) : cmx_state -> cmx_state -> Prop :=
| audio_receive (st : cmx_state) (dsp : nat) (skb : list Z)
    (st' : cmx_state) :
    dsp_cmx_receive pf st dsp skb = Ret st' -> audio_step pf st st'
| audio_send (fuel : nat) (st : cmx_state) (dsp : nat) (len dinfo : Z)
    (nskb : option sk_buff) (st' : cmx_state) :
    dsp_cmx_send pf fuel st dsp len dinfo = Ret (nskb, st') ->
    audio_step pf st st'
| audio_transmit (fuel : nat) (st : cmx_state) (dsp : nat) (skb : list Z)
    (st' : cmx_state) :
    dsp_cmx_transmit pf fuel st dsp skb = Ret st' -> audio_step pf st st'.

(** Every pointer of every dsp and of every conference is an index of
    the ring. *)
Definition ring_maps (pf : platform) (ds : gmap nat dsp_t)
    (cs : gmap nat conference_t) : Prop :=
  (forall (a : nat) (d : dsp_t), ds !! a = Some d ->
     Ring.in_ring pf (W_rx d) /\ Ring.in_ring pf (R_rx d) /\
     Ring.in_ring pf (W_tx d) /\ Ring.in_ring pf (R_tx d)) /\
  (forall (cf : nat) (c : conference_t), cs !! cf = Some c ->
     Ring.in_ring pf (W_min c) /\ Ring.in_ring pf (W_max c)).

Definition rings_ok (pf : platform) (st : cmx_state) : Prop :=
  ring_maps pf (dsps st) (confs st).

(** The back-references agree with the member chains: a dsp points to a
    conference exactly when that conference's chain holds it, no chain
    holds a dsp twice, and no conference lives at an address [vmalloc]
    has yet to hand out. *)
Definition link_maps (ds : gmap nat dsp_t) (cs : gmap nat conference_t)
    (nxt : nat) : Prop :=
  (forall (a : nat) (d : dsp_t) (cf : nat),
     ds !! a = Some d -> conf d = Some cf ->
     exists c, cs !! cf = Some c /\ a ∈ mlist c) /\
  (forall (cf : nat) (c : conference_t) (a : nat),
     cs !! cf = Some c -> a ∈ mlist c ->
     exists d, ds !! a = Some d /\ conf d = Some cf) /\
  (forall (cf : nat) (c : conference_t),
     cs !! cf = Some c -> NoDup (mlist c)) /\
  (forall a : nat, (nxt <= a)%nat -> cs !! a = None).

Definition member_link (st : cmx_state) : Prop :=
  link_maps (dsps st) (confs st) (next_conf st).

(** [Conf_list] chains exactly the conferences that exist, each once,
    and their ids are not 0 and differ from each other. *)
Definition reg_maps (chain : list nat) (cs : gmap nat conference_t)
    (nxt : nat) : Prop :=
  NoDup chain /\
  (forall a : nat, a ∈ chain <-> is_Some (cs !! a)) /\
  (forall (a : nat) (c : conference_t), cs !! a = Some c -> id c <> 0) /\
  (forall (a b : nat) (c c' : conference_t),
     cs !! a = Some c -> cs !! b = Some c' -> id c = id c' -> a = b) /\
  (forall a : nat, (nxt <= a)%nat -> cs !! a = None).

Definition registry_ok (st : cmx_state) : Prop :=
  reg_maps (Conf_list st) (confs st) (next_conf st).

(** What the audio paths leave alone: the settings of a dsp that say
    where it is attached, and the fields of a conference that say who is
    in it and how it is connected. *)
Definition wiring (d : dsp_t)
    : option nat * option nat * Z * Z * bool * bool * bool * bool :=
  (conf d, member d, hfc_id d, conf_id d, tx_mix d, echo d, ulaw d,
   b_active d).

Definition shape (c : conference_t) : Z * list nat * Z * Z :=
  (id c, mlist c, solution c, c_hfc_id c).

Definition same_topology (st st' : cmx_state) : Prop :=
  Conf_list st' = Conf_list st /\
  next_conf st' = next_conf st /\
  hfc_log st' = hfc_log st /\
  (forall a : nat, wiring <$> dsps st' !! a = wiring <$> dsps st !! a) /\
  (forall cf : nat, shape <$> confs st' !! cf = shape <$> confs st !! cf).

End Inv.

Module DtmfRuns.
Import Dtmf.

(** [n] frames in a row that all decide [what] *)
Fixpoint hold (pf : platform) (n : nat) (what : ascii) (dt : dtmf_t)
    : dtmf_t :=
  match n with
  | O => dt
  | S n' => hold pf n' what (storedigit pf dt what)
  end.

(** The sixteen characters of [dtmf_matrix] *)
Definition keypad : list ascii := concat dtmf_matrix.

End DtmfRuns.

(** ** Proof steps for the monadic code *)

Module CmxTactics.

(** Name the result of the first call of a sequence that returned. *)
Ltac bind_as x E :=
  match goal with
  | |- res_bind ?m _ = Ret _ -> _ =>
      destruct m as [x| |] eqn:E; cbn [res_bind]; [|discriminate|discriminate]
  end.

End CmxTactics.

(** ** More concrete states, on the platform of [Sample] *)

Module Cases.
Import Cmx Sample.

(** dsp 1 alone in conference 1 on card 7, then joined by dsp 2 *)
Definition card7_one : cmx_state :=
  state_of (join_all 20 (boot 7) [1]%nat).
Definition card7_pair : cmx_state :=
  state_of (join_all 20 (boot 7) [1; 2]%nat).

(** [dsp_cmx_add_conf_member] of dsp 2 to the conference of [card7_one] *)
Definition card7_added : cmx_state :=
  match dsp_cmx_add_conf_member pf card7_one 2%nat 0%nat with
  | Ret (_, st) => st
  | _ => card7_one
  end.

(** The only member of conference 1, after its [conf_id] was set to 0 *)
Definition leaving_dsp : dsp_t :=
  mk_dsp false false false 0 0 true 0
    (replicate 64 42) (replicate 64 42) 0 0 0 0 0 (Some 0%nat) (Some 1%nat).
Definition leaving_conf : conference_t :=
  mk_conf 1 (-1) 0 [1%nat] (replicate 64 0) 0 0 0.
Definition leaving : cmx_state :=
  mk_state (<[1%nat := leaving_dsp]> ∅) (<[0%nat := leaving_conf]> ∅)
    [0%nat] 14 1 [].

(** A dsp with echo switched on, alone in the memory *)
Definition echo_dsp : dsp_t :=
  mk_dsp false true false 0 0 true 0
    (replicate 64 42) (replicate 64 42) 0 0 0 0 0 None None.
Definition echo_state : cmx_state :=
  mk_state (<[1%nat := echo_dsp]> ∅) ∅ [] 16 0 [].

(** Three bytes handed to [dsp_cmx_transmit] for dsp 1 and not yet sent *)
Definition tx_pending : cmx_state :=
  state_of (dsp_cmx_transmit pf 64 (boot 0) 1%nat [1; 2; 3]).

(** Three bytes received by dsp 1 *)
Definition rx_pending : cmx_state :=
  state_of (dsp_cmx_receive pf (boot 0) 1%nat [1; 2; 3]).

(** The decoder state a call of the DTMF decoder returned *)
Definition decoded (r : res Dtmf.dtmf_t) : Dtmf.dtmf_t :=
  match r with Ret dt => dt | _ => dtmf0 end.

(** Three frames of the HFC hardware decoder that all show the key 5 *)
Definition three_fives : list Z :=
  hfc_frame 1 1 ++ hfc_frame 1 1 ++ hfc_frame 1 1.

(** Two members in conference 1 that have both received three bytes *)
Definition pair_heard : cmx_state :=
  state_of (dsp_cmx_receive pf
    (state_of (dsp_cmx_receive pf pair_state 2%nat [200; 201; 202]))
    1%nat [100; 101; 102]).

(** Three members in conference 1 *)
Definition trio : cmx_state := state_of three_alone.

(** The state after dsp 1, alone, was sent five bytes *)
Definition silence_sent : cmx_state :=
  state_of (after_send (dsp_cmx_send pf 64 (boot 0) 1%nat 5 0)).

(** Three members in conference 1 with three bytes to read: dsp 1 has
    received the byte 129 (the sample 256) three times, and the
    conference sums at these positions are 30000, the lowest
    [signed long] and 512. *)
Definition trio_summed : cmx_state :=
  put_conf 0%nat
    (set_W_min 3
       (set_conf_buff
          ([30000; -2147483648; 512] ++ replicate 61 0)
          (the_conf trio 0)))
    (put_dsp 1%nat
       (set_rx_buff ([129; 129; 129] ++ replicate 61 42) (the_dsp trio 1))
       trio).

(** Three A-law samples *)
Definition three_samples : list Z := [1; 2; 3].

End Cases.

(** * Properties *)

(** ** Ring arithmetic *)

Module RingFacts.
Import Ring.

Lemma mod_cases (S x : Z) : 0 < S -> - S <= x < 2 * S ->
  x mod S = if x <? 0 then x + S else if x <? S then x else x - S.
Proof.
  intros HS Hx.
  destruct (Z.ltb_spec x 0); [|destruct (Z.ltb_spec x S)].
  - symmetry. apply (Z.mod_unique_pos _ _ (-1)); lia.
  - apply Z.mod_small; lia.
  - symmetry. apply (Z.mod_unique_pos _ _ 1); lia.
Qed.

Section WithPlatform.
Context (pf : platform).
Hypothesis Hbits : 0 < buff_bits pf.

Lemma size_pos : 0 < CMX_BUFF_SIZE pf.
Proof. unfold CMX_BUFF_SIZE. apply Z.pow_pos_nonneg; lia. Qed.

Lemma half_double : 2 * CMX_BUFF_HALF pf = CMX_BUFF_SIZE pf.
Proof.
  unfold CMX_BUFF_HALF, CMX_BUFF_SIZE.
  rewrite <- Z.pow_succ_r by lia. f_equal. lia.
Qed.

Lemma mask_mod (x : Z) : mask pf x = x mod CMX_BUFF_SIZE pf.
Proof. unfold mask, CMX_BUFF_MASK, CMX_BUFF_SIZE. apply Z.land_ones. lia. Qed.

Lemma mask_in_ring (x : Z) : in_ring pf (mask pf x).
Proof. rewrite mask_mod. apply Z.mod_pos_bound, size_pos. Qed.

Lemma mask_small (x : Z) : in_ring pf x -> mask pf x = x.
Proof. intros H. rewrite mask_mod. apply Z.mod_small, H. Qed.

Lemma next_in_ring (r : Z) : in_ring pf (next pf r).
Proof. apply mask_in_ring. Qed.

Lemma dist_zero (r rr : Z) :
  in_ring pf r -> in_ring pf rr -> (mask pf (rr - r) = 0 <-> r = rr).
Proof.
  unfold in_ring. intros Hr Hrr. rewrite mask_mod.
  pose proof size_pos.
  rewrite mod_cases by lia.
  destruct (Z.ltb_spec (rr - r) 0), (Z.ltb_spec (rr - r) (CMX_BUFF_SIZE pf)); lia.
Qed.

Lemma dist_next (r rr : Z) :
  in_ring pf r -> in_ring pf rr -> r <> rr ->
  mask pf (rr - next pf r) = mask pf (rr - r) - 1.
Proof.
  unfold in_ring, next. intros Hr Hrr Hne. rewrite !mask_mod.
  pose proof size_pos.
  rewrite (mod_cases _ (r + 1)) by lia.
  rewrite (mod_cases _ (rr - r)) by lia.
  destruct (Z.ltb_spec (r + 1) 0), (Z.ltb_spec (r + 1) (CMX_BUFF_SIZE pf)),
    (Z.ltb_spec (rr - r) 0), (Z.ltb_spec (rr - r) (CMX_BUFF_SIZE pf));
    try lia; rewrite mod_cases by lia;
    repeat match goal with |- context [?a <? ?b] => destruct (Z.ltb_spec a b) end; lia.
Qed.

Lemma dist_bound (r rr : Z) : 0 <= mask pf (rr - r) < CMX_BUFF_SIZE pf.
Proof. apply mask_in_ring. Qed.

(** Computing in 32-bit [int]s before masking gives what the unbounded
    integers give: the mask forgets every bit the wrap can change. *)
Lemma mask_int_wrap (x : Z) :
  buff_bits pf <= 32 -> mask pf (Cmx.int_wrap x) = mask pf x.
Proof.
  intros H32. rewrite !mask_mod. unfold Cmx.int_wrap, CMX_BUFF_SIZE.
  assert (Hdiv : (2 ^ buff_bits pf | 2 ^ 32)).
  { exists (2 ^ (32 - buff_bits pf)). rewrite <- Z.pow_add_r by lia.
    f_equal. lia. }
  rewrite <- (Zminus_mod_idemp_l ((x + 2 ^ 31) mod 2 ^ 32)).
  rewrite (Z.mod_mod_divide _ _ _ Hdiv), Zminus_mod_idemp_l.
  f_equal. lia.
Qed.

End WithPlatform.
End RingFacts.

(** ** The send path produces the frame it is asked for *)

Module SendFacts.
Import Ring Cmx Wf RingFacts.

Section WithPlatform.
Context (pf : platform).
Hypothesis Hbits : 0 < buff_bits pf.

Lemma rest_loop_length (g : Z -> Z) (rr : Z) (fuel : nat) :
  forall (r : Z) (out : list Z),
    in_ring pf r -> in_ring pf rr -> mask pf (rr - r) < Z.of_nat fuel ->
    exists out', rest_loop pf fuel g r rr out = Ret out' /\
      Z.of_nat (length out') = Z.of_nat (length out) + mask pf (rr - r).
Proof.
  induction fuel as [|fuel IH]; intros r out Hr Hrr Hf.
  - pose proof (dist_bound pf Hbits r rr). lia.
  - simpl. destruct (Z.eqb_spec r rr) as [->|Hne]; simpl.
    + exists out. split; [done|]. rewrite Z.sub_diag.
      rewrite (mask_small pf Hbits 0); [lia|]. pose proof (size_pos pf Hbits). unfold in_ring; lia.
    + pose proof (dist_next pf Hbits r rr Hr Hrr Hne) as Hd.
      destruct (IH (next pf r) (out ++ [g r])) as (out' & Ho & Hl);
        [apply next_in_ring; done | done | lia |].
      exists out'. split; [done|]. rewrite Hl, length_app. simpl. lia.
Qed.

Lemma mix_loop_length (f : Z -> Z -> Z) (rr tt : Z) (fuel : nat) :
  forall (r t : Z) (out : list Z),
    in_ring pf r -> in_ring pf rr -> mask pf (rr - r) < Z.of_nat fuel ->
    exists r1 t1 out1, mix_loop pf fuel f r rr t tt out = Ret (r1, t1, out1) /\
      in_ring pf r1 /\ mask pf (rr - r1) <= mask pf (rr - r) /\
      Z.of_nat (length out1) + mask pf (rr - r1)
      = Z.of_nat (length out) + mask pf (rr - r).
Proof.
  induction fuel as [|fuel IH]; intros r t out Hr Hrr Hf.
  - pose proof (dist_bound pf Hbits r rr). lia.
  - simpl. destruct (Z.eqb_spec r rr) as [->|Hne]; simpl.
    + exists rr, t, out. split_and!; try done; lia.
    + destruct (Z.eqb_spec t tt) as [->|Hnt]; simpl.
      * exists r, tt, out. split_and!; try done; lia.
      * pose proof (dist_next pf Hbits r rr Hr Hrr Hne) as Hd.
        destruct (IH (next pf r) (next pf t) (out ++ [f t r]))
          as (r1 & t1 & out1 & Ho & Hr1 & Hle & Hl);
          [apply next_in_ring; done | done | lia |].
        exists r1, t1, out1. split_and!; try done; [lia|].
        rewrite Hl, length_app. simpl. lia.
Qed.

Lemma mix_branch_length (f : Z -> Z -> Z) (g : Z -> Z) (fuel : nat)
    (r rr t tt : Z) (out : list Z) :
  in_ring pf r -> in_ring pf rr -> mask pf (rr - r) < Z.of_nat fuel ->
  exists t1 out1, mix_branch pf fuel f g r rr t tt out = Ret (t1, out1) /\
    Z.of_nat (length out1) = Z.of_nat (length out) + mask pf (rr - r).
Proof.
  intros Hr Hrr Hf. unfold mix_branch.
  destruct (mix_loop_length f rr tt fuel r t out Hr Hrr Hf)
    as (r1 & t1 & out1 & -> & Hr1 & Hle & Hl). simpl.
  destruct (rest_loop_length g rr fuel r1 out1 Hr1 Hrr) as (out2 & -> & Hl2);
    [lia|]. simpl.
  exists t1, out2. split; [done | lia].
Qed.

Lemma send_single_length (fuel : nat) (d : dsp_t) (r rr t tt : Z)
    (out : list Z) :
  in_ring pf r -> in_ring pf rr -> mask pf (rr - r) < Z.of_nat fuel ->
  exists t1 out1, send_single pf fuel d r rr t tt out = Ret (t1, out1) /\
    Z.of_nat (length out1) = Z.of_nat (length out) + mask pf (rr - r).
Proof.
  intros Hr Hrr Hf. unfold send_single.
  destruct (echo d); simpl; [by apply mix_branch_length|].
  destruct (mix_loop_length (fun t _ => rd (tx_buff d) t) rr tt fuel r t out
              Hr Hrr Hf) as (r1 & t1 & out1 & -> & Hr1 & Hle & Hl). simpl.
  destruct (Z.eqb_spec r1 rr) as [->|Hne]; simpl.
  - exists t1, out1. split; [done|].
    rewrite Z.sub_diag in Hl. rewrite (mask_small pf Hbits 0) in Hl; [lia|].
    pose proof (size_pos pf Hbits). unfold in_ring; lia.
  - exists t1, (out1 ++ replicate (Z.to_nat (mask pf (rr - r1)))
                           (if ulaw d then ulawsilence pf else alawsilence pf)).
    split; [done|]. rewrite length_app, length_replicate.
    pose proof (dist_bound pf Hbits r1 rr). lia.
Qed.

Lemma send_pair_length (fuel : nat) (d other : dsp_t) (r rr t tt : Z)
    (out : list Z) :
  in_ring pf r -> in_ring pf rr -> mask pf (rr - r) < Z.of_nat fuel ->
  exists t1 out1, send_pair pf fuel d other r rr t tt out = Ret (t1, out1) /\
    Z.of_nat (length out1) = Z.of_nat (length out) + mask pf (rr - r).
Proof.
  intros Hr Hrr Hf. unfold send_pair.
  destruct (echo d); simpl; by apply mix_branch_length.
Qed.

Lemma send_conf_length (fuel : nat) (d : dsp_t) (c : list Z) (r rr t tt : Z)
    (out : list Z) :
  in_ring pf r -> in_ring pf rr -> mask pf (rr - r) < Z.of_nat fuel ->
  exists t1 out1, send_conf pf fuel d c r rr t tt out = Ret (t1, out1) /\
    Z.of_nat (length out1) = Z.of_nat (length out) + mask pf (rr - r).
Proof.
  intros Hr Hrr Hf. unfold send_conf.
  destruct (echo d); simpl; by apply mix_branch_length.
Qed.

Lemma in_ringb_spec (i : Z) : in_ringb pf i = true <-> in_ring pf i.
Proof. unfold in_ringb, in_ring. rewrite andb_true_iff, Z.leb_le, Z.ltb_lt. done. Qed.

Lemma read_window_spec (r0 lim len r rr : Z) :
  in_ring pf r0 -> in_ring pf lim ->
  read_window pf r0 lim len = (r, rr) ->
  in_ring pf r /\ in_ring pf rr /\ mask pf (rr - r) = mask pf len.
Proof.
  intros Hr Hl. unfold read_window.
  destruct (CMX_BUFF_HALF pf <=? mask pf (lim - r0 - len)); intros [= <- <-].
  - split_and!; [apply mask_in_ring; done | done |].
    rewrite !(mask_mod pf Hbits), Zminus_mod_idemp_r. f_equal. lia.
  - split_and!; [done | apply mask_in_ring; done |].
    rewrite !(mask_mod pf Hbits), Zminus_mod_idemp_l. f_equal. lia.
Qed.

Lemma send_mix_length (fuel : nat) (st : cmx_state) (dsp : nat)
    (d d1 : dsp_t) (r rr t tt : Z) (out : list Z) :
  send_ready pf st d = true -> conf d1 = conf d ->
  in_ring pf r -> in_ring pf rr -> mask pf (rr - r) < Z.of_nat fuel ->
  forall (st1 : cmx_state),
    confs st1 = confs st -> dsps st1 = <[dsp := d1]> (dsps st) ->
    exists t1 out1,
      send_mix pf fuel st1 dsp d1 r rr t tt out = Ret (t1, out1) /\
      Z.of_nat (length out1) = Z.of_nat (length out) + mask pf (rr - r).
Proof.
  intros Hready Hconf Hr Hrr Hf st1 Hcs Hds. unfold send_mix.
  rewrite Hconf. unfold send_ready in Hready.
  apply andb_true_iff in Hready as [_ Hready].
  destruct (conf d) as [cf|]; [|by apply send_single_length].
  rewrite Hcs. unfold deref.
  destruct (confs st !! cf) as [c|]; [|done]. simpl.
  apply andb_true_iff in Hready as [Hready Hmap].
  apply andb_true_iff in Hready as [_ Hne].
  destruct (mlist c) as [|m1 [|m2 [|m3 ml]]]; [done | | |].
  - by apply send_single_length.
  - assert (Hother : forall a, a = m1 \/ a = m2 -> is_Some (dsps st1 !! a)).
    { intros a Ha. rewrite Hds.
      destruct (decide (dsp = a)) as [->|Hn];
        [rewrite lookup_insert_eq; eauto|rewrite lookup_insert_ne by done].
      unfold members_mapped in Hmap. simpl in Hmap.
      apply andb_true_iff in Hmap as [H1 Hmap].
      apply andb_true_iff in Hmap as [H2 _].
      apply bool_decide_eq_true in H1, H2. destruct Ha as [->| ->]; done. }
    destruct (Hother (if bool_decide (m1 = dsp) then m2 else m1)) as [o Ho].
    { destruct (bool_decide (m1 = dsp)); auto. }
    rewrite Ho. simpl. by apply send_pair_length.
  - by apply send_conf_length.
Qed.

Lemma dsp_tone_copy_length (d : dsp_t) (len : Z) :
  0 <= len -> Z.of_nat (length (dsp_tone_copy pf d len)) = len.
Proof. intros H. unfold dsp_tone_copy. rewrite length_map, length_seq. lia. Qed.

(** The bytes [dsp_cmx_send] writes into the frame: [len] of them for a
    tone, and as many as [r] is from [rr] otherwise, which is [len] taken
    in the ring. *)
Lemma send_frame_bytes (fuel : nat) (st : cmx_state) (dsp : nat)
    (d : dsp_t) (len dinfo : Z) :
  dsps st !! dsp = Some d ->
  heap_free st <> 0%nat ->
  send_ready pf st d = true ->
  0 <= len ->
  CMX_BUFF_SIZE pf <= Z.of_nat fuel ->
  exists skb st',
    dsp_cmx_send pf fuel st dsp len dinfo = Ret (Some skb, st') /\
    skb_len skb = len /\
    Z.of_nat (length (skb_data skb))
    = if tone d =? 0 then mask pf len else len.
Proof.
  intros Hd Hheap Hready Hlen Hfuel.
  unfold dsp_cmx_send, deref. rewrite Hd. simpl.
  destruct (heap_free st) as [|hf] eqn:Ehf; [done|].
  pose proof Hready as Hready'. unfold send_ready in Hready'.
  apply andb_true_iff in Hready' as [HR Hlim]. apply in_ringb_spec in HR.
  assert (exists lim, in_ring pf lim /\
    match conf d with
    | Some cf => let* c := match confs st !! cf with Some x => Ret x | None => Fault end in Ret (W_min c)
    | None => Ret (W_rx d)
    end = Ret lim) as (lim & Hlimr & ->).
  { destruct (conf d) as [cf|].
    - destruct (confs st !! cf) as [c|]; [|done].
      apply andb_true_iff in Hlim as [Hlim _].
      apply andb_true_iff in Hlim as [Hlim _].
      exists (W_min c). split; [by apply in_ringb_spec|done].
    - exists (W_rx d). split; [by apply in_ringb_spec|done]. }
  simpl.
  destruct (read_window pf (R_rx d) lim len) as [r rr] eqn:Ew.
  destruct (read_window_spec _ _ _ _ _ HR Hlimr Ew) as (Hr & Hrr & Hdist).
  pose proof (dist_bound pf Hbits r rr) as Hdb.
  destruct (tone d =? 0) eqn:Etone; simpl.
  2:{ eexists _, _. split; [done|]. simpl. split; [done|].
      apply dsp_tone_copy_length. lia. }
  destruct (tx_mix d) eqn:Emix; simpl.
  - edestruct (send_mix_length fuel st dsp d (set_R_rx rr d) r rr (R_tx d) (W_tx d) [])
      as (t1 & out1 & Hs & Hl); [done|done|done|done|lia| | |].
    3:{ rewrite Hs. simpl. eexists _, _. split; [done|]. simpl. split; [done|]. simpl in Hl. lia. }
    all: done.
  - destruct (Z.eqb_spec (R_tx d) (W_tx d)) as [Ett|Ett]; simpl.
    + edestruct (send_mix_length fuel st dsp d (set_R_rx rr d) r rr (R_tx d) (W_tx d) [])
        as (t1 & out1 & Hs & Hl); [done|done|done|done|lia| | |].
      3:{ rewrite Hs. simpl. eexists _, _. split; [done|]. simpl. split; [done|]. simpl in Hl. lia. }
      all: done.
    + destruct (mix_loop_length (fun t _ => rd (tx_buff d) t) rr (W_tx d) fuel r (R_tx d) [])
        as (r1 & t1 & out1 & Hm & Hr1 & Hle & Hl); [done|done|lia|].
      rewrite Hm. simpl.
      destruct (Z.eqb_spec r1 rr) as [->|Hne].
      * eexists _, _. split; [done|]. simpl. split; [done|].
        rewrite Z.sub_diag in Hl. rewrite (mask_small pf Hbits 0) in Hl; [simpl in Hl; lia|].
        pose proof (size_pos pf Hbits). unfold in_ring; lia.
      * edestruct (send_mix_length fuel st dsp d (set_R_rx rr d) r1 rr t1 (W_tx d) out1)
          as (t2 & out2 & Hs & Hl2); [done|done|done|done|lia| | |].
        3:{ rewrite Hs. simpl. eexists _, _. split; [done|]. simpl. split; [done|]. simpl in Hl. lia. }
        all: done.
Qed.

(** C1 (amended): for every call of [dsp_cmx_send] with
    [0 < len < CMX_BUFF_SIZE] on a well-formed dsp in which the frame is
    allocated, and with fuel for one turn of the ring, the function
    returns a frame to which exactly [len] bytes have been written,
    whatever branch produces them: tone, tx-data alone, tx-data followed
    by a mixing branch, one member, two members, three or more members,
    with echo or without. *)
Theorem send_frame_length (fuel : nat) (st : cmx_state) (dsp : nat)
    (d : dsp_t) (len dinfo : Z) :
  dsps st !! dsp = Some d ->
  heap_free st <> 0%nat ->
  send_ready pf st d = true ->
  0 < len < CMX_BUFF_SIZE pf ->
  CMX_BUFF_SIZE pf <= Z.of_nat fuel ->
  exists skb st',
    dsp_cmx_send pf fuel st dsp len dinfo = Ret (Some skb, st') /\
    skb_len skb = len /\
    Z.of_nat (length (skb_data skb)) = len.
Proof.
  intros Hd Hheap Hready Hlen Hfuel.
  destruct (send_frame_bytes fuel st dsp d len dinfo Hd Hheap Hready)
    as (skb & st' & Hs & Hl & Hb); [lia | done |].
  exists skb, st'. split; [done|]. split; [done|]. rewrite Hb.
  destruct (tone d =? 0); [|done].
  apply (mask_small pf Hbits). unfold in_ring. lia.
Qed.

(** Asked for one whole turn of the ring and without a tone, the send
    path writes nothing: [r] and [rr] coincide from the start. *)
Lemma send_whole_ring_writes_nothing (fuel : nat) (st : cmx_state)
    (dsp : nat) (d : dsp_t) (dinfo : Z) :
  dsps st !! dsp = Some d ->
  heap_free st <> 0%nat ->
  send_ready pf st d = true ->
  tone d = 0 ->
  CMX_BUFF_SIZE pf <= Z.of_nat fuel ->
  exists skb st',
    dsp_cmx_send pf fuel st dsp (CMX_BUFF_SIZE pf) dinfo
    = Ret (Some skb, st') /\
    skb_len skb = CMX_BUFF_SIZE pf /\ skb_data skb = [].
Proof.
  intros Hd Hheap Hready Htone Hfuel. pose proof (size_pos pf Hbits).
  destruct (send_frame_bytes fuel st dsp d (CMX_BUFF_SIZE pf) dinfo
              Hd Hheap Hready) as (skb & st' & Hs & Hl & Hb); [lia | done |].
  exists skb, st'. split; [done|]. split; [done|].
  rewrite Htone, mask_mod, Z.mod_same in Hb by lia.
  destruct (skb_data skb); [done | simpl in Hb; lia].
Qed.

Lemma send_result_R_rx (fuel : nat) (st : cmx_state) (dsp : nat)
    (d : dsp_t) (len dinfo lim : Z) (skb : sk_buff) (st' : cmx_state) :
  dsps st !! dsp = Some d ->
  read_limit st d = Some lim ->
  dsp_cmx_send pf fuel st dsp len dinfo = Ret (Some skb, st') ->
  exists d', dsps st' !! dsp = Some d' /\
    R_rx d' = snd (read_window pf (R_rx d) lim len).
Proof.
  intros Hd Hlim. unfold dsp_cmx_send, deref. rewrite Hd. simpl.
  destruct (heap_free st) as [|hf]; [done|].
  unfold read_limit in Hlim.
  assert (match conf d with
    | Some cf => let* c := match confs st !! cf with Some x => Ret x | None => Fault end in Ret (W_min c)
    | None => Ret (W_rx d)
    end = Ret lim) as ->.
  { destruct (conf d) as [cf|]; [|by inversion Hlim].
    destruct (confs st !! cf) as [c|]; [|done]. by inversion Hlim. }
  simpl. destruct (read_window pf (R_rx d) lim len) as [r rr]. simpl.
  destruct (negb (tone d =? 0)).
  { intros [= <- <-]. eexists. simpl. rewrite lookup_insert_eq. done. }
  match goal with |- context [res_bind ?m _] => destruct m as [[[r1 t1] out1]| |] end;
    simpl; try done.
  destruct (negb (tx_mix d) && negb (R_tx d =? W_tx d) && (r1 =? rr)).
  { intros [= <- <-]. eexists. simpl. rewrite lookup_insert_eq. done. }
  match goal with |- context [res_bind ?m _] => destruct m as [[t2 out2]| |] end;
    simpl; try done.
  intros [= <- <-]. eexists. simpl. rewrite lookup_insert_eq. done.
Qed.

(** C10: every call of [dsp_cmx_send] that returns a frame has set
    [R_rx] of the dsp, in every branch and also when a tone replaces the
    output: to [rr], which lies [len] bytes (in the ring) beyond the read
    start [r].  With the read limit [lim] ([conf->W_min] in a conference,
    else [W_rx]): if reading [len] bytes from the old [R_rx] would pass
    the limit, [rr] is the limit and [r] is [(lim - len) & CMX_BUFF_MASK];
    otherwise [r] is the old [R_rx] and [rr] is
    [(R_rx + len) & CMX_BUFF_MASK]. *)
Theorem send_sets_R_rx (fuel : nat) (st : cmx_state) (dsp : nat)
    (d : dsp_t) (len dinfo lim : Z) (skb : sk_buff) (st' : cmx_state) :
  dsps st !! dsp = Some d ->
  read_limit st d = Some lim ->
  dsp_cmx_send pf fuel st dsp len dinfo = Ret (Some skb, st') ->
  exists d' r, dsps st' !! dsp = Some d' /\
    mask pf (R_rx d' - r) = mask pf len /\
    if CMX_BUFF_HALF pf <=? mask pf (lim - R_rx d - len)
    then R_rx d' = lim /\ r = mask pf (lim - len)
    else R_rx d' = mask pf (R_rx d + len) /\ r = R_rx d.
Proof.
  intros Hd Hlim Hs.
  destruct (send_result_R_rx _ _ _ _ _ _ _ _ _ Hd Hlim Hs) as (d' & Hd' & HR).
  exists d', (fst (read_window pf (R_rx d) lim len)).
  split; [done|]. rewrite HR. unfold read_window.
  destruct (CMX_BUFF_HALF pf <=? mask pf (lim - R_rx d - len)); simpl.
  - split; [|done]. rewrite !(mask_mod pf Hbits), Zminus_mod_idemp_r. f_equal. lia.
  - split; [|done]. rewrite !(mask_mod pf Hbits), Zminus_mod_idemp_l. f_equal. lia.
Qed.

End WithPlatform.
End SendFacts.

(** ** The receive path *)

Module ReceiveFacts.
Import Ring Cmx Wf RingFacts.

Lemma rd_wr_eq (a : list Z) (i v : Z) :
  0 <= i < Z.of_nat (length a) -> rd (wr a i v) i = v.
Proof.
  intros H. unfold rd, wr. apply list_lookup_total_insert_eq. lia.
Qed.

Lemma rd_wr_ne (a : list Z) (i j v : Z) :
  0 <= i -> 0 <= j -> i <> j -> rd (wr a i v) j = rd a j.
Proof.
  intros Hi Hj Hne. unfold rd, wr. apply list_lookup_total_insert_ne. lia.
Qed.

Lemma wr_length (a : list Z) (i v : Z) : length (wr a i v) = length a.
Proof. apply length_insert. Qed.

Lemma bump_largest (d : dsp_t) (x : Z) :
  (if largest d <? x then set_largest x d else d)
  = set_largest (Z.max (largest d) x) d.
Proof.
  destruct d as [? ? ? ? ? ? ? ? ? ? ? ? ? L ? ?]. unfold set_largest. simpl.
  destruct (Z.ltb_spec L x); f_equal; lia.
Qed.

Lemma bump_c_largest (c : conference_t) (x : Z) :
  (if c_largest c <? x then set_c_largest x c else c)
  = set_c_largest (Z.max (c_largest c) x) c.
Proof.
  destruct c as [? ? ? ? ? ? ? L]. unfold set_c_largest. simpl.
  destruct (Z.ltb_spec L x); f_equal; lia.
Qed.

Lemma int_wrap_double (len : Z) :
  0 <= len < 2 ^ 30 -> int_wrap (Z.shiftl len 1) = 2 * len.
Proof.
  intros H. rewrite Z.shiftl_mul_pow2 by lia. unfold int_wrap.
  change (2 ^ 1) with 2. rewrite Z.mod_small; lia.
Qed.

Section WithPlatform.
Context (pf : platform).
Hypothesis Hbits : 0 < buff_bits pf.

Lemma mask_shift_ne (w k : Z) :
  0 < k < CMX_BUFF_SIZE pf -> mask pf (w + k) <> mask pf w.
Proof.
  intros Hk Heq. rewrite !(mask_mod pf Hbits) in Heq.
  assert (H : ((w + k) - w) mod CMX_BUFF_SIZE pf = 0).
  { rewrite Zminus_mod, Heq, Z.sub_diag. apply Z.mod_0_l.
    pose proof (size_pos pf Hbits). lia. }
  replace (w + k - w) with k in H by lia.
  rewrite Z.mod_small in H; lia.
Qed.

Lemma rx_write_length (p : list Z) :
  forall (d : list Z) (w : Z), length (rx_write pf d w p) = length d.
Proof.
  induction p as [|b p IH]; intros d w; simpl; [done|].
  rewrite IH. apply wr_length.
Qed.

Lemma rx_write_other (p : list Z) :
  forall (d : list Z) (w j : Z),
    0 <= j ->
    (forall k, 0 <= k < Z.of_nat (length p) -> mask pf (w + k) <> j) ->
    rd (rx_write pf d w p) j = rd d j.
Proof.
  induction p as [|b p IH]; intros d w j Hj Hk; simpl; [done|].
  rewrite IH; [| done |].
  - apply rd_wr_ne; [apply (mask_in_ring pf Hbits) | done |].
    specialize (Hk 0). rewrite Z.add_0_r in Hk. apply Hk. simpl. lia.
  - intros k Hkr. replace (w + 1 + k) with (w + (k + 1)) by lia.
    apply Hk. simpl length. lia.
Qed.

Lemma rx_write_stored (p : list Z) :
  forall (d : list Z) (w : Z) (i : nat),
    Z.of_nat (length d) = CMX_BUFF_SIZE pf ->
    Z.of_nat (length p) <= CMX_BUFF_SIZE pf ->
    (i < length p)%nat ->
    rd (rx_write pf d w p) (mask pf (w + Z.of_nat i)) = nth i p 0.
Proof.
  induction p as [|b p IH]; intros d w i Hd Hp Hi; simpl in *; [lia|].
  destruct i as [|i].
  - rewrite Z.add_0_r. rewrite rx_write_other.
    + apply rd_wr_eq. pose proof (mask_in_ring pf Hbits w). unfold in_ring in *. lia.
    + apply (mask_in_ring pf Hbits).
    + intros k Hk. replace (w + 1 + k) with (w + (k + 1)) by lia.
      apply mask_shift_ne. lia.
  - replace (w + Z.of_nat (S i)) with (w + 1 + Z.of_nat i) by lia.
    apply IH; [rewrite wr_length; done | lia | lia].
Qed.

Lemma lowest_W_rx_mapped (ds : gmap nat dsp_t) (own : option nat)
    (members : list nat) :
  forall W, forallb (fun m => bool_decide (is_Some (ds !! m))) members = true ->
    exists W', lowest_W_rx pf ds own members W = Ret W'.
Proof.
  induction members as [|m l IH]; intros W Hm; simpl in *; [eauto|].
  apply andb_true_iff in Hm as [Hm Hl]. apply bool_decide_eq_true in Hm as [md Hmd].
  destruct (bool_decide (Some m <> own)); [|by apply IH].
  unfold deref. rewrite Hmd. simpl.
  destruct (behind pf (W_rx md) W); by apply IH.
Qed.

Lemma lowest_W_rx_ext (ds1 ds2 : gmap nat dsp_t) (own : option nat)
    (members : list nat) :
  (forall m, W_rx <$> ds1 !! m = W_rx <$> ds2 !! m) ->
  forall W, lowest_W_rx pf ds1 own members W = lowest_W_rx pf ds2 own members W.
Proof.
  intros Hext. induction members as [|m l IH]; intros W; simpl; [done|].
  destruct (bool_decide (Some m <> own)); [|by apply IH].
  unfold deref. specialize (Hext m).
  destruct (ds1 !! m) as [d1|], (ds2 !! m) as [d2|]; simpl in *; try done.
  injection Hext as ->. destruct (behind pf (W_rx d2) W); apply IH.
Qed.

(** X28: the overflow guard for a member of a conference, for a frame
    that has passed the length checks.  [largest] of the dsp and of the
    conference are first raised to the maximum of both and of twice the
    length; W_min is the lowest write pointer the scan of the members
    yields, and it is stored in the conference before the guard is
    tested; W_max is the later of W_min and the old [conf->W_max].  The
    frame is dropped exactly when [(W_max - W_min) & CMX_BUFF_MASK]
    exceeds the raised [largest]: then [W_rx], [conf->W_max], [rx_buff]
    and [conf_buff] are what they were.  Otherwise the frame is stored
    in [rx_buff] from [W_rx] on, [W_rx] advances by its length in the
    ring and [conf->W_max] becomes W_max. *)
Theorem receive_guard_decides (st : cmx_state) (dsp cf : nat) (d : dsp_t)
    (c : conference_t) (skb : list Z) :
  dsps st !! dsp = Some d -> conf d = Some cf -> confs st !! cf = Some c ->
  members_mapped st (mlist c) = true ->
  Z.of_nat (length (rx_buff d)) = CMX_BUFF_SIZE pf ->
  1 <= Z.of_nat (length skb) < Z.shiftr (CMX_BUFF_HALF pf) 2 ->
  let L := Z.max (Z.max (largest d)
                    (int_wrap (Z.shiftl (Z.of_nat (length skb)) 1)))
             (c_largest c) in
  exists Wm st' d' c',
    lowest_W_rx pf (dsps st) (member d) (mlist c)
      (mask pf (W_rx d + Z.of_nat (length skb))) = Ret Wm /\
    dsp_cmx_receive pf st dsp skb = Ret st' /\
    dsps st' !! dsp = Some d' /\ confs st' !! cf = Some c' /\
    largest d' = L /\ c_largest c' = L /\ W_min c' = Wm /\
    let W_max_new := if behind pf Wm (W_max c) then W_max c else Wm in
    if L <? mask pf (W_max_new - Wm)
    then W_rx d' = W_rx d /\ W_max c' = W_max c /\
         rx_buff d' = rx_buff d /\ conf_buff c' = conf_buff c
    else W_rx d' = mask pf (W_rx d + Z.of_nat (length skb)) /\
         W_max c' = W_max_new /\
         forall i : nat, (i < length skb)%nat ->
           rd (rx_buff d') (mask pf (W_rx d + Z.of_nat i)) = nth i skb 0.
Proof.
  intros Hd Hcf Hc Hmap Hbuf Hlen. cbv zeta.
  assert (Hsz : Z.of_nat (length skb) <= CMX_BUFF_SIZE pf).
  { pose proof (half_double pf Hbits). pose proof (size_pos pf Hbits).
    rewrite Z.shiftr_div_pow2 in Hlen by lia. change (2 ^ 2) with 4 in Hlen.
    assert (CMX_BUFF_HALF pf / 4 <= CMX_BUFF_HALF pf)
      by (apply Z.div_le_upper_bound; lia). lia. }
  unfold dsp_cmx_receive, deref. rewrite Hd. cbn [res_bind].
  destruct (Z.ltb_spec (Z.of_nat (length skb)) 1) as [?|_]; [lia|].
  rewrite bump_largest. set (d1 := set_largest _ d).
  destruct (Z.leb_spec (Z.shiftr (CMX_BUFF_HALF pf) 2) (Z.of_nat (length skb)))
    as [?|_]; [lia|].
  change (conf d1) with (conf d). rewrite Hcf, Hc. cbn [res_bind].
  rewrite bump_c_largest, bump_largest.
  set (c1 := set_c_largest _ c). set (d2 := set_largest _ d1).
  set (L := Z.max (Z.max (largest d)
                     (int_wrap (Z.shiftl (Z.of_nat (length skb)) 1)))
              (c_largest c)).
  assert (HL2 : largest d2 = L)
    by (subst d2 c1 d1 L; cbn [largest set_largest c_largest set_c_largest];
        lia).
  assert (HL1 : c_largest c1 = L)
    by (subst c1 d1 L; cbn [largest set_largest c_largest set_c_largest];
        lia).
  change (member d2) with (member d). change (mlist c1) with (mlist c).
  change (W_rx d1) with (W_rx d). change (W_rx d2) with (W_rx d).
  change (rx_buff d2) with (rx_buff d).
  assert (Hlow : lowest_W_rx pf (<[dsp:=d2]> (dsps st)) (member d) (mlist c)
                   (mask pf (W_rx d + Z.of_nat (length skb)))
                 = lowest_W_rx pf (dsps st) (member d) (mlist c)
                   (mask pf (W_rx d + Z.of_nat (length skb)))).
  { apply lowest_W_rx_ext. intros m.
    destruct (decide (dsp = m)) as [<-|Hn].
    - rewrite lookup_insert_eq, Hd. done.
    - by rewrite lookup_insert_ne. }
  rewrite Hlow.
  destruct (lowest_W_rx_mapped (dsps st) (member d) (mlist c)
              (mask pf (W_rx d + Z.of_nat (length skb))) Hmap) as [Wm HWm].
  rewrite HWm. cbn [res_bind].
  change (W_max (set_W_min Wm c1)) with (W_max c).
  set (Wx := if behind pf Wm (W_max c) then W_max c else Wm).
  exists Wm.
  destruct (mask pf (Wx - Wm) <=? largest d2) eqn:Eg; rewrite HL2 in Eg.
  - match goal with
    | |- context [if conf_next_next ?a ?b then ?x else ?y] =>
        assert (exists c3, (if conf_next_next a b then x else y) = c3
                           /\ W_min c3 = Wm /\ c_largest c3 = L)
          as (c3 & -> & HW3 & HL3)
    end.
    { destruct (conf_next_next (Conf_list st) cf); [|eauto].
      destruct (conf_add _ _ _ _ _ _) as [[cb w] rest]. eauto. }
    eexists _, _, _. split; [done|]. split; [done|].
    cbn [dsps confs put_conf put_dsp].
    rewrite !lookup_insert_eq. split; [done|]. split; [done|].
    cbn [largest set_W_rx set_rx_buff c_largest set_W_max W_min W_rx W_max
         rx_buff].
    split; [done|]. split; [done|]. split; [done|].
    fold Wx. rewrite (Z.ltb_antisym (mask pf (Wx - Wm)) L), Eg. cbn [negb].
    split; [done|]. split; [done|].
    intros i Hi. apply rx_write_stored; done.
  - eexists _, _, _. split; [done|]. split; [done|].
    cbn [dsps confs put_conf put_dsp].
    rewrite !lookup_insert_eq. split; [done|]. split; [done|].
    split; [done|]. split; [done|]. split; [done|].
    fold Wx. rewrite (Z.ltb_antisym (mask pf (Wx - Wm)) L), Eg. cbn [negb].
    done.
Qed.

(** Without two further conferences behind it in [Conf_list], a
    conference gets nothing written to its [conf_buff], however many
    members it has. *)
Lemma receive_conf_buff_last_in_chain (st : cmx_state) (dsp cf : nat)
    (d : dsp_t) (c : conference_t) (skb : list Z) (st' : cmx_state) :
  dsps st !! dsp = Some d -> conf d = Some cf -> confs st !! cf = Some c ->
  conf_next_next (Conf_list st) cf = false ->
  dsp_cmx_receive pf st dsp skb = Ret st' ->
  conf_buff <$> confs st' !! cf = Some (conf_buff c).
Proof.
  intros Hd Hconf Hc Hnn. unfold dsp_cmx_receive, deref.
  rewrite Hd. cbn [res_bind].
  destruct (Z.of_nat (length skb) <? 1); [intros [= <-]; by rewrite Hc|].
  rewrite bump_largest. set (d1 := set_largest _ d).
  destruct (_ <=? Z.of_nat (length skb));
    [intros [= <-]; cbn; by rewrite Hc|].
  change (conf d1) with (conf d). rewrite Hconf, Hc. cbn [res_bind].
  rewrite bump_c_largest, bump_largest, Hnn.
  destruct (lowest_W_rx _ _ _ _ _) as [Wm| |]; cbn [res_bind]; try done.
  destruct (_ <=? _); intros [= <-]; cbn; by rewrite lookup_insert_eq.
Qed.

(** C5 (amended): [dsp_cmx_receive] rejects a frame for its size
    exactly when its length is below 1 or at least [CMX_BUFF_HALF >> 2].
    The [largest] of the dsp is raised to the maximum of itself and twice
    the length before the upper size check, for every frame that is not
    empty: an empty frame leaves the state as it is, and a frame dropped
    as too large changes [largest] of the dsp and nothing else.  A frame
    of a length in between is not rejected for its size: outside a
    conference it is stored, and in a conference [largest] is levelled
    between the dsp and the conference. *)
Theorem receive_size_check (st : cmx_state) (dsp : nat) (d : dsp_t)
    (skb : list Z) :
  dsps st !! dsp = Some d ->
  Z.of_nat (length skb) < 2 ^ 30 ->
  let len := Z.of_nat (length skb) in
  let d1 := set_largest (Z.max (largest d) (2 * len)) d in
  (len < 1 -> dsp_cmx_receive pf st dsp skb = Ret st) /\
  (1 <= len -> Z.shiftr (CMX_BUFF_HALF pf) 2 <= len ->
   dsp_cmx_receive pf st dsp skb = Ret (put_dsp dsp d1 st)) /\
  (1 <= len < Z.shiftr (CMX_BUFF_HALF pf) 2 ->
   conf d = None -> 0 <= largest d ->
   dsp_cmx_receive pf st dsp skb
   = Ret (put_dsp dsp
            (set_W_rx (mask pf (W_rx d + len))
               (set_rx_buff (rx_write pf (rx_buff d) (W_rx d) skb) d1))
            st)) /\
  (1 <= len < Z.shiftr (CMX_BUFF_HALF pf) 2 ->
   forall (cf : nat) (c : conference_t),
     conf d = Some cf -> confs st !! cf = Some c ->
     members_mapped st (mlist c) = true ->
     exists st' d' c',
       dsp_cmx_receive pf st dsp skb = Ret st' /\
       dsps st' !! dsp = Some d' /\ confs st' !! cf = Some c' /\
       largest d' = Z.max (Z.max (largest d) (2 * len)) (c_largest c) /\
       c_largest c' = largest d').
Proof.
  intros Hd Hsmall len d1.
  assert (Hlen0 : 0 <= len) by (subst len; lia).
  unfold dsp_cmx_receive, deref. rewrite Hd. simpl. fold len.
  split_and!.
  - intros H. destruct (Z.ltb_spec len 1); [done|lia].
  - intros H1 H2. destruct (Z.ltb_spec len 1); [lia|].
    rewrite bump_largest, int_wrap_double by lia.
    destruct (Z.leb_spec (Z.shiftr (CMX_BUFF_HALF pf) 2) len); [done|lia].
  - intros H Hconf Hl. destruct (Z.ltb_spec len 1); [lia|].
    rewrite bump_largest, int_wrap_double by lia. fold d1.
    destruct (Z.leb_spec (Z.shiftr (CMX_BUFF_HALF pf) 2) len); [lia|].
    change (conf d1) with (conf d). rewrite Hconf.
    rewrite Z.sub_diag, (mask_small pf Hbits 0)
      by (pose proof (size_pos pf Hbits); unfold in_ring; lia).
    change (largest d1) with (Z.max (largest d) (2 * len)).
    destruct (Z.leb_spec 0 (Z.max (largest d) (2 * len))); [done|lia].
  - intros H cf c Hconf Hc Hmap. destruct (Z.ltb_spec len 1); [lia|].
    rewrite bump_largest, int_wrap_double by lia. fold d1.
    destruct (Z.leb_spec (Z.shiftr (CMX_BUFF_HALF pf) 2) len); [lia|].
    change (conf d1) with (conf d). rewrite Hconf, Hc. cbn [res_bind].
    rewrite bump_c_largest. rewrite bump_largest.
    set (c1 := set_c_largest _ c). set (d2 := set_largest _ d1).
    assert (HL : largest d2
                 = Z.max (Z.max (largest d) (2 * len)) (c_largest c)
                 /\ c_largest c1 = largest d2).
    { subst d2 c1 d1. simpl. lia. }
    destruct HL as [HL1 HL2].
    change (mlist c1) with (mlist c). change (member d2) with (member d).
    destruct (lowest_W_rx_mapped (<[dsp:=d2]> (dsps st)) (member d)
                (mlist c) (mask pf (W_rx d1 + len))) as [Wm HWm].
    { unfold members_mapped in Hmap. rewrite forallb_forall in Hmap |- *.
      intros m Hm. specialize (Hmap m Hm).
      apply bool_decide_eq_true in Hmap. apply bool_decide_eq_true.
      destruct (decide (dsp = m)) as [->|Hn];
        [rewrite lookup_insert_eq; eauto | by rewrite lookup_insert_ne]. }
    rewrite HWm. cbn [res_bind].
    match goal with |- context [if ?g <=? largest d2 then _ else _] =>
      destruct (g <=? largest d2) end.
    + match goal with
      | |- context [if conf_next_next ?a ?b then ?x else ?y] =>
          assert (exists c3, (if conf_next_next a b then x else y) = c3
                             /\ c_largest c3 = c_largest c1) as (c3 & -> & HW3)
      end.
      { destruct (conf_next_next (Conf_list st) cf); [|eauto].
        destruct (conf_add _ _ _ _ _ _) as [[cb w] rest]. eauto. }
      eexists _, _, _. split; [done|]. simpl.
      rewrite !lookup_insert_eq. split; [done|]. split; [done|].
      simpl. rewrite HW3. done.
    + eexists _, _, _. split; [done|]. simpl.
      rewrite !lookup_insert_eq. split; [done|]. split; [done|].
      simpl. done.
Qed.

End WithPlatform.
End ReceiveFacts.

(** ** The DTMF debouncer *)

Module DtmfFacts.
Import Dtmf DtmfHistory.

Section WithPlatform.
Context (pf : platform).

Lemma eqb_false_ne (a b : ascii) : Ascii.eqb a b = false <-> a <> b.
Proof. apply Ascii.eqb_neq. Qed.

(** What the counter remembers of the frames seen *)
Lemma history_count (dt : dtmf_t) (whats : list ascii) :
  history pf dt whats ->
  0 <= count dt <= 2 /\
  (1 <= count dt -> exists pre, whats = pre ++ [lastwhat dt]) /\
  (count dt = 2 -> exists pre, whats = pre ++ [lastwhat dt; lastwhat dt]).
Proof.
  induction 1 as [dt|dt whats what H IH|dt whats H IH|dt whats sz buf H IH];
    simpl; try done.
  destruct IH as (Hc & H1 & H2). unfold storedigit.
    destruct (Ascii.eqb_spec (lastwhat dt) what) as [E|E]; simpl.
    + destruct (Z.eqb_spec (count dt) 2) as [E2|E2].
      * destruct (H2 E2) as [pre ->]. subst what.
        assert (Hpre : exists pre0, (pre ++ [lastwhat dt; lastwhat dt]) ++ [lastwhat dt]
                        = pre0 ++ [lastwhat dt; lastwhat dt]).
        { exists (pre ++ [lastwhat dt]). by rewrite <- !app_assoc. }
        destruct (negb (Ascii.eqb (lastdigit dt) (lastwhat dt))); simpl;
          (split; [lia|]); (split; [intros _; eexists; done | intros _; done]).
      * simpl. split; [lia|]. subst what. split; [intros _; eexists; done|].
        intros E3. assert (E1 : 1 <= count dt) by lia.
        destruct (H1 E1) as [pre ->]. exists pre. by rewrite <- app_assoc.
    + simpl. split; [lia|]. split; [intros _; eexists; done | lia].
Qed.

Lemma storedigit_emits (dt : dtmf_t) (what : ascii) :
  digits (storedigit pf dt what) <> digits dt ->
  lastwhat dt = what /\ count dt = 2 /\ lastdigit dt <> what /\ what <> NUL
  /\ digits (storedigit pf dt what) = digits dt ++ [what].
Proof.
  unfold storedigit.
  destruct (Ascii.eqb_spec (lastwhat dt) what) as [E|E]; simpl; [|done].
  destruct (Z.eqb_spec (count dt) 2) as [E2|E2]; [|done].
  destruct (Ascii.eqb_spec (lastdigit dt) what) as [E3|E3]; simpl; [done|].
  destruct (Ascii.eqb_spec what NUL) as [E4|E4]; simpl; [done|].
  destruct (length (digits dt) + 1 <? dtmf_digits_size pf)%nat; [|done].
  done.
Qed.


Lemma last_snoc2 (pre whats : list ascii) (a b : ascii) :
  whats = pre ++ [a; b] -> last whats = Some b.
Proof.
  intros ->. change [a; b] with ([a] ++ [b]). rewrite app_assoc.
  apply last_snoc.
Qed.

(** C9: at a frame boundary the decoder appends a digit only if the
    decision of this frame is also the decision of the two frames before
    it and differs from [lastdigit] (and is not "no tone").  So a
    decision [x] held for two frames only, after a frame that decided
    otherwise and before one that decides otherwise, appends nothing. *)
Theorem dtmf_emission_needs_three_frames (dt : dtmf_t)
    (whats : list ascii) :
  history pf dt whats ->
  (forall what : ascii,
     digits (storedigit pf dt what) <> digits dt ->
     (exists pre, whats = pre ++ [what; what]) /\
     lastdigit dt <> what /\ what <> NUL) /\
  (forall x z : ascii,
     last whats <> Some x -> z <> x ->
     digits (storedigit pf (storedigit pf (storedigit pf dt x) x) z)
     = digits dt).
Proof.
  intros H.
  assert (A : forall d ws w, history pf d ws ->
    digits (storedigit pf d w) <> digits d ->
    (exists pre, ws = pre ++ [w; w]) /\ lastdigit d <> w /\ w <> NUL).
  { intros d ws w Hh He.
    destruct (storedigit_emits d w He) as (E1 & E2 & E3 & E4 & _).
    destruct (history_count d ws Hh) as (_ & _ & H2).
    destruct (H2 E2) as [pre Hpre]. rewrite E1 in Hpre. eauto. }
  split; [intros what; by apply A|].
  intros x z Hlast Hz.
  pose proof (history_frame pf dt whats x H) as H1.
  pose proof (history_frame pf _ _ x H1) as H2.
  destruct (decide (digits (storedigit pf dt x) = digits dt)) as [E1|N1].
  2:{ destruct (A _ _ _ H N1) as ([pre Hpre] & _).
      apply last_snoc2 in Hpre. done. }
  destruct (decide (digits (storedigit pf (storedigit pf dt x) x)
                    = digits (storedigit pf dt x))) as [E2|N2].
  2:{ destruct (A _ _ _ H1 N2) as ([pre Hpre] & _).
      change [x; x] with ([x] ++ [x]) in Hpre. rewrite app_assoc in Hpre.
      apply app_inj_tail in Hpre as [Hpre _].
      rewrite Hpre, last_snoc in Hlast. done. }
  destruct (decide (digits (storedigit pf (storedigit pf (storedigit pf dt x) x) z)
                    = digits (storedigit pf (storedigit pf dt x) x))) as [E3|N3].
  2:{ destruct (A _ _ _ H2 N3) as ([pre Hpre] & _).
      change [z; z] with ([z] ++ [z]) in Hpre. rewrite app_assoc in Hpre.
      apply app_inj_tail in Hpre as [_ Hpre]. congruence. }
  congruence.
Qed.

(** The decoder only moves along [history]. *)
Lemma decode_again_history (fuel : nat) :
  forall (dt : dtmf_t) (whats : list ascii) (data : list Z) (fmt : Z)
         (dt' : dtmf_t),
    history pf dt whats ->
    decode_again pf fuel dt data fmt = Ret dt' ->
    exists ws, history pf dt' (whats ++ ws).
Proof.
  induction fuel as [|fuel IH]; intros dt whats data fmt dt' H; simpl;
    [done|].
  destruct ((fmt =? 0) || (fmt =? 1)).
  - destruct (convert pf _ (buffer dt) (size dt) data) as [[buf sz] data'].
    destruct (sz <? dtmf_npoints pf)%nat.
    + intros [= <-]. exists []. rewrite app_nil_r.
      apply (history_refill pf dt whats sz buf H).
    + intros Hrec.
      match type of Hrec with
      | decode_again _ _ (storedigit _ _ ?w) _ _ = _ =>
          apply (IH _ (whats ++ [w])) in Hrec as [ws Hws];
            [exists (w :: ws); rewrite <- app_assoc in Hws; exact Hws|]
      end.
      apply history_frame. apply (history_refill pf dt whats 0 buf H).
  - destruct data as [|b data]; [intros [= <-]; exists []; by rewrite app_nil_r|].
    destruct (length (b :: data) <? 32)%nat;
      [intros [= <-]; exists []; by rewrite app_nil_r|].
    intros Hrec.
    match type of Hrec with
    | decode_again _ _ (storedigit _ _ ?w) _ _ = _ =>
        apply (IH _ (whats ++ [w])) in Hrec as [ws Hws];
          [exists (w :: ws); rewrite <- app_assoc in Hws; exact Hws|]
    end.
    by apply history_frame.
Qed.

Lemma decode_history (fuel : nat) (dt : dtmf_t) (whats : list ascii)
    (data : list Z) (fmt : Z) (dt' : dtmf_t) :
  history pf dt whats ->
  dsp_dtmf_goertzel_decode pf fuel dt data fmt = Ret dt' ->
  exists ws, history pf dt' (whats ++ ws).
Proof.
  intros H. unfold dsp_dtmf_goertzel_decode.
  apply decode_again_history. apply (history_call pf dt whats H).
Qed.

(** The sample conversion stops at a full buffer or at the end of the
    data. *)
Lemma convert_spec (law : Z -> Z) (data : list Z) :
  forall (buf : list Z) (sz : nat) (buf' : list Z) (sz' : nat)
         (data' : list Z),
    convert pf law buf sz data = (buf', sz', data') ->
    (sz <= dtmf_npoints pf -> sz' <= dtmf_npoints pf)%nat /\
    (sz <= sz')%nat /\
    (length data' + (sz' - sz) = length data)%nat /\
    ((sz' < dtmf_npoints pf)%nat -> data' = []).
Proof.
  induction data as [|b data IH]; intros buf sz buf' sz' data'; simpl.
  - intros [= <- <- <-]. simpl. split_and!; [done | done | lia | done].
  - destruct (Nat.ltb_spec sz (dtmf_npoints pf)).
    + intros Hc. apply IH in Hc as (H1 & H2 & H3 & H4).
      split_and!; [lia | lia | lia | done].
    + intros [= <- <- <-]. simpl. split_and!; [lia | lia | lia | lia].
Qed.

Lemma storedigit_size (dt : dtmf_t) (what : ascii) :
  size (storedigit pf dt what) = size dt.
Proof.
  unfold storedigit.
  repeat match goal with |- context [if ?b then _ else _] => destruct b end;
    done.
Qed.

(** With a frame size above 0 the decoder returns: one passage for a
    buffer found full, and one for every frame begun in the data. *)
Lemma decode_again_total (fuel : nat) :
  forall (dt : dtmf_t) (data : list Z) (fmt : Z),
    (0 < dtmf_npoints pf)%nat ->
    (length data + 2 <= fuel + (if (size dt <? dtmf_npoints pf)%nat
                                then 1 else 0))%nat ->
    exists dt', decode_again pf fuel dt data fmt = Ret dt'.
Proof.
  induction fuel as [|fuel IH]; intros dt data fmt Hn Hf; simpl.
  - destruct (size dt <? dtmf_npoints pf)%nat; lia.
  - destruct ((fmt =? 0) || (fmt =? 1)).
    + destruct (convert pf _ (buffer dt) (size dt) data)
        as [[buf sz] data'] eqn:Ec.
      apply convert_spec in Ec as (_ & H2 & H3 & H4).
      destruct (Nat.ltb_spec sz (dtmf_npoints pf)); [eauto|].
      apply IH; [done|]. rewrite storedigit_size. simpl.
      destruct (Nat.ltb_spec 0 (dtmf_npoints pf)); [|lia].
      destruct (Nat.ltb_spec (size dt) (dtmf_npoints pf)); lia.
    + destruct data as [|b data]; [eauto|].
      destruct (Nat.ltb_spec (length (b :: data)) 32); [eauto|].
      apply IH; [done|]. rewrite length_drop, storedigit_size.
      destruct (size dt <? dtmf_npoints pf)%nat; simpl in *; lia.
Qed.

End WithPlatform.
End DtmfFacts.

(** ** Membership and reconfiguration *)

Module ConfFacts.
Import Ring Cmx Wf.

Section WithPlatform.
Context (pf : platform).

(** What [dsp_cmx_add_conf_member] does to the member chain and to
    [conf_buff]: the buffer is cleared exactly when the chain had one
    node before the append. *)
Lemma add_conf_member_conf_buff (st : cmx_state) (dsp cf : nat)
    (d : dsp_t) (c : conference_t) :
  dsps st !! dsp = Some d -> member d = None -> conf d = None ->
  heap_free st <> 0%nat -> confs st !! cf = Some c ->
  exists st' c',
    dsp_cmx_add_conf_member pf st dsp cf = Ret (0, st') /\
    confs st' !! cf = Some c' /\
    Conf_list st' = Conf_list st /\ hfc_log st' = hfc_log st /\
    mlist c' = mlist c ++ [dsp] /\
    conf_buff c' = if (length (mlist c) =? 1)%nat
                   then replicate (length (conf_buff c)) 0
                   else conf_buff c.
Proof.
  intros Hd Hm Hc Hh Hcf. unfold dsp_cmx_add_conf_member, deref.
  rewrite Hd. cbn [res_bind]. rewrite Hm, Hc.
  rewrite !bool_decide_eq_false_2 by (intros H; by apply H).
  destruct (heap_free st) as [|hf]; [done|].
  rewrite Hcf. cbn [res_bind].
  eexists _, _. split; [done|]. cbn [confs Conf_list hfc_log].
  rewrite lookup_insert_eq. split; [done|]. split; [done|]. split; [done|].
  unfold APPEND_TO_LIST. cbn [mlist set_mlist].
  destruct (mlist c) as [|m1 [|m2 [|m3 ml]]]; cbn; done.
Qed.

(** A join into a conference that is the last of [Conf_list] returns
    right after the member is added: the classifier is not called, no
    message is sent, the solution is not touched. *)
Lemma add_to_conf_last_in_chain (fuel : nat) (st : cmx_state) (dsp : nat)
    (d : dsp_t) (cf : nat) (c : conference_t) (st1 : cmx_state) :
  dsps st !! dsp = Some d ->
  (conf_id d =? 0) = false -> b_active d = true ->
  dsp_cmx_search_conf st (conf_id d) = Ret (Some cf) ->
  confs st !! cf = Some c ->
  dsp_cmx_add_conf_member pf st dsp cf = Ret (0, st1) ->
  chain_next (Conf_list st1) cf = None ->
  add_to_conf pf fuel st dsp = Ret (0, st1).
Proof.
  intros Hd Hid Hact Hs Hc Ha Hn.
  unfold add_to_conf, deref. rewrite Hd. cbn [res_bind].
  rewrite Hid, Hact. cbn [negb andb]. rewrite Hs. cbn [res_bind].
  rewrite Hc. cbn [res_bind]. rewrite Ha. cbn [res_bind].
  change (negb (0 =? 0)) with false. cbn iota. rewrite Hn. reflexivity.
Qed.

End WithPlatform.
End ConfFacts.

(** ** The properties at work on the small platform *)

Module Scenarios.
Import Ring Cmx Wf Sample.

Lemma sample_bits : 0 < buff_bits pf.
Proof. reflexivity. Qed.

(** *** Send *)

(** C1, counterexample: asked for as many bytes as the ring has, a
    dsp alone with empty buffers gets a frame of that length to which no
    byte has been written: [r] and [rr] coincide. *)
Lemma send_full_ring_counterexample :
  frame_of (dsp_cmx_send pf 64 (boot 0) 1%nat 64 0)
  = Some (mk_skb 0 64 []).
Proof. vm_compute. reflexivity. Qed.

(** C1, witness: five bytes for a dsp alone *)
Lemma send_frame_length_witness :
  0 < buff_bits pf /\
  dsps (boot 0) !! 1%nat = Some (new_dsp 0 1) /\
  heap_free (boot 0) <> 0%nat /\
  send_ready pf (boot 0) (new_dsp 0 1) = true /\
  0 < 5 < CMX_BUFF_SIZE pf /\
  CMX_BUFF_SIZE pf <= Z.of_nat 64 /\
  exists skb st',
    dsp_cmx_send pf 64 (boot 0) 1%nat 5 0 = Ret (Some skb, st') /\
    skb_len skb = 5 /\ Z.of_nat (length (skb_data skb)) = 5.
Proof.
  assert (H1 : dsps (boot 0) !! 1%nat = Some (new_dsp 0 1))
    by (vm_compute; reflexivity).
  assert (H2 : heap_free (boot 0) <> 0%nat) by (simpl; lia).
  assert (H3 : send_ready pf (boot 0) (new_dsp 0 1) = true)
    by (vm_compute; reflexivity).
  assert (H4 : 0 < 5 < CMX_BUFF_SIZE pf) by (vm_compute; split; reflexivity).
  assert (H5 : CMX_BUFF_SIZE pf <= Z.of_nat 64)
    by (vm_compute; discriminate).
  refine (conj sample_bits
            (conj H1 (conj H2 (conj H3 (conj H4 (conj H5 _)))))).
  exact (SendFacts.send_frame_length pf sample_bits 64 (boot 0) 1%nat
           (new_dsp 0 1) 5 0 H1 H2 H3 H4 H5).
Defined.

(** C10, witness: five bytes of tone with ten bytes unread; [R_rx] moves
    from 0 to 5. *)
Lemma send_sets_R_rx_witness :
  0 < buff_bits pf /\
  dsps tone_state !! 1%nat = Some tone_dsp /\
  read_limit tone_state tone_dsp = Some 10 /\
  dsp_cmx_send pf 64 tone_state 1%nat 5 0
  = Ret (Some (mk_skb 0 5 [3; 4; 5; 6; 7]),
         state_of (after_send (dsp_cmx_send pf 64 tone_state 1%nat 5 0))) /\
  exists d' r,
    dsps (state_of (after_send (dsp_cmx_send pf 64 tone_state 1%nat 5 0)))
      !! 1%nat = Some d' /\
    mask pf (R_rx d' - r) = mask pf 5 /\
    if CMX_BUFF_HALF pf <=? mask pf (10 - R_rx tone_dsp - 5)
    then R_rx d' = 10 /\ r = mask pf (10 - 5)
    else R_rx d' = mask pf (R_rx tone_dsp + 5) /\ r = R_rx tone_dsp.
Proof.
  assert (H1 : dsps tone_state !! 1%nat = Some tone_dsp)
    by (vm_compute; reflexivity).
  assert (H2 : read_limit tone_state tone_dsp = Some 10) by reflexivity.
  assert (H3 : dsp_cmx_send pf 64 tone_state 1%nat 5 0
    = Ret (Some (mk_skb 0 5 [3; 4; 5; 6; 7]),
           state_of (after_send (dsp_cmx_send pf 64 tone_state 1%nat 5 0))))
    by (vm_compute; reflexivity).
  refine (conj sample_bits (conj H1 (conj H2 (conj H3 _)))).
  exact (SendFacts.send_sets_R_rx pf sample_bits 64 tone_state 1%nat tone_dsp
           5 0 10 _ _ H1 H2 H3).
Defined.

(** *** Receive *)


(** C5, counterexample: on a ring of 64 bytes the size check admits up to
    7 bytes.  A frame of 8 bytes, which is not longer than
    [CMX_BUFF_HALF / 4], is rejected; and a frame of 9 bytes, rejected as
    too large, has raised [largest] from 0 to 18. *)
Lemma receive_size_check_counterexample :
  (* 8 bytes are not more than a quarter of the half ring, and the frame
     is rejected all the same *)
  Z.of_nat (length [1; 2; 3; 4; 5; 6; 7; 8]) = CMX_BUFF_HALF pf / 4 /\
  W_rx <$> dsp_of (dsp_cmx_receive pf (boot 0) 1%nat
                     [1; 2; 3; 4; 5; 6; 7; 8]) 1%nat = Some 0 /\
  rx_buff <$> dsp_of (dsp_cmx_receive pf (boot 0) 1%nat
                        [1; 2; 3; 4; 5; 6; 7; 8]) 1%nat
  = Some (replicate 64 42) /\
  (* 9 bytes are too many, and the rejected frame changes [largest] *)
  largest <$> dsps (boot 0) !! 1%nat = Some 0 /\
  largest <$> dsp_of (dsp_cmx_receive pf (boot 0) 1%nat
                        [1; 2; 3; 4; 5; 6; 7; 8; 9]) 1%nat = Some 18 /\
  dsp_cmx_receive pf (boot 0) 1%nat [1; 2; 3; 4; 5; 6; 7; 8; 9]
  <> Ret (boot 0).
Proof.
  split_and!; try (vm_compute; reflexivity).
  intros H.
  apply (f_equal (fun r => largest <$> dsp_of r 1%nat)) in H.
  vm_compute in H. discriminate.
Qed.

(** C5, witness: the frame of 9 bytes *)
Lemma receive_size_check_witness :
  0 < buff_bits pf /\
  dsps (boot 0) !! 1%nat = Some (new_dsp 0 1) /\
  Z.of_nat (length [1; 2; 3; 4; 5; 6; 7; 8; 9]) < 2 ^ 30 /\
  dsp_cmx_receive pf (boot 0) 1%nat [1; 2; 3; 4; 5; 6; 7; 8; 9]
  = Ret (put_dsp 1%nat (set_largest 18 (new_dsp 0 1)) (boot 0)).
Proof.
  assert (H1 : dsps (boot 0) !! 1%nat = Some (new_dsp 0 1))
    by (vm_compute; reflexivity).
  assert (H2 : Z.of_nat (length [1; 2; 3; 4; 5; 6; 7; 8; 9]) < 2 ^ 30)
    by (vm_compute; reflexivity).
  refine (conj sample_bits (conj H1 (conj H2 _))).
  destruct (ReceiveFacts.receive_size_check pf sample_bits (boot 0) 1%nat
              (new_dsp 0 1) [1; 2; 3; 4; 5; 6; 7; 8; 9] H1 H2)
    as (_ & Hbig & _).
  apply Hbig; vm_compute; discriminate.
Defined.


(** *** The conference buffer and the pointer envelope *)

(** C3: whether an accepted frame is mixed into [conf_buff] follows the
    position of the conference in [Conf_list] ([conf->next] and
    [conf->next->next]), not the number of its members. *)
Theorem receive_conf_buff_follows_registry :
  (* three members, last conference of the chain: the frame is stored in
     rx_buff, and nothing is written to conf_buff *)
  (let r := let* st := three_alone in
            dsp_cmx_receive pf st 1%nat [200; 201; 202] in
   mlist <$> conf_of r 0%nat = Some [1; 2; 3]%nat /\
   W_rx <$> dsp_of r 1%nat = Some 3 /\
   (take 3 ∘ rx_buff) <$> dsp_of r 1%nat = Some [200; 201; 202] /\
   conf_buff <$> conf_of r 0%nat = Some (replicate 64 0)) /\
  (* one member, two more conferences behind it in the chain: the decoded
     samples are written to conf_buff *)
  (let r := let* st := one_of_three_confs in
            dsp_cmx_receive pf st 1%nat [200; 201; 202] in
   mlist <$> conf_of r 0%nat = Some [1%nat] /\
   (take 4 ∘ conf_buff) <$> conf_of r 0%nat
   = Some [18432; 18688; 18944; 0]).
Proof. vm_compute. split_and!; reflexivity. Qed.

(** C4: from the state two joins leave, one accepted frame puts the
    [W_rx] of the receiving member ahead of [conf->W_max]; and a frame
    dropped by the overflow guard leaves [conf->W_min] ahead of the
    [W_rx] of the member it was meant for. *)
Theorem receive_breaks_envelope :
  (* W_max stays behind the W_rx of the member that has just written *)
  (let r := let* st := join_all 20 (boot 0) [1; 2]%nat in
            dsp_cmx_receive pf st 2%nat [200; 201; 202; 203] in
   mlist <$> conf_of r 0%nat = Some [1; 2]%nat /\
   conf <$> dsp_of r 2%nat = Some (Some 0%nat) /\
   W_rx <$> dsp_of r 2%nat = Some 4 /\
   W_max <$> conf_of r 0%nat = Some 0 /\
   behind pf 0 4 = true) /\
  (* W_min runs ahead of the W_rx of a member whose frame is dropped *)
  (let f := [1; 2; 3; 4; 5; 6; 7] in
   let r := let* st := join_all 20 (boot 0) [1; 2]%nat in
            receive_all st 2%nat [f; f; f; f; f] in
   W_rx <$> dsp_of r 2%nat = Some 28 /\
   W_min <$> conf_of r 0%nat = Some 35 /\
   mask pf (28 - 35) = 57 /\ CMX_BUFF_HALF pf = 32).
Proof. vm_compute. split_and!; reflexivity. Qed.

(** C6: [conf_buff] is cleared when the member chain has two nodes
    after the append, and not when it has three. *)
Theorem add_conf_member_zeroes_at_two :
  let r1 := let* st := one_of_three_confs in
            dsp_cmx_receive pf st 1%nat [200; 201; 202] in
  let r2 := let* st := r1 in join_all 20 st [2]%nat in
  let r3 := let* st := r2 in dsp_cmx_receive pf st 1%nat [200; 201; 202] in
  let r4 := let* st := r3 in join_all 20 st [3]%nat in
  (* one member, stale samples in conf_buff *)
  (mlist <$> conf_of r1 0%nat = Some [1%nat] /\
   (take 6 ∘ conf_buff) <$> conf_of r1 0%nat
   = Some [18432; 18688; 18944; 0; 0; 0]) /\
  (* the second member joins: conf_buff is cleared *)
  (mlist <$> conf_of r2 0%nat = Some [1; 2]%nat /\
   conf_buff <$> conf_of r2 0%nat = Some (replicate 64 0)) /\
  (* two members, new samples in conf_buff *)
  (mlist <$> conf_of r3 0%nat = Some [1; 2]%nat /\
   (take 6 ∘ conf_buff) <$> conf_of r3 0%nat
   = Some [0; 0; 0; 18432; 18688; 18944]) /\
  (* the third member joins: conf_buff is left as it is *)
  (mlist <$> conf_of r4 0%nat = Some [1; 2; 3]%nat /\
   (take 6 ∘ conf_buff) <$> conf_of r4 0%nat
   = Some [0; 0; 0; 18432; 18688; 18944]).
Proof. vm_compute. split_and!; reflexivity. Qed.

(** *** Reconfiguration and the hardware classifier *)

(** C7: two dsps of card 7 join conference 1, the only conference.
    Both calls return 0; the classifier would answer 0, a crossconnect,
    but it is not asked: no message is sent and the solution stays -1. *)
Theorem crossconnect_skipped_for_last_conference :
  exists st1 st2 : cmx_state,
    dsp_cmx pf 20 (boot 7) 1%nat = Ret (0, st1) /\
    dsp_cmx pf 20 st1 2%nat = Ret (0, st2) /\
    Conf_list st2 = [0%nat] /\
    mlist <$> confs st2 !! 0%nat = Some [1; 2]%nat /\
    hfc_id <$> dsps st2 !! 1%nat = Some 7 /\
    hfc_id <$> dsps st2 !! 2%nat = Some 7 /\
    tx_mix <$> dsps st2 !! 1%nat = Some false /\
    tx_mix <$> dsps st2 !! 2%nat = Some false /\
    dsp_cmx_hfc 20 st2 0%nat = Ret 0 /\
    solution <$> confs st2 !! 0%nat = Some (-1) /\
    hfc_log st2 = [].
Proof.
  eexists _, _. split; [vm_compute; reflexivity|].
  split; [vm_compute; reflexivity|].
  vm_compute. split_and!; reflexivity.
Qed.

(** The same two joins with a further conference behind the first one in
    [Conf_list]: now the classifier is asked and the crossconnect is
    enabled. *)
Lemma crossconnect_with_later_conference :
  let r := join_all 20 (boot 7) [1; 4; 2]%nat in
  match r with Ret st => Conf_list st = [0; 1]%nat /\
                         hfc_log st = [cross_message 1 2 1]
          | _ => False end /\
  solution <$> conf_of r 0%nat = Some 0 /\
  c_hfc_id <$> conf_of r 0%nat = Some 7.
Proof. vm_compute. split_and!; reflexivity. Qed.

(** The last loop of [dsp_cmx_hfc] makes no progress while [unit] is at
    most 8: no amount of fuel lets it return. *)
Lemma hfc_free_unit_spins (fuel : nat) (freeunits : list Z) (unit i : Z) :
  unit <= 8 -> i < 8 -> hfc_free_unit fuel freeunits unit i = Timeout.
Proof.
  intros Hu Hi. induction fuel as [|fuel IH]; simpl; [done|].
  destruct (Z.ltb_spec i 8); [|lia].
  destruct (Z.ltb_spec 8 unit); [lia|done].
Qed.

(** C8: for three members of card 7 without tx_mix, in a conference
    whose solution is -1 and with all eight units free, the classifier
    returns for no amount of fuel. *)
Theorem hfc_three_members_never_returns :
  mlist <$> confs three_on_card !! 0%nat = Some [1; 2; 3]%nat /\
  solution <$> confs three_on_card !! 0%nat = Some (-1) /\
  Conf_list three_on_card = [0%nat] /\
  (forall a : nat, a ∈ [1; 2; 3]%nat ->
     hfc_id <$> dsps three_on_card !! a = Some 7 /\
     tx_mix <$> dsps three_on_card !! a = Some false) /\
  forall fuel : nat, dsp_cmx_hfc fuel three_on_card 0%nat = Timeout.
Proof.
  split; [vm_compute; reflexivity|].
  split; [vm_compute; reflexivity|].
  split; [vm_compute; reflexivity|].
  split.
  - intros a Ha. repeat (apply elem_of_cons in Ha as [->|Ha]);
      [vm_compute; split; reflexivity .. | by apply elem_of_nil in Ha].
  - intros fuel.
    change (hfc_free_unit fuel (replicate 8 0) 0 0 = Timeout).
    apply hfc_free_unit_spins; lia.
Qed.

(** A join that reaches the classifier waits for it. *)
Lemma add_to_conf_waits_for_hfc (fuel : nat) (st : cmx_state) (dsp : nat)
    (d : dsp_t) (cf : nat) (c : conference_t) (st1 : cmx_state) :
  dsps st !! dsp = Some d ->
  (conf_id d =? 0) = false -> b_active d = true ->
  dsp_cmx_search_conf st (conf_id d) = Ret (Some cf) ->
  confs st !! cf = Some c ->
  dsp_cmx_add_conf_member pf st dsp cf = Ret (0, st1) ->
  is_Some (chain_next (Conf_list st1) cf) ->
  dsp_cmx_hfc fuel st1 cf = Timeout ->
  add_to_conf pf fuel st dsp = Timeout.
Proof.
  intros Hd Hid Hact Hs Hc Ha [n Hn] Hh.
  unfold add_to_conf, deref. rewrite Hd. simpl.
  rewrite Hid, Hact. simpl. rewrite Hs. simpl. rewrite Hc. simpl.
  rewrite Ha. simpl. rewrite Hn, Hh. reflexivity.
Qed.

Lemma dsp_cmx_unattached (fuel : nat) (st : cmx_state) (dsp : nat)
    (d : dsp_t) :
  dsps st !! dsp = Some d -> conf d = None -> (conf_id d =? 0) = false ->
  dsp_cmx pf fuel st dsp = add_to_conf pf fuel st dsp.
Proof.
  intros Hd Hc Hid. unfold dsp_cmx, deref. rewrite Hd. simpl.
  rewrite Hc, Hid. reflexivity.
Qed.

(** Through the entry point: once the conference is not the last of the
    chain, the join of a third member on the card never returns. *)
Lemma dsp_cmx_third_member_never_returns (fuel : nat) :
  dsp_cmx pf fuel (state_of (join_all 20 (boot 7) [1; 4; 2]%nat)) 3%nat
  = Timeout.
Proof.
  rewrite (dsp_cmx_unattached fuel _ 3%nat (new_dsp 7 1));
    [| vm_compute; reflexivity | reflexivity | reflexivity].
  eapply add_to_conf_waits_for_hfc.
  - vm_compute. reflexivity.
  - reflexivity.
  - reflexivity.
  - vm_compute. reflexivity.
  - vm_compute. reflexivity.
  - vm_compute. reflexivity.
  - vm_compute. eauto.
  - change (hfc_free_unit fuel (replicate 8 0) 0 0 = Timeout).
    apply hfc_free_unit_spins; lia.
Qed.

(** *** DTMF *)

(** Three frames of the digit 5 from the hardware decoder give one digit;
    a burst of two frames between silence gives none. *)
Example dtmf_three_frames_emit :
  Dtmf.digits <$>
    (match Dtmf.dsp_dtmf_goertzel_decode pf 8 dtmf0
             (hfc_frame 1 1 ++ hfc_frame 1 1 ++ hfc_frame 1 1) 2 with
     | Ret dt => Some dt | _ => None end)
  = Some ["5"%char].
Proof. vm_compute. reflexivity. Qed.

Example dtmf_two_frame_burst_silent :
  Dtmf.digits <$>
    (match Dtmf.dsp_dtmf_goertzel_decode pf 8 dtmf0
             (hfc_frame 9 9 ++ hfc_frame 1 1 ++ hfc_frame 1 1
              ++ hfc_frame 9 9 ++ hfc_frame 9 9) 2 with
     | Ret dt => Some dt | _ => None end)
  = Some [].
Proof. vm_compute. reflexivity. Qed.

(** C9, witness: after two frames of 5, the third one *)
Lemma dtmf_emission_witness :
  let dt := Dtmf.storedigit pf (Dtmf.storedigit pf dtmf0 "5"%char) "5"%char in
  DtmfHistory.history pf dt ["5"; "5"]%char /\
  Dtmf.digits (Dtmf.storedigit pf dt "5"%char) <> Dtmf.digits dt /\
  (exists pre, ["5"; "5"]%char = pre ++ ["5"; "5"]%char) /\
  Dtmf.lastdigit dt <> "5"%char.
Proof.
  intros dt.
  assert (H : DtmfHistory.history pf dt ["5"; "5"]%char).
  { apply (DtmfHistory.history_frame pf _ ["5"%char] "5"%char).
    apply (DtmfHistory.history_frame pf _ [] "5"%char).
    apply (DtmfHistory.history_init pf). }
  assert (He : Dtmf.digits (Dtmf.storedigit pf dt "5"%char)
               <> Dtmf.digits dt) by (vm_compute; discriminate).
  refine (conj H (conj He _)).
  destruct (DtmfFacts.dtmf_emission_needs_three_frames pf dt _ H)
    as [Hemit _].
  destruct (Hemit "5"%char He) as (Hpre & Hld & _).
  exact (conj Hpre Hld).
Defined.

End Scenarios.

(** * Further properties of the mixer and of the decoder *)

(** ** The transmit path stores what it is given *)

Module TransmitFacts.
Import Ring Cmx Wf RingFacts ReceiveFacts.

Section WithPlatform.
Context (pf : platform).
Hypothesis Hbits : 0 < buff_bits pf.

Lemma mask_add_next (w i : Z) : mask pf (next pf w + i) = mask pf (w + 1 + i).
Proof.
  unfold next. rewrite !(mask_mod pf Hbits). apply Zplus_mod_idemp_l.
Qed.

(** The copy loop of [dsp_cmx_transmit]: with the target [k] bytes ahead
    and a frame of at least [k] bytes, it stores the first [k] bytes from
    [w] on and touches nothing else. *)
Lemma tx_write_spec (fuel : nat) :
  forall (p : list Z) (w ww : Z) (d : list Z),
    in_ring pf w -> in_ring pf ww ->
    Z.of_nat (length p) = CMX_BUFF_SIZE pf ->
    mask pf (ww - w) <= Z.of_nat (length d) ->
    mask pf (ww - w) < Z.of_nat fuel ->
    exists p',
      tx_write pf fuel p w ww d = Ret p' /\
      length p' = length p /\
      (forall i : nat, Z.of_nat i < mask pf (ww - w) ->
         rd p' (mask pf (w + Z.of_nat i)) = nth i d 0) /\
      (forall j : Z, 0 <= j ->
         (forall i : Z, 0 <= i < mask pf (ww - w) -> mask pf (w + i) <> j) ->
         rd p' j = rd p j).
Proof.
  induction fuel as [|fuel IH]; intros p w ww d Hw Hww Hp Hd Hf.
  - pose proof (dist_bound pf Hbits w ww). lia.
  - simpl. destruct (Z.eqb_spec w ww) as [->|Hne].
    + exists p. rewrite Z.sub_diag, (mask_small pf Hbits 0)
        by (pose proof (size_pos pf Hbits); unfold in_ring; lia).
      split; [done|]. split; [done|]. split; [intros; lia | done].
    + pose proof (dist_next pf Hbits w ww Hw Hww Hne) as Hdn.
      pose proof (dist_bound pf Hbits w ww) as Hdb.
      assert (Hpos : 0 < mask pf (ww - w)).
      { destruct (Z.eq_dec (mask pf (ww - w)) 0) as [E|E]; [|lia].
        apply (proj1 (dist_zero pf Hbits w ww Hw Hww)) in E. done. }
      destruct d as [|b d]; [simpl in Hd; lia|].
      destruct (IH (wr p w b) (next pf w) ww d) as (p' & Hr & Hl & Hs & Ho).
      * apply (next_in_ring pf Hbits).
      * done.
      * by rewrite wr_length.
      * simpl in Hd. lia.
      * lia.
      * exists p'. split; [done|]. split; [by rewrite Hl, wr_length|]. split.
        -- intros [|i] Hi.
           ++ rewrite Z.add_0_r, (mask_small pf Hbits w Hw). rewrite Ho.
              ** apply rd_wr_eq. unfold in_ring in Hw. lia.
              ** unfold in_ring in Hw. lia.
              ** intros k Hk. rewrite mask_add_next.
                 rewrite <- (mask_small pf Hbits w Hw) at 2.
                 replace (w + 1 + k) with (w + (k + 1)) by lia.
                 apply (mask_shift_ne pf Hbits). lia.
           ++ simpl nth. rewrite <- (Hs i) by lia.
              rewrite mask_add_next. f_equal. f_equal. lia.
        -- intros j Hj Hout. rewrite Ho; [| done |].
           ++ apply rd_wr_ne; [unfold in_ring in Hw; lia | done |].
              specialize (Hout 0). rewrite Z.add_0_r in Hout.
              rewrite (mask_small pf Hbits w Hw) in Hout. apply Hout. lia.
           ++ intros i Hi. rewrite mask_add_next.
              replace (w + 1 + i) with (w + (i + 1)) by lia.
              apply Hout. lia.
Qed.

Lemma transmit_spec (fuel : nat) (st : cmx_state) (dsp : nat)
    (d : dsp_t) (skb : list Z) :
  buff_bits pf <= 30 ->
  dsps st !! dsp = Some d ->
  in_ring pf (W_tx d) -> in_ring pf (R_tx d) ->
  Z.of_nat (length (tx_buff d)) = CMX_BUFF_SIZE pf ->
  (1 <= length skb)%nat ->
  CMX_BUFF_SIZE pf <= Z.of_nat fuel ->
  let n := Z.min (Z.of_nat (length skb)) (mask pf (R_tx d - W_tx d - 1)) in
  exists p,
    dsp_cmx_transmit pf fuel st dsp skb
    = Ret (put_dsp dsp (set_tx_buff p (set_W_tx (mask pf (W_tx d + n)) d))
             st) /\
    mask pf (W_tx d + n) <> R_tx d /\
    length p = length (tx_buff d) /\
    (forall i : nat, Z.of_nat i < n ->
       rd p (mask pf (W_tx d + Z.of_nat i)) = nth i skb 0) /\
    (forall j : Z, 0 <= j ->
       (forall i : Z, 0 <= i < n -> mask pf (W_tx d + i) <> j) ->
       rd p j = rd (tx_buff d) j).
Proof.
  intros H30 Hd Hw Hr Hp Hlen Hfuel n.
  pose proof (size_pos pf Hbits) as Hsz.
  assert (HS : CMX_BUFF_SIZE pf <= 2 ^ 30).
  { unfold CMX_BUFF_SIZE. apply Z.pow_le_mono_r; lia. }
  unfold in_ring in Hw, Hr.
  unfold dsp_cmx_transmit, deref. rewrite Hd. cbn [res_bind].
  destruct (Z.ltb_spec (Z.of_nat (length skb)) 1); [lia|].
  assert (Hiw : forall x, - 2 ^ 31 <= x < 2 ^ 31 -> int_wrap x = x).
  { intros x Hx. unfold int_wrap. rewrite Z.mod_small; lia. }
  rewrite (Hiw (R_tx d - W_tx d)) by lia.
  set (space := if R_tx d - W_tx d <=? 0
                then int_wrap (R_tx d - W_tx d + CMX_BUFF_SIZE pf)
                else R_tx d - W_tx d).
  assert (Hspace : space - 1 = mask pf (R_tx d - W_tx d - 1)).
  { subst space. rewrite (mask_mod pf Hbits), mod_cases by lia.
    destruct (Z.leb_spec (R_tx d - W_tx d) 0).
    - rewrite Hiw by lia.
      destruct (Z.ltb_spec (R_tx d - W_tx d - 1) 0); lia.
    - destruct (Z.ltb_spec (R_tx d - W_tx d - 1) 0); [lia|].
      destruct (Z.ltb_spec (R_tx d - W_tx d - 1) (CMX_BUFF_SIZE pf)); lia. }
  pose proof (dist_bound pf Hbits (W_tx d + 1) (R_tx d)) as Hfree.
  replace (R_tx d - (W_tx d + 1)) with (R_tx d - W_tx d - 1) in Hfree by lia.
  set (ww := if space - 1 <? Z.of_nat (length skb)
             then mask pf (R_tx d - 1)
             else mask pf (W_tx d + Z.of_nat (length skb))).
  assert (Hww : ww = mask pf (W_tx d + n)).
  { subst ww n. rewrite Hspace.
    destruct (Z.ltb_spec (mask pf (R_tx d - W_tx d - 1))
                (Z.of_nat (length skb))).
    - rewrite Z.min_r by lia. rewrite !(mask_mod pf Hbits).
      rewrite Zplus_mod_idemp_r. f_equal. lia.
    - rewrite Z.min_l by lia. done. }
  assert (Hn : 0 <= n < CMX_BUFF_SIZE pf) by (subst n; lia).
  assert (Hdist : mask pf (ww - W_tx d) = n).
  { rewrite Hww, !(mask_mod pf Hbits), Zminus_mod_idemp_l.
    replace (W_tx d + n - W_tx d) with n by lia. apply Z.mod_small. lia. }
  destruct (tx_write_spec fuel (tx_buff d) (W_tx d) ww skb)
    as (p & Hwr & Hl & Hs & Ho).
  { done. } { rewrite Hww. apply (mask_in_ring pf Hbits). } { done. }
  { rewrite Hdist. subst n. lia. } { rewrite Hdist. lia. }
  rewrite Hwr. cbn [res_bind]. exists p. rewrite <- Hww.
  split; [done|]. split.
  - rewrite Hww. intros E.
    assert (Hz : mask pf (R_tx d - (W_tx d + 1)) = mask pf (n - 1)).
    { rewrite <- E at 1. rewrite !(mask_mod pf Hbits), Zminus_mod_idemp_l.
      f_equal. lia. }
    replace (R_tx d - (W_tx d + 1)) with (R_tx d - W_tx d - 1) in Hz by lia.
    assert (H2 : 2 <= CMX_BUFF_SIZE pf).
    { pose proof (half_double pf Hbits).
      assert (0 < CMX_BUFF_HALF pf)
        by (unfold CMX_BUFF_HALF; apply Z.pow_pos_nonneg; lia). lia. }
    rewrite (mask_mod pf Hbits (n - 1)), mod_cases in Hz by lia.
    destruct (Z.ltb_spec (n - 1) 0), (Z.ltb_spec (n - 1) (CMX_BUFF_SIZE pf));
      subst n; lia.
  - rewrite Hdist in Hs, Ho. done.
Qed.

(** X1: [dsp_cmx_transmit] copies the leading bytes of the frame to the
    tx ring from [W_tx] on: as many as the frame has, and at most the
    free space, which always keeps one cell back.  [W_tx] moves by that
    count and does not reach [R_tx]; every cell outside the written run
    keeps its byte. *)
Theorem transmit_stores_frame (fuel : nat) (st : cmx_state) (dsp : nat)
    (d : dsp_t) (skb : list Z) :
  buff_bits pf <= 30 ->
  dsps st !! dsp = Some d ->
  in_ring pf (W_tx d) -> in_ring pf (R_tx d) ->
  Z.of_nat (length (tx_buff d)) = CMX_BUFF_SIZE pf ->
  (1 <= length skb)%nat ->
  CMX_BUFF_SIZE pf <= Z.of_nat fuel ->
  let n := Z.min (Z.of_nat (length skb)) (mask pf (R_tx d - W_tx d - 1)) in
  exists p,
    dsp_cmx_transmit pf fuel st dsp skb
    = Ret (put_dsp dsp (set_tx_buff p (set_W_tx (mask pf (W_tx d + n)) d))
             st) /\
    mask pf (W_tx d + n) <> R_tx d /\
    length p = length (tx_buff d) /\
    (forall i : nat, Z.of_nat i < n ->
       rd p (mask pf (W_tx d + Z.of_nat i)) = nth i skb 0) /\
    (forall j : Z, 0 <= j ->
       (forall i : Z, 0 <= i < n -> mask pf (W_tx d + i) <> j) ->
       rd p j = rd (tx_buff d) j).
Proof. apply transmit_spec. Qed.

End WithPlatform.
End TransmitFacts.

(** ** What the copy loops of the send path yield *)

Module SendLoops.
Import Ring Cmx Wf Runs RingFacts SendFacts ReceiveFacts TransmitFacts.

Section WithPlatform.
Context (pf : platform).
Hypothesis Hbits : 0 < buff_bits pf.

Lemma run2_S (f : Z -> Z -> Z) (t r : Z) (m : nat) :
  in_ring pf t -> in_ring pf r ->
  run2 pf f t r (S m) = f t r :: run2 pf f (next pf t) (next pf r) m.
Proof.
  intros Ht Hr. unfold run2. simpl seq. simpl map.
  rewrite <- seq_shift, List.map_map. rewrite !Z.add_0_r, !(mask_small pf Hbits) by done.
  f_equal. apply map_ext. intros i.
  rewrite !(mask_add_next pf Hbits). f_equal; f_equal; lia.
Qed.

Lemma mix_loop_run (f : Z -> Z -> Z) (rr tt : Z) (fuel : nat) :
  forall (m : nat) (r t : Z) (out : list Z),
    in_ring pf r -> in_ring pf rr -> in_ring pf t -> in_ring pf tt ->
    Z.of_nat m = Z.min (mask pf (rr - r)) (mask pf (tt - t)) ->
    (m < fuel)%nat ->
    mix_loop pf fuel f r rr t tt out
    = Ret (mask pf (r + Z.of_nat m), mask pf (t + Z.of_nat m),
           out ++ run2 pf f t r m).
Proof.
  induction fuel as [|fuel IH]; intros m r t out Hr Hrr Ht Htt Hm Hf; [lia|].
  simpl.
  pose proof (dist_bound pf Hbits r rr) as Hb1.
  pose proof (dist_bound pf Hbits t tt) as Hb2.
  pose proof (dist_zero pf Hbits r rr Hr Hrr) as Hz1.
  pose proof (dist_zero pf Hbits t tt Ht Htt) as Hz2.
  destruct (Z.eqb_spec r rr) as [E1|N1]; simpl.
  { assert (m = 0%nat) by lia. subst m.
    rewrite !Z.add_0_r, !(mask_small pf Hbits) by done.
    unfold run2. simpl. by rewrite app_nil_r. }
  destruct (Z.eqb_spec t tt) as [E2|N2]; simpl.
  { assert (m = 0%nat) by lia. subst m.
    rewrite !Z.add_0_r, !(mask_small pf Hbits) by done.
    unfold run2. simpl. by rewrite app_nil_r. }
  pose proof (dist_next pf Hbits r rr Hr Hrr N1).
  pose proof (dist_next pf Hbits t tt Ht Htt N2).
  destruct m as [|m]; [lia|].
  rewrite (IH m); try (by apply (next_in_ring pf Hbits)); try done; try lia.
  rewrite run2_S by done. rewrite <- app_assoc. simpl.
  rewrite !(mask_add_next pf Hbits).
  replace (Z.of_nat (S m)) with (1 + Z.of_nat m) by lia.
  rewrite !Z.add_assoc. reflexivity.
Qed.

Lemma run1_S (g : Z -> Z) (r : Z) (m : nat) :
  in_ring pf r -> run1 pf g r (S m) = g r :: run1 pf g (next pf r) m.
Proof.
  intros Hr. unfold run1. simpl seq. simpl map.
  rewrite <- seq_shift, List.map_map. rewrite !Z.add_0_r, !(mask_small pf Hbits) by done.
  f_equal. apply map_ext. intros i.
  rewrite !(mask_add_next pf Hbits). f_equal; f_equal; lia.
Qed.

Lemma rest_loop_run (g : Z -> Z) (rr : Z) (fuel : nat) :
  forall (m : nat) (r : Z) (out : list Z),
    in_ring pf r -> in_ring pf rr ->
    Z.of_nat m = mask pf (rr - r) -> (m < fuel)%nat ->
    rest_loop pf fuel g r rr out = Ret (out ++ run1 pf g r m).
Proof.
  induction fuel as [|fuel IH]; intros m r out Hr Hrr Hm Hf; [lia|].
  simpl.
  pose proof (dist_zero pf Hbits r rr Hr Hrr) as Hz1.
  destruct (Z.eqb_spec r rr) as [E1|N1]; simpl.
  { assert (m = 0%nat) by lia. subst m. unfold run1. simpl.
    by rewrite app_nil_r. }
  pose proof (dist_next pf Hbits r rr Hr Hrr N1).
  pose proof (dist_bound pf Hbits r rr) as Hb1.
  destruct m as [|m]; [lia|].
  rewrite (IH m); try (by apply (next_in_ring pf Hbits)); try done; try lia.
  rewrite run1_S by done. by rewrite <- app_assoc.
Qed.

End WithPlatform.
End SendLoops.

(** ** The frame of a dsp that is not mixed *)

Module SendContent.
Import Ring Cmx Wf Runs RingFacts SendFacts ReceiveFacts TransmitFacts SendLoops.

Section WithPlatform.
Context (pf : platform).
Hypothesis Hbits : 0 < buff_bits pf.

Lemma ring_target (r rr : Z) :
  in_ring pf rr -> mask pf (r + mask pf (rr - r)) = rr.
Proof.
  intros Hrr. rewrite !(mask_mod pf Hbits), Zplus_mod_idemp_r.
  replace (r + (rr - r)) with rr by lia. rewrite <- (mask_mod pf Hbits).
  by apply (mask_small pf Hbits).
Qed.

Lemma read_limit_deref (st : cmx_state) (d : dsp_t) (lim : Z) :
  read_limit st d = Some lim ->
  match conf d with
  | Some cf => let* c := deref (confs st) cf in Ret (W_min c)
  | None => Ret (W_rx d)
  end = Ret lim.
Proof.
  unfold read_limit, deref. destruct (conf d) as [cf|]; [|by intros [= ->]].
  destruct (confs st !! cf) as [c|]; [|done]. cbn. by intros [= ->].
Qed.

(** With at least [len] bytes queued in the tx-buffer and no mixing asked
    for, the frame is the next [len] bytes of the tx-buffer. *)
Lemma send_tx_core (fuel : nat) (st : cmx_state) (dsp : nat) (d : dsp_t)
    (len dinfo lim : Z) :
  dsps st !! dsp = Some d -> heap_free st <> 0%nat ->
  read_limit st d = Some lim ->
  in_ring pf (R_rx d) -> in_ring pf lim ->
  in_ring pf (R_tx d) -> in_ring pf (W_tx d) ->
  tone d = 0 -> tx_mix d = false ->
  0 < len < CMX_BUFF_SIZE pf ->
  len <= mask pf (W_tx d - R_tx d) ->
  len < Z.of_nat fuel ->
  dsp_cmx_send pf fuel st dsp len dinfo
  = Ret (Some (mk_skb dinfo len
                 (run1 pf (rd (tx_buff d)) (R_tx d) (Z.to_nat len))),
         sent st dsp d (snd (read_window pf (R_rx d) lim len))
           (mask pf (R_tx d + len))).
Proof.
  intros Hd Hheap Hlim HR Hl Ht Htt Htone Hmix Hlen Hq Hfuel.
  unfold dsp_cmx_send. unfold deref at 1. rewrite Hd. cbn [res_bind].
  destruct (heap_free st) as [|hf] eqn:Ehf; [done|].
  rewrite (read_limit_deref st d lim Hlim). cbn [res_bind].
  destruct (read_window pf (R_rx d) lim len) as [r rr] eqn:Ew.
  destruct (read_window_spec pf Hbits _ _ _ _ _ HR Hl Ew) as (Hr & Hrr & Hdist).
  rewrite (mask_small pf Hbits len) in Hdist by (unfold in_ring; lia).
  cbn [tone set_R_rx tx_mix tx_buff]. rewrite Htone, Hmix. cbn [negb andb Z.eqb].
  assert (Hne : (R_tx d =? W_tx d) = false).
  { apply Z.eqb_neq. intros E.
    apply (dist_zero pf Hbits _ _ Ht Htt) in E. lia. }
  rewrite Hne. cbn [negb].
  rewrite (mix_loop_run pf Hbits _ rr (W_tx d) fuel (Z.to_nat len)); try done;
    try lia.
  cbn [res_bind]. rewrite Z2Nat.id by lia.
  rewrite <- Hdist at 1. rewrite (ring_target r rr Hrr).
  rewrite Z.eqb_refl. cbn [app snd]. unfold sent. rewrite Ehf. cbn [Nat.pred].
  unfold put_dsp. cbn [dsps confs Conf_list heap_free next_conf hfc_log].
  reflexivity.
Qed.

(** A dsp is alone: outside any conference, or the only member of
    its conference. *)
Lemma send_mix_alone (fuel : nat) (st st1 : cmx_state) (dsp : nat)
    (d d1 : dsp_t) (r rr t tt : Z) (out : list Z) :
  alone st d = true -> conf d1 = conf d -> confs st1 = confs st ->
  send_mix pf fuel st1 dsp d1 r rr t tt out
  = send_single pf fuel d1 r rr t tt out.
Proof.
  unfold alone, send_mix. intros Ha -> ->.
  destruct (conf d) as [cf|]; [|done]. unfold deref.
  destruct (confs st !! cf) as [c|]; [|done]. cbn [res_bind].
  destruct (mlist c) as [|m1 [|m2 ml]]; done.
Qed.

(** With an empty tx-buffer a dsp that is alone gets silence, or with
    echo its own received bytes. *)
Lemma send_alone_core (fuel : nat) (st : cmx_state) (dsp : nat) (d : dsp_t)
    (len dinfo lim : Z) :
  dsps st !! dsp = Some d -> heap_free st <> 0%nat ->
  read_limit st d = Some lim ->
  in_ring pf (R_rx d) -> in_ring pf lim ->
  alone st d = true ->
  tone d = 0 -> R_tx d = W_tx d ->
  0 < len < CMX_BUFF_SIZE pf ->
  len < Z.of_nat fuel ->
  dsp_cmx_send pf fuel st dsp len dinfo
  = Ret (Some (mk_skb dinfo len
                 (if echo d
                  then run1 pf (rd (rx_buff d))
                         (fst (read_window pf (R_rx d) lim len))
                         (Z.to_nat len)
                  else replicate (Z.to_nat len)
                         (if ulaw d then ulawsilence pf
                          else alawsilence pf))),
         sent st dsp d (snd (read_window pf (R_rx d) lim len)) (R_tx d)).
Proof.
  intros Hd Hheap Hlim HR Hl Ha Htone Hempty Hlen Hfuel.
  unfold dsp_cmx_send. unfold deref at 1. rewrite Hd. cbn [res_bind].
  destruct (heap_free st) as [|hf] eqn:Ehf; [done|].
  rewrite (read_limit_deref st d lim Hlim). cbn [res_bind].
  destruct (read_window pf (R_rx d) lim len) as [r rr] eqn:Ew.
  destruct (read_window_spec pf Hbits _ _ _ _ _ HR Hl Ew) as (Hr & Hrr & Hdist).
  rewrite (mask_small pf Hbits len) in Hdist by (unfold in_ring; lia).
  cbn [tone set_R_rx tx_mix tx_buff]. rewrite Htone. cbn [negb Z.eqb].
  rewrite Hempty, Z.eqb_refl. cbn [negb andb]. rewrite andb_false_r.
  cbn [res_bind andb].
  rewrite (send_mix_alone fuel st _ dsp d _ r rr (W_tx d) (W_tx d) [])
    by done.
  assert (Hne : (r =? rr) = false).
  { apply Z.eqb_neq. intros E.
    apply (dist_zero pf Hbits _ _ Hr Hrr) in E. lia. }
  destruct fuel as [|fuel]; [lia|].
  unfold send_single. cbn [echo ulaw set_R_rx tx_buff rx_buff fst snd].
  destruct (echo d); cbn [negb].
  - unfold mix_branch. cbn [mix_loop]. rewrite Z.eqb_refl.
    cbn [negb andb res_bind]. rewrite andb_false_r. cbn [res_bind].
    rewrite (rest_loop_run pf Hbits _ rr (S fuel) (Z.to_nat len));
      [| done | done | lia | lia].
    cbn [res_bind app]. unfold sent. rewrite Ehf. reflexivity.
  - cbn [mix_loop]. rewrite Z.eqb_refl. cbn [negb andb].
    rewrite andb_false_r. cbn [res_bind]. rewrite Hne. cbn [negb app].
    rewrite Hdist. unfold sent. rewrite Ehf. reflexivity.
Qed.

(** X2: with no tone, no [tx_mix] and at least [len] bytes queued in the
    tx ring, the frame [dsp_cmx_send] returns is the next [len] bytes of
    the tx ring, whatever the rx side and the conference hold; [R_tx]
    moves by [len]. *)
Theorem send_forwards_tx (fuel : nat) (st : cmx_state) (dsp : nat) (d : dsp_t)
    (len dinfo lim : Z) :
  dsps st !! dsp = Some d -> heap_free st <> 0%nat ->
  read_limit st d = Some lim ->
  in_ring pf (R_rx d) -> in_ring pf lim ->
  in_ring pf (R_tx d) -> in_ring pf (W_tx d) ->
  tone d = 0 -> tx_mix d = false ->
  0 < len < CMX_BUFF_SIZE pf ->
  len <= mask pf (W_tx d - R_tx d) ->
  len < Z.of_nat fuel ->
  dsp_cmx_send pf fuel st dsp len dinfo
  = Ret (Some (mk_skb dinfo len
                 (run1 pf (rd (tx_buff d)) (R_tx d) (Z.to_nat len))),
         sent st dsp d (snd (read_window pf (R_rx d) lim len))
           (mask pf (R_tx d + len))).
Proof. apply send_tx_core. Qed.

(** X3: a dsp that is alone (outside any conference, or the only member)
    with an empty tx ring gets [len] bytes of silence of its law, or,
    with echo on, [len] bytes of its own rx ring from the start of the
    read window; [R_tx] stays. *)
Theorem send_alone_silence_or_echo (fuel : nat) (st : cmx_state) (dsp : nat) (d : dsp_t)
    (len dinfo lim : Z) :
  dsps st !! dsp = Some d -> heap_free st <> 0%nat ->
  read_limit st d = Some lim ->
  in_ring pf (R_rx d) -> in_ring pf lim ->
  alone st d = true ->
  tone d = 0 -> R_tx d = W_tx d ->
  0 < len < CMX_BUFF_SIZE pf ->
  len < Z.of_nat fuel ->
  dsp_cmx_send pf fuel st dsp len dinfo
  = Ret (Some (mk_skb dinfo len
                 (if echo d
                  then run1 pf (rd (rx_buff d))
                         (fst (read_window pf (R_rx d) lim len))
                         (Z.to_nat len)
                  else replicate (Z.to_nat len)
                         (if ulaw d then ulawsilence pf
                          else alawsilence pf))),
         sent st dsp d (snd (read_window pf (R_rx d) lim len)) (R_tx d)).
Proof. apply send_alone_core. Qed.

End WithPlatform.
End SendContent.

(** ** Receive, transmit and send composed *)

Module RoundTrips.
Import Ring Cmx Wf Runs RingFacts SendFacts ReceiveFacts TransmitFacts
  SendLoops SendContent.

Section WithPlatform.
Context (pf : platform).
Hypothesis Hbits : 0 < buff_bits pf.

Lemma run1_stored (a : list Z) (w : Z) (l : list Z) :
  (forall i : nat, (i < length l)%nat ->
     rd a (mask pf (w + Z.of_nat i)) = nth i l 0) ->
  run1 pf (rd a) w (length l) = l.
Proof.
  intros H. unfold run1. apply (nth_ext _ _ 0 0).
  - by rewrite length_map, length_seq.
  - intros n Hn. rewrite length_map, length_seq in Hn.
    rewrite (nth_indep _ 0 (rd a (mask pf (w + Z.of_nat 0))))
      by (by rewrite length_map, length_seq).
    rewrite (map_nth (fun i => rd a (mask pf (w + Z.of_nat i)))).
    rewrite seq_nth by done. by apply H.
Qed.

Lemma quarter_half_le_size :
  Z.shiftr (CMX_BUFF_HALF pf) 2 <= CMX_BUFF_SIZE pf.
Proof.
  pose proof (half_double pf Hbits). pose proof (size_pos pf Hbits).
  rewrite Z.shiftr_div_pow2 by lia. change (2 ^ 2) with 4.
  assert (CMX_BUFF_HALF pf / 4 <= CMX_BUFF_HALF pf)
    by (apply Z.div_le_upper_bound; lia). lia.
Qed.

(** A frame that passes the size check is always stored when the dsp is
    outside any conference. *)
Lemma receive_solo_exact (st : cmx_state) (dsp : nat) (d : dsp_t)
    (skb : list Z) :
  dsps st !! dsp = Some d -> conf d = None -> 0 <= largest d ->
  1 <= Z.of_nat (length skb) < Z.shiftr (CMX_BUFF_HALF pf) 2 ->
  dsp_cmx_receive pf st dsp skb
  = Ret (put_dsp dsp
           (set_W_rx (mask pf (W_rx d + Z.of_nat (length skb)))
              (set_rx_buff (rx_write pf (rx_buff d) (W_rx d) skb)
                 (set_largest
                    (Z.max (largest d)
                       (int_wrap (Z.shiftl (Z.of_nat (length skb)) 1)))
                    d)))
           st).
Proof.
  intros Hd Hconf Hl Hlen.
  unfold dsp_cmx_receive, deref. rewrite Hd. cbn [res_bind].
  destruct (Z.ltb_spec (Z.of_nat (length skb)) 1) as [?|_]; [lia|].
  rewrite bump_largest. set (d1 := set_largest _ d).
  destruct (Z.leb_spec (Z.shiftr (CMX_BUFF_HALF pf) 2) (Z.of_nat (length skb)))
    as [?|_]; [lia|].
  change (conf d1) with (conf d). rewrite Hconf.
  rewrite Z.sub_diag, (mask_small pf Hbits 0)
    by (pose proof (size_pos pf Hbits); unfold in_ring; lia).
  destruct (Z.leb_spec 0 (largest d1)) as [_|Hneg]; [done|].
  subst d1. cbn [largest set_largest] in Hneg. lia.
Qed.

(** X4: echo round trip.  A dsp outside any conference with echo on, an
    empty tx ring and nothing unread receives a frame; the next frame of
    the same length that [dsp_cmx_send] returns holds exactly the bytes
    received, and nothing is left unread. *)
Theorem echo_round_trip (fuel : nat) (st : cmx_state) (dsp : nat)
    (d : dsp_t) (skb : list Z) (dinfo : Z) :
  dsps st !! dsp = Some d -> heap_free st <> 0%nat ->
  conf d = None -> echo d = true -> tone d = 0 ->
  R_tx d = W_tx d -> R_rx d = W_rx d -> in_ring pf (W_rx d) ->
  Z.of_nat (length (rx_buff d)) = CMX_BUFF_SIZE pf ->
  0 <= largest d ->
  1 <= Z.of_nat (length skb) < Z.shiftr (CMX_BUFF_HALF pf) 2 ->
  Z.of_nat (length skb) < Z.of_nat fuel ->
  exists st1 st2 d2,
    dsp_cmx_receive pf st dsp skb = Ret st1 /\
    dsp_cmx_send pf fuel st1 dsp (Z.of_nat (length skb)) dinfo
    = Ret (Some (mk_skb dinfo (Z.of_nat (length skb)) skb), st2) /\
    dsps st2 !! dsp = Some d2 /\ R_rx d2 = W_rx d2.
Proof.
  intros Hd Hheap Hconf Hecho Htone Htx Hrx HW Hbuf Hl Hlen Hfuel.
  pose proof quarter_half_le_size as Hq.
  rewrite (receive_solo_exact st dsp d skb Hd Hconf Hl Hlen).
  set (len := Z.of_nat (length skb)) in *.
  set (d1 := set_W_rx _ _). set (st1 := put_dsp dsp d1 st).
  assert (Hd1 : dsps st1 !! dsp = Some d1) by apply lookup_insert_eq.
  assert (Hwin : read_window pf (R_rx d1) (mask pf (W_rx d + len)) len
                 = (W_rx d, mask pf (W_rx d + len))).
  { unfold read_window. subst d1. cbn [R_rx set_W_rx set_rx_buff set_largest].
    rewrite Hrx.
    assert (E : mask pf (mask pf (W_rx d + len) - W_rx d - len) = 0).
    { rewrite !(mask_mod pf Hbits).
      replace (((W_rx d + len) mod CMX_BUFF_SIZE pf) - W_rx d - len)
        with (((W_rx d + len) mod CMX_BUFF_SIZE pf) - (W_rx d + len)) by lia.
      rewrite Zminus_mod_idemp_l, Z.sub_diag. apply Z.mod_0_l.
      pose proof (size_pos pf Hbits). lia. }
    rewrite E.
    destruct (Z.leb_spec (CMX_BUFF_HALF pf) 0) as [Hh|_]; [|done].
    assert (0 < CMX_BUFF_HALF pf)
      by (unfold CMX_BUFF_HALF; apply Z.pow_pos_nonneg; lia). lia. }
  exists st1. eexists. exists (set_R_tx (R_tx d1) (set_R_rx (mask pf (W_rx d + len)) d1)).
  split; [done|].
  assert (Hlim : read_limit st1 d1 = Some (mask pf (W_rx d + len))).
  { unfold read_limit. change (conf d1) with (conf d). by rewrite Hconf. }
  assert (HR1 : in_ring pf (R_rx d1)).
  { change (R_rx d1) with (R_rx d). by rewrite Hrx. }
  assert (Hal : alone st1 d1 = true).
  { unfold alone. change (conf d1) with (conf d). by rewrite Hconf. }
  assert (Hlen1 : 0 < len < CMX_BUFF_SIZE pf) by lia.
  rewrite (send_alone_core pf Hbits fuel st1 dsp d1 len dinfo
             (mask pf (W_rx d + len)) Hd1 Hheap Hlim HR1
             (mask_in_ring pf Hbits _) Hal Htone Htx Hlen1 Hfuel).
  rewrite Hwin. cbn [fst snd].
  change (echo d1) with (echo d). rewrite Hecho.
  unfold len at 2. rewrite Nat2Z.id.
  rewrite run1_stored.
  - split; [reflexivity|]. unfold sent. cbn [dsps put_dsp].
    rewrite lookup_insert_eq. split; [done|]. reflexivity.
  - intros i Hi. subst d1. cbn [rx_buff set_W_rx set_rx_buff].
    apply (rx_write_stored pf Hbits); [done | lia | done].
Qed.

(** X5: transmit round trip.  A frame shorter than the ring queued by
    [dsp_cmx_transmit] into an empty tx ring is what [dsp_cmx_send]
    returns for the same length, byte by byte, and the tx ring is empty
    again. *)
Theorem transmit_send_round_trip (fuel : nat) (st : cmx_state) (dsp : nat)
    (d : dsp_t) (skb : list Z) (dinfo lim : Z) :
  buff_bits pf <= 30 ->
  dsps st !! dsp = Some d -> heap_free st <> 0%nat ->
  read_limit st d = Some lim -> in_ring pf (R_rx d) -> in_ring pf lim ->
  R_tx d = W_tx d -> in_ring pf (W_tx d) ->
  Z.of_nat (length (tx_buff d)) = CMX_BUFF_SIZE pf ->
  tone d = 0 -> tx_mix d = false ->
  (1 <= length skb)%nat -> Z.of_nat (length skb) < CMX_BUFF_SIZE pf ->
  CMX_BUFF_SIZE pf <= Z.of_nat fuel ->
  exists st1 st2 d2,
    dsp_cmx_transmit pf fuel st dsp skb = Ret st1 /\
    dsp_cmx_send pf fuel st1 dsp (Z.of_nat (length skb)) dinfo
    = Ret (Some (mk_skb dinfo (Z.of_nat (length skb)) skb), st2) /\
    dsps st2 !! dsp = Some d2 /\ R_tx d2 = W_tx d2.
Proof.
  intros H30 Hd Hheap Hlim HR Hl Hempty HW Hbuf Htone Hmix Hlen1 Hlen2 Hfuel.
  pose proof (size_pos pf Hbits) as Hsz.
  assert (HRt : in_ring pf (R_tx d)) by (by rewrite Hempty).
  destruct (transmit_spec pf Hbits fuel st dsp d skb H30 Hd HW HRt Hbuf Hlen1
              Hfuel) as (p & Ht & _ & _ & Hs & _).
  set (len := Z.of_nat (length skb)) in *.
  assert (Hfree : mask pf (R_tx d - W_tx d - 1) = CMX_BUFF_SIZE pf - 1).
  { rewrite Hempty, (mask_mod pf Hbits), mod_cases by lia.
    destruct (Z.ltb_spec (W_tx d - W_tx d - 1) 0); lia. }
  rewrite Hfree, Z.min_l in Ht, Hs by lia.
  set (d1 := set_tx_buff p _) in Ht. set (st1 := put_dsp dsp d1 st) in Ht.
  assert (Hd1 : dsps st1 !! dsp = Some d1) by apply lookup_insert_eq.
  assert (Hlim1 : read_limit st1 d1 = Some lim) by exact Hlim.
  assert (Hq : len <= mask pf (W_tx d1 - R_tx d1)).
  { subst d1. cbn [W_tx R_tx set_tx_buff set_W_tx]. rewrite Hempty.
    rewrite !(mask_mod pf Hbits), Zminus_mod_idemp_l.
    replace (W_tx d + len - W_tx d) with len by lia.
    rewrite Z.mod_small; lia. }
  exists st1. eexists.
  exists (set_R_tx (mask pf (R_tx d1 + len))
            (set_R_rx (snd (read_window pf (R_rx d1) lim len)) d1)).
  split; [done|].
  rewrite (send_tx_core pf Hbits fuel st1 dsp d1 len dinfo lim Hd1 Hheap
             Hlim1 HR Hl HRt (mask_in_ring pf Hbits _) Htone Hmix)
    by lia.
  unfold len at 2. rewrite Nat2Z.id.
  change (tx_buff d1) with p. change (R_tx d1) with (R_tx d).
  rewrite Hempty, run1_stored.
  - split; [reflexivity|]. unfold sent. cbn [dsps put_dsp].
    rewrite lookup_insert_eq. split; [done|]. reflexivity.
  - intros i Hi. apply Hs. lia.
Qed.

End WithPlatform.
End RoundTrips.

(** ** Properties kept by every step of [dsp_cmx] *)

Module CmxSteps.
Import Ring Cmx Wf Inv CmxTactics RingFacts.

Section Preserve.
Context (pf : platform) (P : cmx_state -> Prop).
Hypothesis P_add : forall st dsp cf e st',
  P st -> dsp_cmx_add_conf_member pf st dsp cf = Ret (e, st') -> P st'.
Hypothesis P_del_member : forall st dsp e st',
  P st -> dsp_cmx_del_conf_member st dsp = Ret (e, st') -> P st'.
Hypothesis P_new : forall st cid o st',
  P st -> dsp_cmx_search_conf st cid = Ret None ->
  dsp_cmx_new_conf pf st cid = (o, st') -> P st'.
Hypothesis P_del : forall st cf e st',
  P st -> dsp_cmx_del_conf st cf = Ret (e, st') -> P st'.
Hypothesis P_solution : forall st cf s h st',
  P st -> store_solution cf s h st = Ret st' -> P st'.
Hypothesis P_log : forall st m, P st -> P (log_msg m st).

Lemma conf_message_all_keeps (members : list nat) (num : Z) :
  forall st, P st -> P (conf_message_all members num st).
Proof.
  unfold conf_message_all.
  induction members as [|m l IH]; intros st H; simpl; [done|].
  apply IH. by apply P_log.
Qed.

Lemma solution_after_messages (members : list nat) (num : Z) (cf : nat)
    (s h : Z) (st st' : cmx_state) :
  P st ->
  store_solution cf s h (conf_message_all members num st) = Ret st' ->
  P st'.
Proof.
  intros H E. eapply P_solution; [|exact E].
  by apply conf_message_all_keeps.
Qed.

Lemma solution_after_message (m : hfc_message) (cf : nat) (s h : Z)
    (st st' : cmx_state) :
  P st -> store_solution cf s h (log_msg m st) = Ret st' -> P st'.
Proof. intros H E. eapply P_solution; [|exact E]. by apply P_log. Qed.

Lemma remove_from_conf_keeps (fuel : nat) (st : cmx_state) (dsp : nat)
    (o : option Z) (st' : cmx_state) :
  P st -> remove_from_conf fuel st dsp = Ret (o, st') -> P st'.
Proof.
  intros H. unfold remove_from_conf.
  bind_as d Ed. bind_as cf Ecf. bind_as c Ec.
  bind_as r1 E1. destruct r1 as [err st1].
  assert (H1 : P st1) by eauto.
  destruct (negb (err =? 0)); [by intros [= <- <-]|].
  bind_as new Enew.
  set (st2 := if (0 <? new) && (0 <? solution c) then _ else st1).
  assert (H2 : P st2) by (subst st2; destruct (_ && _); auto).
  bind_as st3 E3.
  assert (H3 : P st3).
  { destruct (_ && _) in E3; [|by injection E3 as <-].
    destruct (deref (confs st2) cf) as [c2| |] in E3; try discriminate.
    by eapply solution_after_messages. }
  bind_as r4 E4. destruct r4 as [o4 st4].
  assert (H4 : P st4).
  { destruct (_ && _) in E4; [|by injection E4 as <- <-].
    destruct (two_members _) as [[m1 m2]|] in E4;
      [|by injection E4 as <- <-].
    destruct (store_solution _ _ _ _) as [s| |] eqn:Es in E4;
      try discriminate.
    injection E4 as <- <-. by eapply solution_after_message. }
  destruct o4 as [e4|]; [by intros [= <- <-]|].
  bind_as r5 E5. destruct r5 as [o5 st5].
  assert (H5 : P st5).
  { destruct (new =? 0) in E5; [|by injection E5 as <- <-].
    destruct (deref (confs st4) cf) as [c4| |] in E5; try discriminate.
    cbn [res_bind] in E5.
    destruct (two_members _) as [[m1 m2]|] in E5;
      [|by injection E5 as <- <-].
    destruct (store_solution _ _ _ _) as [s| |] eqn:Es in E5;
      try discriminate.
    injection E5 as <- <-. by eapply solution_after_message. }
  destruct o5 as [e5|]; [by intros [= <- <-]|].
  bind_as c5 Ec5. destruct (mlist c5); [|by intros [= <- <-]].
  bind_as r6 E6. destruct r6 as [err6 st6].
  assert (H6 : P st6) by eauto.
  destruct (negb (err6 =? 0)); by intros [= <- <-].
Qed.

Lemma add_to_conf_keeps (fuel : nat) (st : cmx_state) (dsp : nat)
    (e : Z) (st' : cmx_state) :
  P st -> add_to_conf pf fuel st dsp = Ret (e, st') -> P st'.
Proof.
  intros H. unfold add_to_conf.
  bind_as d Ed. destruct (_ && _); [|by intros [= <- <-]].
  bind_as found Ef.
  assert (H0 : forall ocf st0,
    match found with
    | Some cf => (Some cf, st)
    | None => dsp_cmx_new_conf pf st (conf_id d)
    end = (ocf, st0) -> P st0).
  { intros ocf st0. destruct found as [cf|]; [by intros [= <- <-]|].
    intros En. by eapply P_new. }
  destruct (match found with Some cf => _ | None => _ end) as [ocf st0].
  specialize (H0 ocf st0 eq_refl).
  destruct ocf as [cf|]; [|by intros [= <- <-]].
  bind_as c Ec. bind_as r1 E1. destruct r1 as [err st1].
  assert (H1 : P st1) by eauto.
  destruct (negb (err =? 0)); [by intros [= <- <-]|].
  destruct (chain_next _ _); [|by intros [= <- <-]].
  bind_as new Enew. bind_as c1 Ec1. bind_as st2 E2.
  assert (H2 : P st2).
  { destruct (_ && _) in E2; [|by injection E2 as <-].
    by eapply solution_after_messages. }
  bind_as r3 E3. destruct r3 as [o3 st3].
  assert (H3 : P st3).
  { destruct (_ && _) in E3; [|by injection E3 as <- <-].
    destruct (two_members _) as [[m1 m2]|] in E3;
      [|by injection E3 as <- <-].
    destruct (store_solution _ _ _ _) as [s| |] eqn:Es in E3;
      try discriminate.
    injection E3 as <- <-. by eapply solution_after_message. }
  destruct o3 as [e3|]; [by intros [= <- <-]|].
  bind_as st4 E4.
  assert (H4 : P st4).
  { destruct (0 <? new) in E4; [|by injection E4 as <-].
    destruct (deref (confs st3) cf) as [c3| |] in E4; try discriminate.
    by eapply solution_after_messages. }
  destruct (new =? 0); [|by intros [= <- <-]].
  bind_as c4 Ec4.
  destruct (two_members (mlist c4)) as [[m1 m2]|]; [|by intros [= <- <-]].
  bind_as s Es. intros [= <- <-]. by eapply solution_after_message.
Qed.

Lemma dsp_cmx_keeps (fuel : nat) (st : cmx_state) (dsp : nat)
    (e : Z) (st' : cmx_state) :
  P st -> dsp_cmx pf fuel st dsp = Ret (e, st') -> P st'.
Proof.
  intros H. unfold dsp_cmx. bind_as d Ed.
  destruct (conf d) as [cf|].
  - bind_as c Ec. destruct (_ && _); [by intros [= <- <-]|].
    bind_as r1 E1. destruct r1 as [oerr st1].
    assert (H1 : P st1) by (by eapply remove_from_conf_keeps).
    destruct oerr as [err|]; [by intros [= <- <-]|].
    by apply add_to_conf_keeps.
  - destruct (conf_id d =? 0); [by intros [= <- <-]|].
    by apply add_to_conf_keeps.
Qed.

End Preserve.
End CmxSteps.

(** ** The pointers stay in the ring *)

Module RingInvariant.
Import Ring Cmx Wf Inv RingFacts ReceiveFacts CmxSteps.

Section WithPlatform.
Context (pf : platform).
Hypothesis Hbits : 0 < buff_bits pf.

Lemma zero_in_ring : in_ring pf 0.
Proof. pose proof (size_pos pf Hbits). unfold in_ring. lia. Qed.

Lemma ring_maps_insert_dsp (ds : gmap nat dsp_t)
    (cs : gmap nat conference_t) (a : nat) (d : dsp_t) :
  ring_maps pf ds cs ->
  in_ring pf (W_rx d) -> in_ring pf (R_rx d) ->
  in_ring pf (W_tx d) -> in_ring pf (R_tx d) ->
  ring_maps pf (<[a := d]> ds) cs.
Proof.
  intros [Hd Hc] H1 H2 H3 H4. split; [|done].
  intros b d' Hb. apply lookup_insert_Some in Hb as [[_ <-]|[_ Hb]]; eauto.
Qed.

Lemma ring_maps_insert_conf (ds : gmap nat dsp_t)
    (cs : gmap nat conference_t) (a : nat) (c : conference_t) :
  ring_maps pf ds cs -> in_ring pf (W_min c) -> in_ring pf (W_max c) ->
  ring_maps pf ds (<[a := c]> cs).
Proof.
  intros [Hd Hc] H1 H2. split; [done|].
  intros b c' Hb. apply lookup_insert_Some in Hb as [[_ <-]|[_ Hb]]; eauto.
Qed.

Lemma ring_maps_delete_conf (ds : gmap nat dsp_t)
    (cs : gmap nat conference_t) (a : nat) :
  ring_maps pf ds cs -> ring_maps pf ds (delete a cs).
Proof.
  intros [Hd Hc]. split; [done|].
  intros b c' Hb. apply lookup_delete_Some in Hb as [_ Hb]. eauto.
Qed.

Lemma rings_add (st : cmx_state) (dsp cf : nat) (e : Z) (st' : cmx_state) :
  rings_ok pf st -> dsp_cmx_add_conf_member pf st dsp cf = Ret (e, st') ->
  rings_ok pf st'.
Proof.
  intros H. unfold dsp_cmx_add_conf_member, deref.
  destruct (dsps st !! dsp) as [d|] eqn:Ed; [|done]. cbn [res_bind].
  destruct (bool_decide _); [by intros [= <- <-]|].
  destruct (bool_decide _); [by intros [= <- <-]|].
  destruct (heap_free st); [by intros [= <- <-]|].
  destruct (confs st !! cf) as [c|] eqn:Ec; [|done]. cbn [res_bind].
  intros [= <- <-]. unfold rings_ok. cbn [dsps confs].
  destruct (proj1 H dsp d Ed) as (? & ? & ? & ?).
  destruct (proj2 H cf c Ec) as (? & ?).
  apply ring_maps_insert_conf; [apply ring_maps_insert_dsp | |]; try done.
  all: repeat match goal with |- context [if ?b then _ else _] =>
         destruct b end; done.
Qed.

Lemma rings_del_member (st : cmx_state) (dsp : nat) (e : Z)
    (st' : cmx_state) :
  rings_ok pf st -> dsp_cmx_del_conf_member st dsp = Ret (e, st') ->
  rings_ok pf st'.
Proof.
  intros H. unfold dsp_cmx_del_conf_member, deref.
  destruct (dsps st !! dsp) as [d|] eqn:Ed; [|done]. cbn [res_bind].
  destruct (conf d) as [cf|]; [|by intros [= <- <-]].
  destruct (confs st !! cf) as [c|] eqn:Ec; [|done]. cbn [res_bind].
  destruct (mlist c); [by intros [= <- <-]|].
  destruct (bool_decide _); [|by intros [= <- <-]].
  intros [= <- <-]. unfold rings_ok. cbn [dsps confs].
  destruct (proj1 H dsp d Ed) as (? & ? & ? & ?).
  destruct (proj2 H cf c Ec) as (? & ?).
  apply ring_maps_insert_conf; [apply ring_maps_insert_dsp | |]; done.
Qed.

Lemma rings_new (st : cmx_state) (cid : Z) (o : option nat)
    (st' : cmx_state) :
  rings_ok pf st -> dsp_cmx_new_conf pf st cid = (o, st') -> rings_ok pf st'.
Proof.
  intros H. unfold dsp_cmx_new_conf.
  destruct (cid =? 0); [by intros [= <- <-]|].
  destruct (heap_free st); [by intros [= <- <-]|].
  intros [= <- <-]. unfold rings_ok. cbn [dsps confs].
  apply ring_maps_insert_conf; [done | apply zero_in_ring | apply zero_in_ring].
Qed.

Lemma rings_del (st : cmx_state) (cf : nat) (e : Z) (st' : cmx_state) :
  rings_ok pf st -> dsp_cmx_del_conf st cf = Ret (e, st') -> rings_ok pf st'.
Proof.
  intros H. unfold dsp_cmx_del_conf, deref.
  destruct (confs st !! cf) as [c|]; [|done]. cbn [res_bind].
  destruct (mlist c); [|by intros [= <- <-]].
  intros [= <- <-]. by apply ring_maps_delete_conf.
Qed.

Lemma rings_solution (st : cmx_state) (cf : nat) (s h : Z)
    (st' : cmx_state) :
  rings_ok pf st -> store_solution cf s h st = Ret st' -> rings_ok pf st'.
Proof.
  intros H. unfold store_solution, deref.
  destruct (confs st !! cf) as [c|] eqn:Ec; [|done]. cbn [res_bind].
  intros [= <-]. destruct (proj2 H cf c Ec) as (? & ?).
  by apply ring_maps_insert_conf.
Qed.

Lemma rings_cmx (fuel : nat) (st : cmx_state) (dsp : nat) (e : Z)
    (st' : cmx_state) :
  rings_ok pf st -> dsp_cmx pf fuel st dsp = Ret (e, st') -> rings_ok pf st'.
Proof.
  apply (dsp_cmx_keeps pf (rings_ok pf)).
  - apply rings_add.
  - apply rings_del_member.
  - intros s cid o s' H _. by apply rings_new.
  - apply rings_del.
  - apply rings_solution.
  - done.
Qed.

Lemma lowest_W_rx_in_ring (ds : gmap nat dsp_t) (own : option nat)
    (members : list nat) :
  (forall a d, ds !! a = Some d -> in_ring pf (W_rx d)) ->
  forall W W', in_ring pf W ->
    lowest_W_rx pf ds own members W = Ret W' -> in_ring pf W'.
Proof.
  intros Hds. induction members as [|m l IH]; intros W W' HW; simpl.
  - by intros [= <-].
  - destruct (bool_decide _); [|by apply IH].
    unfold deref. destruct (ds !! m) as [md|] eqn:Em; [|done].
    cbn [res_bind]. destruct (behind pf (W_rx md) W); apply IH; eauto.
Qed.

Lemma rings_receive (st : cmx_state) (dsp : nat) (skb : list Z)
    (st' : cmx_state) :
  rings_ok pf st -> dsp_cmx_receive pf st dsp skb = Ret st' ->
  rings_ok pf st'.
Proof.
  intros H. unfold dsp_cmx_receive, deref.
  destruct (dsps st !! dsp) as [d|] eqn:Ed; [|done]. cbn [res_bind].
  destruct (proj1 H dsp d Ed) as (HWr & HRr & HWt & HRt).
  destruct (_ <? 1); [by intros [= <-]|].
  rewrite bump_largest. set (d1 := set_largest _ d).
  destruct (_ <=? Z.of_nat (length skb)).
  { intros [= <-]. by apply ring_maps_insert_dsp. }
  change (conf d1) with (conf d). destruct (conf d) as [cf|].
  - destruct (confs st !! cf) as [c|] eqn:Ec; [|done]. cbn [res_bind].
    destruct (proj2 H cf c Ec) as (HWmin & HWmax).
    rewrite bump_c_largest, bump_largest.
    set (c1 := set_c_largest _ c). set (d2 := set_largest _ d1).
    destruct (lowest_W_rx _ _ _ _ _) as [Wm| |] eqn:El; try done.
    cbn [res_bind].
    assert (HWm : in_ring pf Wm).
    { eapply lowest_W_rx_in_ring; [| |exact El].
      - intros a da Ha.
        apply lookup_insert_Some in Ha as [[_ <-]|[_ Ha]]; [done|].
        by destruct (proj1 H a da Ha).
      - apply (mask_in_ring pf Hbits). }
    assert (HWx : in_ring pf (if behind pf Wm (W_max (set_W_min Wm c1))
                              then W_max (set_W_min Wm c1) else Wm))
      by (destruct (behind _ _ _); done).
    destruct (_ <=? largest d2); intros [= <-].
    + apply ring_maps_insert_conf; [apply ring_maps_insert_dsp | |];
        try done; try apply (mask_in_ring pf Hbits).
      destruct (conf_next_next _ _); [|done].
      destruct (conf_add _ _ _ _ _ _) as [[cb w] rest]. done.
    + apply ring_maps_insert_conf; [apply ring_maps_insert_dsp | |]; done.
  - destruct (_ <=? largest d1); intros [= <-];
      apply ring_maps_insert_dsp; try done.
    apply (mask_in_ring pf Hbits).
Qed.

Lemma rings_transmit (fuel : nat) (st : cmx_state) (dsp : nat)
    (skb : list Z) (st' : cmx_state) :
  rings_ok pf st -> dsp_cmx_transmit pf fuel st dsp skb = Ret st' ->
  rings_ok pf st'.
Proof.
  intros H. unfold dsp_cmx_transmit, deref.
  destruct (dsps st !! dsp) as [d|] eqn:Ed; [|done]. cbn [res_bind].
  destruct (proj1 H dsp d Ed) as (HWr & HRr & HWt & HRt).
  destruct (_ <? 1); [by intros [= <-]|].
  destruct (tx_write _ _ _ _ _ _) as [p| |]; try done. cbn [res_bind].
  intros [= <-]. apply ring_maps_insert_dsp; try done.
  cbn [W_tx set_tx_buff set_W_tx].
  destruct (_ <? Z.of_nat (length skb)); apply (mask_in_ring pf Hbits).
Qed.

Lemma mix_loop_t_in_ring (f : Z -> Z -> Z) (rr tt : Z) (fuel : nat) :
  forall r t out r1 t1 out1, in_ring pf t ->
    mix_loop pf fuel f r rr t tt out = Ret (r1, t1, out1) -> in_ring pf t1.
Proof.
  induction fuel as [|fuel IH]; intros r t out r1 t1 out1 Ht; simpl; [done|].
  destruct (_ && _).
  - apply IH. apply (next_in_ring pf Hbits).
  - by intros [= _ <- _].
Qed.

Lemma mix_branch_t_in_ring (f : Z -> Z -> Z) (g : Z -> Z) (fuel : nat)
    (r rr t tt : Z) (out : list Z) (t1 : Z) (out1 : list Z) :
  in_ring pf t ->
  mix_branch pf fuel f g r rr t tt out = Ret (t1, out1) -> in_ring pf t1.
Proof.
  intros Ht. unfold mix_branch.
  destruct (mix_loop _ _ _ _ _ _ _ _) as [[[r1 t2] o1]| |] eqn:E; try done.
  cbn [res_bind]. destruct (rest_loop _ _ _ _ _ _) as [o2| |]; try done.
  cbn [res_bind]. intros [= <- _].
  eapply mix_loop_t_in_ring; [|exact E]. done.
Qed.

Lemma send_mix_t_in_ring (fuel : nat) (st : cmx_state) (dsp : nat)
    (d : dsp_t) (r rr t tt : Z) (out : list Z) (t1 : Z) (out1 : list Z) :
  in_ring pf t ->
  send_mix pf fuel st dsp d r rr t tt out = Ret (t1, out1) -> in_ring pf t1.
Proof.
  intros Ht. unfold send_mix.
  assert (Hs : send_single pf fuel d r rr t tt out = Ret (t1, out1) ->
               in_ring pf t1).
  { unfold send_single. destruct (negb (echo d)).
    - destruct (mix_loop _ _ _ _ _ _ _ _) as [[[r1 t2] o1]| |] eqn:E;
        try done.
      cbn [res_bind].
      destruct (negb _); intros [= <- _];
        (eapply mix_loop_t_in_ring; [|exact E]; done).
    - by apply mix_branch_t_in_ring. }
  destruct (conf d) as [cf|]; [|done].
  destruct (deref (confs st) cf) as [c| |]; try done. cbn [res_bind].
  destruct (mlist c) as [|m1 [|m2 [|m3 ml]]]; try done.
  - destruct (deref _ _) as [other| |]; try done. cbn [res_bind].
    unfold send_pair. destruct (negb (echo d)); by apply mix_branch_t_in_ring.
  - unfold send_conf. destruct (negb (echo d)); by apply mix_branch_t_in_ring.
Qed.

Lemma rings_send (fuel : nat) (st : cmx_state) (dsp : nat) (len dinfo : Z)
    (nskb : option sk_buff) (st' : cmx_state) :
  rings_ok pf st -> dsp_cmx_send pf fuel st dsp len dinfo = Ret (nskb, st') ->
  rings_ok pf st'.
Proof.
  intros H. unfold dsp_cmx_send. unfold deref at 1.
  destruct (dsps st !! dsp) as [d|] eqn:Ed; [|done]. cbn [res_bind].
  destruct (proj1 H dsp d Ed) as (HWr & HRr & HWt & HRt).
  destruct (heap_free st) as [|hf]; [by intros [= <- <-]|].
  assert (Hlim : forall lim,
    match conf d with
    | Some cf => let* c := deref (confs st) cf in Ret (W_min c)
    | None => Ret (W_rx d)
    end = Ret lim -> in_ring pf lim).
  { intros lim. destruct (conf d) as [cf|]; [|by intros [= <-]].
    unfold deref. destruct (confs st !! cf) as [c|] eqn:Ec; [|done].
    cbn [res_bind]. intros [= <-]. by destruct (proj2 H cf c Ec). }
  destruct (match conf d with Some cf => _ | None => _ end) as [lim| |];
    try done.
  specialize (Hlim lim eq_refl). cbn [res_bind].
  destruct (read_window pf (R_rx d) lim len) as [r rr] eqn:Ew.
  assert (Hrr : in_ring pf rr).
  { unfold read_window in Ew. destruct (_ <=? _); injection Ew as <- <-;
      [done | apply (mask_in_ring pf Hbits)]. }
  assert (Hbase : ring_maps pf (<[dsp := set_R_rx rr d]> (dsps st)) (confs st))
    by (by apply ring_maps_insert_dsp).
  destruct (negb (tone (set_R_rx rr d) =? 0)).
  { intros [= <- <-]. apply ring_maps_insert_dsp; try done;
      apply zero_in_ring. }
  destruct (if _ && _ then _ else _) as [[[r1 t1] out1]| |] eqn:E1; try done.
  cbn [res_bind].
  assert (Ht1 : in_ring pf t1).
  { destruct (_ && _) in E1;
      [eapply mix_loop_t_in_ring; [|exact E1]; done|].
    by injection E1 as _ <- _. }
  destruct (_ && _ && _).
  { intros [= <- <-]. by apply ring_maps_insert_dsp. }
  destruct (send_mix _ _ _ _ _ _ _ _ _ _) as [[t2 out2]| |] eqn:E2; try done.
  cbn [res_bind]. intros [= <- <-].
  apply ring_maps_insert_dsp; try done.
  eapply send_mix_t_in_ring; [|exact E2]. done.
Qed.

(** X6: every call of [dsp_cmx_receive], [dsp_cmx_send],
    [dsp_cmx_transmit] or [dsp_cmx] that returns keeps all ring pointers
    ([W_rx], [R_rx], [W_tx], [R_tx] of every dsp, [W_min], [W_max] of
    every conference) inside the ring. *)
Theorem rings_step (st st' : cmx_state) :
  rings_ok pf st -> cmx_step pf st st' -> rings_ok pf st'.
Proof.
  intros H Hs. destruct Hs;
    eauto using rings_receive, rings_send, rings_transmit, rings_cmx.
Qed.

End WithPlatform.
End RingInvariant.

(** ** Member chains and back-references *)

Module LinkInvariant.
Import Ring Cmx Wf Inv RingFacts ReceiveFacts CmxSteps.

(** *** Unlinking a node from a chain without repetitions *)

Lemma elem_of_REMOVE (x : nat) (l : list nat) (a : nat) :
  NoDup l -> a ∈ REMOVE_FROM_LISTBASE x l <-> a ∈ l /\ a <> x.
Proof.
  induction l as [|b l IH]; intros Hnd; simpl.
  - split; [intros H; by apply elem_of_nil in H | intros [H _]; done].
  - apply NoDup_cons in Hnd as [Hb Hnd].
    destruct (decide (b = x)) as [->|Hne].
    + rewrite bool_decide_eq_true_2 by done. rewrite elem_of_cons.
      split; [intros H; split; [by right | by intros ->] |].
      intros [[->|H] Hn]; done.
    + rewrite bool_decide_eq_false_2 by done. rewrite !elem_of_cons, IH by done.
      split; [intros [->|[H Hn]]; split; auto | intros [[->|H] Hn]; auto].
Qed.

Lemma NoDup_REMOVE (x : nat) (l : list nat) :
  NoDup l -> NoDup (REMOVE_FROM_LISTBASE x l).
Proof.
  induction l as [|b l IH]; intros Hnd; simpl; [done|].
  apply NoDup_cons in Hnd as [Hb Hnd].
  destruct (bool_decide (b = x)); [done|].
  apply NoDup_cons. split; [|by apply IH].
  intros H. apply elem_of_REMOVE in H as [H _]; done.
Qed.

Lemma REMOVE_absent (x : nat) (l : list nat) :
  x ∉ l -> REMOVE_FROM_LISTBASE x l = l.
Proof.
  induction l as [|b l IH]; intros H; simpl; [done|].
  apply not_elem_of_cons in H as [Hne H].
  rewrite bool_decide_eq_false_2 by done. by rewrite IH.
Qed.

Lemma REMOVE_appended (x : nat) (l : list nat) :
  x ∉ l -> REMOVE_FROM_LISTBASE x (APPEND_TO_LIST x l) = l.
Proof.
  unfold APPEND_TO_LIST. induction l as [|b l IH]; intros H; simpl.
  - by rewrite bool_decide_eq_true_2.
  - apply not_elem_of_cons in H as [Hne H].
    rewrite bool_decide_eq_false_2 by done. by rewrite IH.
Qed.

(** *** The member links *)

Lemma link_dsp_same (ds : gmap nat dsp_t) (cs : gmap nat conference_t)
    (n a : nat) (d d' : dsp_t) :
  link_maps ds cs n -> ds !! a = Some d -> conf d' = conf d ->
  link_maps (<[a := d']> ds) cs n.
Proof.
  intros (L1 & L2 & L3 & L4) Hd Hc. split_and!; [| |done|done].
  - intros b db cf Hb Hcf.
    apply lookup_insert_Some in Hb as [[<- <-]|[_ Hb]]; [|eauto].
    rewrite Hc in Hcf. eauto.
  - intros cf c b Hcf Hb. destruct (L2 cf c b Hcf Hb) as (db & Hdb & Hcb).
    destruct (decide (a = b)) as [<-|Hne].
    + exists d'. rewrite lookup_insert_eq. split; [done|]. congruence.
    + exists db. by rewrite lookup_insert_ne.
Qed.

Lemma link_conf_same (ds : gmap nat dsp_t) (cs : gmap nat conference_t)
    (n cf : nat) (c c' : conference_t) :
  link_maps ds cs n -> cs !! cf = Some c -> mlist c' = mlist c ->
  link_maps ds (<[cf := c']> cs) n.
Proof.
  intros (L1 & L2 & L3 & L4) Hcf Hm. split_and!.
  - intros a d cf0 Ha Hc. destruct (L1 a d cf0 Ha Hc) as (c0 & Hc0 & Hin).
    destruct (decide (cf = cf0)) as [<-|Hne].
    + exists c'. rewrite lookup_insert_eq. split; [done|]. congruence.
    + exists c0. by rewrite lookup_insert_ne.
  - intros cf0 c0 a Hc0 Hin.
    apply lookup_insert_Some in Hc0 as [[<- <-]|[_ Hc0]]; [|eauto].
    rewrite Hm in Hin. eauto.
  - intros cf0 c0 Hc0.
    apply lookup_insert_Some in Hc0 as [[<- <-]|[_ Hc0]]; [|eauto].
    rewrite Hm. eauto.
  - intros a Ha. rewrite lookup_insert_ne; [by apply L4|].
    intros <-. rewrite L4 in Hcf; done.
Qed.

Section WithPlatform.
Context (pf : platform).

Lemma link_add (st : cmx_state) (dsp cf : nat) (e : Z) (st' : cmx_state) :
  member_link st -> dsp_cmx_add_conf_member pf st dsp cf = Ret (e, st') ->
  member_link st'.
Proof.
  intros H. unfold dsp_cmx_add_conf_member, deref.
  destruct (dsps st !! dsp) as [d|] eqn:Ed; [|done]. cbn [res_bind].
  destruct (bool_decide _); [by intros [= <- <-]|].
  destruct (bool_decide_reflect (conf d <> None)) as [|Hconf];
    [by intros [= <- <-]|].
  assert (Hnone : conf d = None) by (by destruct (conf d); [destruct Hconf|]).
  destruct (heap_free st); [by intros [= <- <-]|].
  destruct (confs st !! cf) as [c|] eqn:Ec; [|done]. cbn [res_bind].
  intros [= <- <-]. unfold member_link. cbn [dsps confs next_conf].
  destruct H as (L1 & L2 & L3 & L4).
  assert (Hnotin : dsp ∉ mlist c).
  { intros Hin. destruct (L2 cf c dsp Ec Hin) as (d0 & Hd0 & Hc0).
    congruence. }
  set (c2 := if has_next _ then _ else _).
  assert (Hm2 : mlist c2 = mlist c ++ [dsp]).
  { subst c2. unfold APPEND_TO_LIST.
    repeat match goal with |- context [if ?b then _ else _] =>
      destruct b end; done. }
  split_and!.
  - intros a da cf0 Ha Hc.
    apply lookup_insert_Some in Ha as [[<- <-]|[Hne Ha]].
    + cbn in Hc. injection Hc as <-. exists c2.
      rewrite lookup_insert_eq. split; [done|]. rewrite Hm2.
      apply elem_of_app. right. by apply list_elem_of_singleton.
    + destruct (L1 a da cf0 Ha Hc) as (c0 & Hc0 & Hin).
      destruct (decide (cf = cf0)) as [<-|Hn].
      * exists c2. rewrite lookup_insert_eq. split; [done|]. rewrite Hm2.
        apply elem_of_app. left. congruence.
      * exists c0. by rewrite lookup_insert_ne.
  - intros cf0 c0 a Hc0 Hin.
    apply lookup_insert_Some in Hc0 as [[<- <-]|[Hn Hc0]].
    + rewrite Hm2 in Hin. apply elem_of_app in Hin as [Hin|Hin].
      * destruct (L2 cf c a Ec Hin) as (d0 & Hd0 & Hcd).
        exists d0. rewrite lookup_insert_ne; [done|]. by intros <-.
      * apply list_elem_of_singleton in Hin as ->.
        eexists. rewrite lookup_insert_eq. done.
    + destruct (L2 cf0 c0 a Hc0 Hin) as (d0 & Hd0 & Hcd).
      exists d0. rewrite lookup_insert_ne; [done|]. intros <-. congruence.
  - intros cf0 c0 Hc0.
    apply lookup_insert_Some in Hc0 as [[<- <-]|[Hn Hc0]]; [|eauto].
    rewrite Hm2. apply NoDup_app. split; [eauto|]. split.
    + intros x Hx Hx'. apply list_elem_of_singleton in Hx' as ->. done.
    + apply NoDup_singleton.
  - intros a Ha. rewrite lookup_insert_ne; [by apply L4|].
    intros <-. rewrite L4 in Ec; done.
Qed.

Lemma link_del_member (st : cmx_state) (dsp : nat) (e : Z)
    (st' : cmx_state) :
  member_link st -> dsp_cmx_del_conf_member st dsp = Ret (e, st') ->
  member_link st'.
Proof.
  intros H. unfold dsp_cmx_del_conf_member, deref.
  destruct (dsps st !! dsp) as [d|] eqn:Ed; [|done]. cbn [res_bind].
  destruct (conf d) as [cf|] eqn:Econf; [|by intros [= <- <-]].
  destruct (confs st !! cf) as [c|] eqn:Ec; [|done]. cbn [res_bind].
  destruct (mlist c) eqn:Eml; [by intros [= <- <-]|]. rewrite <- Eml.
  destruct (bool_decide _); [|by intros [= <- <-]].
  intros [= <- <-]. unfold member_link. cbn [dsps confs next_conf].
  destruct H as (L1 & L2 & L3 & L4).
  pose proof (L3 cf c Ec) as Hnd.
  split_and!.
  - intros a da cf0 Ha Hc.
    apply lookup_insert_Some in Ha as [[<- <-]|[Hne Ha]]; [done|].
    destruct (L1 a da cf0 Ha Hc) as (c0 & Hc0 & Hin).
    destruct (decide (cf = cf0)) as [<-|Hn].
    + eexists. rewrite lookup_insert_eq. split; [done|]. cbn.
      apply elem_of_REMOVE; [done|]. split; [congruence | done].
    + exists c0. by rewrite lookup_insert_ne.
  - intros cf0 c0 a Hc0 Hin.
    apply lookup_insert_Some in Hc0 as [[<- <-]|[Hn Hc0]].
    + cbn in Hin. apply elem_of_REMOVE in Hin as [Hin Hne]; [|done].
      destruct (L2 cf c a Ec Hin) as (d0 & Hd0 & Hcd).
      exists d0. by rewrite lookup_insert_ne.
    + destruct (L2 cf0 c0 a Hc0 Hin) as (d0 & Hd0 & Hcd).
      exists d0. rewrite lookup_insert_ne; [done|]. intros <-. congruence.
  - intros cf0 c0 Hc0.
    apply lookup_insert_Some in Hc0 as [[<- <-]|[Hn Hc0]]; [|eauto].
    cbn. by apply NoDup_REMOVE.
  - intros a Ha. rewrite lookup_insert_ne; [by apply L4|].
    intros <-. rewrite L4 in Ec; done.
Qed.

Lemma link_new (st : cmx_state) (cid : Z) (o : option nat)
    (st' : cmx_state) :
  member_link st -> dsp_cmx_new_conf pf st cid = (o, st') -> member_link st'.
Proof.
  intros H. unfold dsp_cmx_new_conf.
  destruct (cid =? 0); [by intros [= <- <-]|].
  destruct (heap_free st); [by intros [= <- <-]|].
  intros [= <- <-]. unfold member_link. cbn [dsps confs next_conf].
  destruct H as (L1 & L2 & L3 & L4).
  pose proof (L4 (next_conf st) (le_n _)) as Hfresh.
  split_and!.
  - intros a da cf0 Ha Hc. destruct (L1 a da cf0 Ha Hc) as (c0 & Hc0 & Hin).
    exists c0. rewrite lookup_insert_ne; [done|]. intros <-. congruence.
  - intros cf0 c0 a Hc0 Hin.
    apply lookup_insert_Some in Hc0 as [[<- <-]|[Hn Hc0]]; [|eauto].
    cbn in Hin. by apply elem_of_nil in Hin.
  - intros cf0 c0 Hc0.
    apply lookup_insert_Some in Hc0 as [[<- <-]|[Hn Hc0]]; [|eauto].
    apply NoDup_nil_2.
  - intros a Ha. rewrite lookup_insert_ne by lia. apply L4. lia.
Qed.

Lemma link_del (st : cmx_state) (cf : nat) (e : Z) (st' : cmx_state) :
  member_link st -> dsp_cmx_del_conf st cf = Ret (e, st') -> member_link st'.
Proof.
  intros H. unfold dsp_cmx_del_conf, deref.
  destruct (confs st !! cf) as [c|] eqn:Ec; [|done]. cbn [res_bind].
  destruct (mlist c) eqn:Eml; [|by intros [= <- <-]].
  intros [= <- <-]. unfold member_link. cbn [dsps confs next_conf].
  destruct H as (L1 & L2 & L3 & L4).
  split_and!.
  - intros a da cf0 Ha Hc. destruct (L1 a da cf0 Ha Hc) as (c0 & Hc0 & Hin).
    exists c0. rewrite lookup_delete_ne; [done|]. intros <-.
    rewrite Ec in Hc0. injection Hc0 as <-. rewrite Eml in Hin.
    by apply elem_of_nil in Hin.
  - intros cf0 c0 a Hc0 Hin. apply lookup_delete_Some in Hc0 as [_ Hc0].
    eauto.
  - intros cf0 c0 Hc0. apply lookup_delete_Some in Hc0 as [_ Hc0]. eauto.
  - intros a Ha. apply lookup_delete_None. right. by apply L4.
Qed.

Lemma link_solution (st : cmx_state) (cf : nat) (s h : Z)
    (st' : cmx_state) :
  member_link st -> store_solution cf s h st = Ret st' -> member_link st'.
Proof.
  intros H. unfold store_solution, deref.
  destruct (confs st !! cf) as [c|] eqn:Ec; [|done]. cbn [res_bind].
  intros [= <-]. by eapply link_conf_same.
Qed.

Lemma link_cmx (fuel : nat) (st : cmx_state) (dsp : nat) (e : Z)
    (st' : cmx_state) :
  member_link st -> dsp_cmx pf fuel st dsp = Ret (e, st') -> member_link st'.
Proof.
  apply (dsp_cmx_keeps pf member_link).
  - apply link_add.
  - apply link_del_member.
  - intros s cid o s' H _. by apply link_new.
  - apply link_del.
  - apply link_solution.
  - done.
Qed.

End WithPlatform.
End LinkInvariant.

(** ** The audio paths leave the topology alone *)

Module Topology.
Import Ring Cmx Wf Inv RingFacts ReceiveFacts CmxSteps LinkInvariant.

Lemma topology_refl (st : cmx_state) : same_topology st st.
Proof. by split_and!. Qed.

Lemma topology_trans (s1 s2 s3 : cmx_state) :
  same_topology s1 s2 -> same_topology s2 s3 -> same_topology s1 s3.
Proof.
  intros (A1 & A2 & A3 & A4 & A5) (B1 & B2 & B3 & B4 & B5).
  split_and!; try congruence; intros a; by rewrite ?B4, ?B5.
Qed.

Lemma topology_dsp (st st' : cmx_state) (a : nat) (d d' : dsp_t) :
  dsps st !! a = Some d -> wiring d' = wiring d ->
  dsps st' = <[a := d']> (dsps st) -> confs st' = confs st ->
  Conf_list st' = Conf_list st -> next_conf st' = next_conf st ->
  hfc_log st' = hfc_log st -> same_topology st st'.
Proof.
  intros Hd Hw E1 E2 E3 E4 E5. split_and!; try done.
  - intros b. rewrite E1. destruct (decide (a = b)) as [<-|Hne].
    + rewrite lookup_insert_eq, Hd. cbn. by rewrite Hw.
    + by rewrite lookup_insert_ne.
  - intros b. by rewrite E2.
Qed.

Lemma topology_conf (st st' : cmx_state) (a : nat) (c c' : conference_t) :
  confs st !! a = Some c -> shape c' = shape c ->
  confs st' = <[a := c']> (confs st) -> dsps st' = dsps st ->
  Conf_list st' = Conf_list st -> next_conf st' = next_conf st ->
  hfc_log st' = hfc_log st -> same_topology st st'.
Proof.
  intros Hd Hw E1 E2 E3 E4 E5. split_and!; try done.
  - intros b. by rewrite E2.
  - intros b. rewrite E1. destruct (decide (a = b)) as [<-|Hne].
    + rewrite lookup_insert_eq, Hd. cbn. by rewrite Hw.
    + by rewrite lookup_insert_ne.
Qed.

Lemma topology_put_dsp (st : cmx_state) (a : nat) (d d' : dsp_t) :
  dsps st !! a = Some d -> wiring d' = wiring d ->
  same_topology st (put_dsp a d' st).
Proof. intros. by eapply topology_dsp. Qed.

Lemma topology_put_conf (st : cmx_state) (a : nat) (c c' : conference_t) :
  confs st !! a = Some c -> shape c' = shape c ->
  same_topology st (put_conf a c' st).
Proof. intros. by eapply topology_conf. Qed.

Section WithPlatform.
Context (pf : platform).

Lemma topology_receive (st : cmx_state) (dsp : nat) (skb : list Z)
    (st' : cmx_state) :
  dsp_cmx_receive pf st dsp skb = Ret st' -> same_topology st st'.
Proof.
  unfold dsp_cmx_receive, deref.
  destruct (dsps st !! dsp) as [d|] eqn:Ed; [|done]. cbn [res_bind].
  destruct (_ <? 1); [intros [= <-]; apply topology_refl|].
  rewrite bump_largest. set (d1 := set_largest _ d).
  destruct (_ <=? Z.of_nat (length skb)).
  { intros [= <-]. by eapply topology_put_dsp. }
  change (conf d1) with (conf d). destruct (conf d) as [cf|] eqn:Ecf.
  - destruct (confs st !! cf) as [c|] eqn:Ec; [|done]. cbn [res_bind].
    rewrite bump_c_largest, bump_largest.
    set (c1 := set_c_largest _ c). set (d2 := set_largest _ d1).
    destruct (lowest_W_rx _ _ _ _ _) as [Wm| |] eqn:El; try done.
    cbn [res_bind].
    destruct (_ <=? largest d2); intros [= <-].
    + eapply topology_trans;
        [|eapply (topology_put_conf _ cf c); [done|]];
        [by eapply topology_put_dsp|].
      destruct (conf_next_next _ _); [|done].
      destruct (conf_add _ _ _ _ _ _) as [[cb w] rest]. done.
    + eapply topology_trans;
        [|eapply (topology_put_conf _ cf c); [done|]];
        [by eapply topology_put_dsp|done].
  - destruct (_ <=? largest d1); intros [= <-]; by eapply topology_put_dsp.
Qed.

Lemma topology_transmit (fuel : nat) (st : cmx_state) (dsp : nat)
    (skb : list Z) (st' : cmx_state) :
  dsp_cmx_transmit pf fuel st dsp skb = Ret st' -> same_topology st st'.
Proof.
  unfold dsp_cmx_transmit, deref.
  destruct (dsps st !! dsp) as [d|] eqn:Ed; [|done]. cbn [res_bind].
  destruct (_ <? 1); [intros [= <-]; apply topology_refl|].
  destruct (tx_write _ _ _ _ _ _) as [p| |]; try done. cbn [res_bind].
  intros [= <-]. by eapply topology_put_dsp.
Qed.

Lemma topology_send (fuel : nat) (st : cmx_state) (dsp : nat) (len dinfo : Z)
    (nskb : option sk_buff) (st' : cmx_state) :
  dsp_cmx_send pf fuel st dsp len dinfo = Ret (nskb, st') ->
  same_topology st st'.
Proof.
  unfold dsp_cmx_send. unfold deref at 1.
  destruct (dsps st !! dsp) as [d|] eqn:Ed; [|done]. cbn [res_bind].
  destruct (heap_free st) as [|hf]; [intros [= <- <-]; apply topology_refl|].
  destruct (match conf d with Some cf => _ | None => _ end) as [lim| |];
    try done.
  cbn [res_bind].
  destruct (read_window pf (R_rx d) lim len) as [r rr] eqn:Ew.
  set (s1 := mk_state (<[dsp := set_R_rx rr d]> (dsps st)) _ _ _ _ _).
  assert (Hbase : same_topology st s1)
    by (by apply (topology_dsp st s1 dsp d (set_R_rx rr d))).
  assert (Hd1 : dsps s1 !! dsp = Some (set_R_rx rr d))
    by (subst s1; cbn; by rewrite lookup_insert_eq).
  destruct (negb (tone (set_R_rx rr d) =? 0)).
  { intros [= <- <-]. eapply topology_trans; [exact Hbase|].
    by eapply topology_put_dsp. }
  destruct (if _ && _ then _ else _) as [[[r1 t1] out1]| |] eqn:E1; try done.
  cbn [res_bind].
  destruct (_ && _ && _).
  { intros [= <- <-]. eapply topology_trans; [exact Hbase|].
    by eapply topology_put_dsp. }
  destruct (send_mix _ _ _ _ _ _ _ _ _ _) as [[t2 out2]| |] eqn:E2; try done.
  cbn [res_bind]. intros [= <- <-].
  eapply topology_trans; [exact Hbase|]. by eapply topology_put_dsp.
Qed.

End WithPlatform.

(** *** The invariants only read the topology *)

Lemma link_same_topology (st st' : cmx_state) :
  same_topology st st' -> member_link st -> member_link st'.
Proof.
  intros (T1 & T2 & T3 & T4 & T5) (L1 & L2 & L3 & L4).
  assert (Hd : forall a d', dsps st' !! a = Some d' ->
            exists d, dsps st !! a = Some d /\ conf d = conf d').
  { intros a d' Ha. specialize (T4 a). rewrite Ha in T4.
    destruct (dsps st !! a) as [d|]; [|done]. exists d. split; [done|].
    cbn in T4. unfold wiring in T4. congruence. }
  assert (Hd' : forall a d, dsps st !! a = Some d ->
            exists d', dsps st' !! a = Some d' /\ conf d' = conf d).
  { intros a d Ha. specialize (T4 a). rewrite Ha in T4.
    destruct (dsps st' !! a) as [d'|]; [|done]. exists d'. split; [done|].
    cbn in T4. unfold wiring in T4. congruence. }
  assert (Hc : forall a c', confs st' !! a = Some c' ->
            exists c, confs st !! a = Some c /\ mlist c = mlist c').
  { intros a c' Ha. specialize (T5 a). rewrite Ha in T5.
    destruct (confs st !! a) as [c|]; [|done]. exists c. split; [done|].
    cbn in T5. unfold shape in T5. congruence. }
  assert (Hc' : forall a c, confs st !! a = Some c ->
            exists c', confs st' !! a = Some c' /\ mlist c' = mlist c).
  { intros a c Ha. specialize (T5 a). rewrite Ha in T5.
    destruct (confs st' !! a) as [c'|]; [|done]. exists c'. split; [done|].
    cbn in T5. unfold shape in T5. congruence. }
  unfold member_link. split_and!.
  - intros a d' cf Ha Hcf. destruct (Hd a d' Ha) as (d & Hda & Hcd).
    destruct (L1 a d cf Hda) as (c & Hc0 & Hin); [congruence|].
    destruct (Hc' cf c Hc0) as (c' & Hc1 & Hm). exists c'.
    split; [done|]. congruence.
  - intros cf c' a Hcf Hin. destruct (Hc cf c' Hcf) as (c & Hc0 & Hm).
    destruct (L2 cf c a Hc0) as (d & Hda & Hcd); [congruence|].
    destruct (Hd' a d Hda) as (d' & Hd1 & Hcd'). exists d'.
    split; [done|]. congruence.
  - intros cf c' Hcf. destruct (Hc cf c' Hcf) as (c & Hc0 & Hm).
    rewrite <- Hm. eauto.
  - intros a Ha. rewrite T2 in Ha. specialize (T5 a).
    rewrite (L4 a Ha) in T5. by destruct (confs st' !! a).
Qed.

Section Steps.
Context (pf : platform).

(** X9: the three audio paths leave the topology alone: after
    [dsp_cmx_receive], [dsp_cmx_send] or [dsp_cmx_transmit] the chain
    [Conf_list], the id, member chain, solution and card of every
    conference and the settings and conference of every dsp are what
    they were, and no message went to the HFC chip. *)
Theorem audio_keeps_topology (st st' : cmx_state) :
  audio_step pf st st' -> same_topology st st'.
Proof.
  intros Hs. destruct Hs;
    eauto using topology_receive, topology_send, topology_transmit.
Qed.

(** X7: every call of an entry point that returns keeps the member
    chains and the back-references in step: [dsp->conf] names a
    conference exactly when that conference's chain holds the dsp, and
    no chain holds a dsp twice. *)
Theorem link_step (st st' : cmx_state) :
  member_link st -> cmx_step pf st st' -> member_link st'.
Proof.
  intros H Hs. destruct Hs;
    eauto using link_same_topology, topology_receive, topology_send,
      topology_transmit, link_cmx.
Qed.

End Steps.
End Topology.

(** ** The registry of conferences *)

Module RegistryFacts.
Import Ring Cmx Wf Inv RingFacts ReceiveFacts CmxSteps LinkInvariant Topology.

Lemma search_chain_none (cs : gmap nat conference_t) (cid : Z)
    (chain : list nat) :
  search_chain cs chain cid = Ret None ->
  forall a c, a ∈ chain -> cs !! a = Some c -> id c <> cid.
Proof.
  induction chain as [|b chain IH]; simpl; intros H a c Ha Hc.
  - by apply elem_of_nil in Ha.
  - unfold deref in H. destruct (cs !! b) as [cb|] eqn:Eb; [|done].
    cbn [res_bind] in H. destruct (id cb =? cid) eqn:E; [done|].
    apply elem_of_cons in Ha as [->|Ha]; [|by eapply IH].
    rewrite Eb in Hc. injection Hc as <-. lia.
Qed.

Lemma search_chain_some (cs : gmap nat conference_t) (cid : Z)
    (chain : list nat) (a : nat) :
  search_chain cs chain cid = Ret (Some a) ->
  a ∈ chain /\ exists c, cs !! a = Some c /\ id c = cid.
Proof.
  induction chain as [|b chain IH]; simpl; intros H; [done|].
  unfold deref in H. destruct (cs !! b) as [cb|] eqn:Eb; [|done].
  cbn [res_bind] in H. destruct (id cb =? cid) eqn:E.
  - injection H as <-. split; [apply elem_of_cons; by left|].
    exists cb. split; [done | lia].
  - destruct (IH H) as [Hin Hc]. split; [apply elem_of_cons; by right|done].
Qed.

Lemma search_chain_returns (cs : gmap nat conference_t) (cid : Z)
    (chain : list nat) :
  (forall a, a ∈ chain -> is_Some (cs !! a)) ->
  exists o, search_chain cs chain cid = Ret o.
Proof.
  induction chain as [|b chain IH]; simpl; intros H; [by eexists|].
  destruct (H b) as [cb Eb]; [apply elem_of_cons; by left|].
  unfold deref. rewrite Eb. cbn [res_bind].
  destruct (id cb =? cid); [by eexists|].
  apply IH. intros a Ha. apply H. apply elem_of_cons. by right.
Qed.

Lemma search_conf_core (st : cmx_state) (cid : Z) :
  registry_ok st ->
  (exists o, dsp_cmx_search_conf st cid = Ret o) /\
  forall a, dsp_cmx_search_conf st cid = Ret (Some a) <->
            exists c, confs st !! a = Some c /\ id c = cid.
Proof.
  intros (R1 & R2 & R3 & R4 & R5). unfold dsp_cmx_search_conf.
  destruct (Z.eqb_spec cid 0) as [->|Hcid].
  - split; [by eexists|]. intros a. split; [done|].
    intros (c & Hc & Hid). by destruct (R3 a c Hc).
  - destruct (search_chain_returns (confs st) cid (Conf_list st)) as [o Ho].
    { intros a Ha. by apply R2. }
    split; [by eexists|]. intros a. split.
    + intros H. by apply search_chain_some in H as [_ H].
    + intros (c & Hc & Hid). rewrite Ho. destruct o as [b|].
      * apply search_chain_some in Ho as (_ & cb & Hcb & Hidb).
        f_equal. f_equal. eapply R4; [exact Hcb | exact Hc | congruence].
      * destruct (search_chain_none _ _ _ Ho a c); try done.
        apply R2. by eexists.
Qed.

(** X10: on a registry whose chain holds exactly the mapped conferences
    with ids unique and not 0, [dsp_cmx_search_conf] returns, and it
    returns a conference exactly when that conference has the id asked
    for. *)
Theorem search_conf_finds (st : cmx_state) (cid : Z) :
  registry_ok st ->
  (exists o, dsp_cmx_search_conf st cid = Ret o) /\
  forall a, dsp_cmx_search_conf st cid = Ret (Some a) <->
            exists c, confs st !! a = Some c /\ id c = cid.
Proof. apply search_conf_core. Qed.

Lemma reg_conf_same (chain : list nat) (cs : gmap nat conference_t)
    (n cf : nat) (c c' : conference_t) :
  reg_maps chain cs n -> cs !! cf = Some c -> id c' = id c ->
  reg_maps chain (<[cf := c']> cs) n.
Proof.
  intros (R1 & R2 & R3 & R4 & R5) Hcf Hid. split_and!; [done| | | |].
  - intros a. rewrite R2. destruct (decide (cf = a)) as [<-|Hne].
    + rewrite lookup_insert_eq, Hcf. split; by eexists.
    + by rewrite lookup_insert_ne.
  - intros a ca Ha.
    apply lookup_insert_Some in Ha as [[<- <-]|[_ Ha]]; [|eauto].
    rewrite Hid. eauto.
  - intros a b ca cb Ha Hb.
    apply lookup_insert_Some in Ha as [[<- <-]|[Hna Ha]];
      apply lookup_insert_Some in Hb as [[<- <-]|[Hnb Hb]];
      rewrite ?Hid; eauto.
  - intros a Ha. rewrite lookup_insert_ne; [by apply R5|].
    intros <-. rewrite R5 in Hcf; done.
Qed.

Section WithPlatform.
Context (pf : platform).

Lemma reg_add (st : cmx_state) (dsp cf : nat) (e : Z) (st' : cmx_state) :
  registry_ok st -> dsp_cmx_add_conf_member pf st dsp cf = Ret (e, st') ->
  registry_ok st'.
Proof.
  intros H. unfold dsp_cmx_add_conf_member, deref.
  destruct (dsps st !! dsp) as [d|] eqn:Ed; [|done]. cbn [res_bind].
  destruct (bool_decide _); [by intros [= <- <-]|].
  destruct (bool_decide _); [by intros [= <- <-]|].
  destruct (heap_free st); [by intros [= <- <-]|].
  destruct (confs st !! cf) as [c|] eqn:Ec; [|done]. cbn [res_bind].
  intros [= <- <-]. unfold registry_ok. cbn [Conf_list confs next_conf].
  eapply reg_conf_same; [done..|].
  repeat match goal with |- context [if ?b then _ else _] =>
    destruct b end; done.
Qed.

Lemma reg_del_member (st : cmx_state) (dsp : nat) (e : Z)
    (st' : cmx_state) :
  registry_ok st -> dsp_cmx_del_conf_member st dsp = Ret (e, st') ->
  registry_ok st'.
Proof.
  intros H. unfold dsp_cmx_del_conf_member, deref.
  destruct (dsps st !! dsp) as [d|] eqn:Ed; [|done]. cbn [res_bind].
  destruct (conf d) as [cf|] eqn:Econf; [|by intros [= <- <-]].
  destruct (confs st !! cf) as [c|] eqn:Ec; [|done]. cbn [res_bind].
  destruct (mlist c) eqn:Eml; [by intros [= <- <-]|]. rewrite <- Eml.
  destruct (bool_decide _); [|by intros [= <- <-]].
  intros [= <- <-]. unfold registry_ok. cbn [Conf_list confs next_conf].
  by eapply reg_conf_same.
Qed.

Lemma reg_new (st : cmx_state) (cid : Z) (o : option nat)
    (st' : cmx_state) :
  registry_ok st -> dsp_cmx_search_conf st cid = Ret None ->
  dsp_cmx_new_conf pf st cid = (o, st') -> registry_ok st'.
Proof.
  intros H Hs. unfold dsp_cmx_new_conf.
  destruct (Z.eqb_spec cid 0) as [->|Hcid]; [by intros [= <- <-]|].
  destruct (heap_free st); [by intros [= <- <-]|].
  intros [= <- <-]. unfold registry_ok. cbn [Conf_list confs next_conf].
  assert (Hfree : forall a c, confs st !! a = Some c -> id c <> cid).
  { intros a c Hc Hid.
    destruct (proj2 (search_conf_core st cid H) a) as [_ Hx].
    rewrite Hs in Hx. specialize (Hx (ex_intro _ c (conj Hc Hid))). done. }
  destruct H as (R1 & R2 & R3 & R4 & R5).
  pose proof (R5 (next_conf st) (le_n _)) as Hfresh.
  unfold APPEND_TO_LIST. split_and!.
  - apply NoDup_app. split; [done|]. split; [|apply NoDup_singleton].
    intros x Hx Hx'. apply list_elem_of_singleton in Hx' as ->.
    apply R2 in Hx as [? Hx]. congruence.
  - intros a. rewrite elem_of_app, list_elem_of_singleton, R2.
    destruct (decide (next_conf st = a)) as [<-|Hne].
    + rewrite lookup_insert_eq. split; [by eexists | by right].
    + rewrite lookup_insert_ne by done. split; [intros [?|?]; done | by left].
  - intros a ca Ha.
    apply lookup_insert_Some in Ha as [[<- <-]|[_ Ha]]; [done|eauto].
  - intros a b ca cb Ha Hb Hid.
    apply lookup_insert_Some in Ha as [[<- <-]|[Hna Ha]];
      apply lookup_insert_Some in Hb as [[<- <-]|[Hnb Hb]];
      cbn in Hid; eauto.
    + by destruct (Hfree b cb Hb).
    + by destruct (Hfree a ca Ha).
  - intros a Ha. rewrite lookup_insert_ne by lia. apply R5. lia.
Qed.

Lemma reg_del (st : cmx_state) (cf : nat) (e : Z) (st' : cmx_state) :
  registry_ok st -> dsp_cmx_del_conf st cf = Ret (e, st') -> registry_ok st'.
Proof.
  intros H. unfold dsp_cmx_del_conf, deref.
  destruct (confs st !! cf) as [c|] eqn:Ec; [|done]. cbn [res_bind].
  destruct (mlist c) eqn:Eml; [|by intros [= <- <-]].
  intros [= <- <-]. unfold registry_ok. cbn [Conf_list confs next_conf].
  destruct H as (R1 & R2 & R3 & R4 & R5).
  split_and!.
  - by apply NoDup_REMOVE.
  - intros a. rewrite elem_of_REMOVE, R2 by done.
    destruct (decide (cf = a)) as [<-|Hne].
    + rewrite lookup_delete_eq. split; [by intros [_ ?] | by intros [? ?]].
    + rewrite lookup_delete_ne by done. split; [by intros [? _] | done].
  - intros a ca Ha. apply lookup_delete_Some in Ha as [_ Ha]. eauto.
  - intros a b ca cb Ha Hb. apply lookup_delete_Some in Ha as [_ Ha].
    apply lookup_delete_Some in Hb as [_ Hb]. eauto.
  - intros a Ha. apply lookup_delete_None. right. by apply R5.
Qed.

Lemma reg_solution (st : cmx_state) (cf : nat) (s h : Z)
    (st' : cmx_state) :
  registry_ok st -> store_solution cf s h st = Ret st' -> registry_ok st'.
Proof.
  intros H. unfold store_solution, deref.
  destruct (confs st !! cf) as [c|] eqn:Ec; [|done]. cbn [res_bind].
  intros [= <-]. by eapply reg_conf_same.
Qed.

Lemma reg_cmx (fuel : nat) (st : cmx_state) (dsp : nat) (e : Z)
    (st' : cmx_state) :
  registry_ok st -> dsp_cmx pf fuel st dsp = Ret (e, st') -> registry_ok st'.
Proof.
  apply (dsp_cmx_keeps pf registry_ok).
  - apply reg_add.
  - apply reg_del_member.
  - apply reg_new.
  - apply reg_del.
  - apply reg_solution.
  - done.
Qed.

End WithPlatform.

Lemma reg_same_topology (st st' : cmx_state) :
  same_topology st st' -> registry_ok st -> registry_ok st'.
Proof.
  intros (T1 & T2 & T3 & T4 & T5) (R1 & R2 & R3 & R4 & R5).
  assert (Hc : forall a c', confs st' !! a = Some c' ->
            exists c, confs st !! a = Some c /\ id c = id c').
  { intros a c' Ha. specialize (T5 a). rewrite Ha in T5.
    destruct (confs st !! a) as [c|]; [|done]. exists c. split; [done|].
    cbn in T5. unfold shape in T5. congruence. }
  unfold registry_ok. rewrite T1, T2. split_and!; [done| | | |].
  - intros a. rewrite R2. specialize (T5 a).
    destruct (confs st' !! a), (confs st !! a); try done;
      split; intros [? ?]; done || by eexists.
  - intros a c' Ha. destruct (Hc a c' Ha) as (c & Hca & Hid).
    rewrite <- Hid. eauto.
  - intros a b ca cb Ha Hb Hid.
    destruct (Hc a ca Ha) as (c1 & H1 & Hi1).
    destruct (Hc b cb Hb) as (c2 & H2 & Hi2).
    eapply R4; [exact H1 | exact H2 | congruence].
  - intros a Ha. specialize (T5 a).
    rewrite (R5 a Ha) in T5. by destruct (confs st' !! a).
Qed.

Section Steps.
Context (pf : platform).

(** X8: every call of an entry point that returns keeps the registry
    sound: [Conf_list] chains exactly the existing conferences, each
    once, and their ids stay unique and different from 0. *)
Theorem registry_step (st st' : cmx_state) :
  registry_ok st -> cmx_step pf st st' -> registry_ok st'.
Proof.
  intros H Hs. destruct Hs;
    eauto using reg_same_topology, topology_receive, topology_send,
      topology_transmit, reg_cmx.
Qed.

End Steps.
End RegistryFacts.

(** ** The hardware classifier *)

Module HfcFacts.
Import Ring Cmx Wf Inv RingFacts ReceiveFacts.

(** A member the chip can serve: no [tx_mix], on a card, and on the card
    of the first member. *)
Lemma hfc_members_some (ds : gmap nat dsp_t) (h : Z) (members : list nat) :
  forall memb k,
    hfc_members ds h members memb = Ret (Some k) <->
    k = memb + Z.of_nat (length members) /\
    Forall (fun m => exists d, ds !! m = Some d /\ tx_mix d = false /\
                               hfc_id d <> 0 /\ hfc_id d = h) members.
Proof.
  induction members as [|m members IH]; intros memb k; simpl.
  - split; [intros [= <-]; split; [lia | constructor]|].
    intros [-> _]. do 2 f_equal. lia.
  - unfold deref. destruct (ds !! m) as [d|] eqn:Ed; cbn [res_bind].
    2:{ split; [done|]. intros [_ H]. apply Forall_cons in H as [(d & ? & _) _].
        congruence. }
    destruct (tx_mix d) eqn:Et.
    { split; [done|]. intros [_ H].
      apply Forall_cons in H as [(d' & ? & ? & _) _]. congruence. }
    destruct (Z.eqb_spec (hfc_id d) 0) as [E0|E0].
    { split; [done|]. intros [_ H].
      apply Forall_cons in H as [(d' & ? & ? & ? & _) _]. congruence. }
    destruct (Z.eqb_spec (hfc_id d) h) as [Eh|Eh]; cbn [negb].
    2:{ split; [done|]. intros [_ H].
        apply Forall_cons in H as [(d' & ? & ? & ? & ?) _]. congruence. }
    rewrite IH. split.
    + intros [-> H]. split; [lia|]. apply Forall_cons. split; [|done].
      by exists d.
    + intros [-> H]. apply Forall_cons in H as [_ H]. split; [lia|done].
Qed.

Lemma hfc_free_unit_range (fuel : nat) (freeunits : list Z) (unit : Z) :
  forall i v, 0 <= i ->
    hfc_free_unit fuel freeunits unit i = Ret v -> v = -1 \/ 1 <= v <= 8.
Proof.
  induction fuel as [|fuel IH]; intros i v Hi; simpl; [done|].
  destruct (Z.ltb_spec i 8); [|intros [= <-]; by left].
  destruct (8 <? unit); [|by apply IH].
  destruct (_ =? 0); [intros [= <-]; right; lia|].
  apply IH. lia.
Qed.

(** X11: [dsp_cmx_hfc] answers 0 (crossconnect) exactly for a conference
    of two members that are both without [tx_mix] and sit on one and the
    same card. *)
Theorem hfc_crossconnect (fuel : nat) (st : cmx_state) (cf : nat) :
  dsp_cmx_hfc fuel st cf = Ret 0 <->
  exists c m1 m2 d1 d2,
    confs st !! cf = Some c /\ mlist c = [m1; m2] /\
    dsps st !! m1 = Some d1 /\ dsps st !! m2 = Some d2 /\
    tx_mix d1 = false /\ tx_mix d2 = false /\
    hfc_id d1 <> 0 /\ hfc_id d2 = hfc_id d1.
Proof.
  unfold dsp_cmx_hfc, deref.
  destruct (confs st !! cf) as [c|] eqn:Ec; cbn [res_bind];
    [|split; [done | by intros (c & ? & ? & ? & ? & ? & _)]].
  split.
  - destruct (mlist c) as [|m ml] eqn:Eml.
    { cbn [res_bind hfc_members]. done. }
    destruct (dsps st !! m) as [d|] eqn:Ed; [|done]. cbn [res_bind].
    destruct (hfc_members _ _ _ _) as [[memb|]| |] eqn:Eh; try done.
    cbn [res_bind]. apply hfc_members_some in Eh as [-> Hall].
    destruct (Z.ltb_spec (0 + Z.of_nat (length (m :: ml))) 2); [done|].
    destruct (Z.eqb_spec (0 + Z.of_nat (length (m :: ml))) 2) as [E2|E2].
    + intros _. destruct ml as [|m2 [|m3 ml]]; simpl in E2; try lia.
      apply Forall_cons in Hall as [(d1 & Hd1 & Ht1 & Hn1 & He1) Hall].
      apply Forall_cons in Hall as [(d2 & Hd2 & Ht2 & Hn2 & He2) _].
      exists c, m, m2, d1, d2. split_and!; try done. congruence.
    + destruct (hfc_units _ _ _ _ _ _) as [[[fu unit]|]| |]; try done.
      cbn [res_bind]. destruct (8 <? unit); [done|].
      destruct (Z.ltb_spec 0 (solution c)); [intros [= E]; lia|].
      intros Hf. apply hfc_free_unit_range in Hf as [|]; lia.
  - intros (c' & m1 & m2 & d1 & d2 & [= <-] & Hm & Hd1 & Hd2 & Ht1 & Ht2
            & Hn & He).
    rewrite Hm, Hd1. cbn [res_bind].
    pose proof (proj2 (hfc_members_some (dsps st) (hfc_id d1) [m1; m2] 0 2))
      as Hh.
    rewrite Hh; [done|]. split; [done|].
    repeat constructor; [by exists d1 | exists d2; split_and!; congruence].
Qed.

(** X12: [dsp_cmx_hfc] never answers below -1; an answer other than -1
    needs at least two members, all without [tx_mix] and on a card, and
    a conference unit (an answer above 0) needs at least three, and is
    the unit the conference has or a number up to 8. *)
Theorem hfc_hardware_needs (fuel : nat) (st : cmx_state) (cf : nat)
    (c : conference_t) (v : Z) :
  confs st !! cf = Some c ->
  dsp_cmx_hfc fuel st cf = Ret v ->
  (-1 <= v) /\
  (0 <= v ->
   (2 <= length (mlist c))%nat /\
   Forall (fun m => exists d, dsps st !! m = Some d /\ tx_mix d = false /\
                              hfc_id d <> 0) (mlist c)) /\
  (0 < v -> (3 <= length (mlist c))%nat /\ (v = solution c \/ v <= 8)).
Proof.
  intros Ec. unfold dsp_cmx_hfc, deref. rewrite Ec. cbn [res_bind].
  destruct (mlist c) as [|m ml] eqn:Eml.
  { cbn [res_bind hfc_members]. intros [= <-]. split_and!; lia. }
  destruct (dsps st !! m) as [d|] eqn:Ed; [|done]. cbn [res_bind].
  destruct (hfc_members _ _ _ _) as [[memb|]| |] eqn:Eh; try done;
    cbn [res_bind]; [|intros [= <-]; split_and!; lia].
  apply hfc_members_some in Eh as [-> Hall].
  assert (Hall' : Forall (fun m => exists d, dsps st !! m = Some d /\
                    tx_mix d = false /\ hfc_id d <> 0) (m :: ml)).
  { eapply Forall_impl; [exact Hall|]. intros x (dx & ? & ? & ? & _).
    by exists dx. }
  destruct (Z.ltb_spec (0 + Z.of_nat (length (m :: ml))) 2);
    [intros [= <-]; split_and!; lia|].
  destruct (Z.eqb_spec (0 + Z.of_nat (length (m :: ml))) 2) as [E2|E2];
    [intros [= <-]; split_and!; [lia | intros _; split; [lia | done] | lia]|].
  destruct (hfc_units _ _ _ _ _ _) as [[[fu unit]|]| |]; try done;
    cbn [res_bind]; [|intros [= <-]; split_and!; lia].
  destruct (8 <? unit); [intros [= <-]; split_and!; lia|].
  destruct (Z.ltb_spec 0 (solution c)).
  - intros [= <-]. split_and!; [lia | intros _; split; [lia | done] |].
    intros _. split; [lia | by left].
  - intros Hf. apply hfc_free_unit_range in Hf as [->|Hv]; [| |lia].
    + split_and!; lia.
    + split_and!; [lia | intros _; split; [lia | done] |].
      intros _. split; [lia | right; lia].
Qed.

End HfcFacts.

(** ** Joining and leaving *)

Module MemberFacts.
Import Ring Cmx Wf Inv RingFacts ReceiveFacts CmxSteps LinkInvariant Topology
  RegistryFacts HfcFacts.

Lemma chain_next_last (chain : list nat) (a : nat) :
  a ∉ chain -> chain_next (chain ++ [a]) a = None.
Proof.
  induction chain as [|b chain IH]; intros H; simpl.
  - by rewrite bool_decide_eq_true_2.
  - apply not_elem_of_cons in H as [Hne H].
    rewrite bool_decide_eq_false_2 by done. by apply IH.
Qed.

Section WithPlatform.
Context (pf : platform).

(** X13: [dsp_cmx_del_conf_member] undoes [dsp_cmx_add_conf_member].
    After a join that returned 0 the leave returns 0 too; the member
    chain, what the heap can hand out and the dsp's conference are what
    they were before the join. *)
Theorem add_del_member (st : cmx_state) (dsp cf : nat)
    (st1 : cmx_state) :
  member_link st ->
  dsp_cmx_add_conf_member pf st dsp cf = Ret (0, st1) ->
  exists st2, dsp_cmx_del_conf_member st1 dsp = Ret (0, st2) /\
              same_topology st st2 /\ heap_free st2 = heap_free st.
Proof.
  intros (L1 & L2 & L3 & L4). unfold dsp_cmx_add_conf_member, deref.
  destruct (dsps st !! dsp) as [d|] eqn:Ed; [|done]. cbn [res_bind].
  destruct (bool_decide_reflect (member d <> None)) as [|Hmem]; [done|].
  destruct (bool_decide_reflect (conf d <> None)) as [|Hconf]; [done|].
  assert (Hm0 : member d = None) by (by destruct (member d); [destruct Hmem|]).
  assert (Hc0 : conf d = None) by (by destruct (conf d); [destruct Hconf|]).
  destruct (heap_free st) as [|hf] eqn:Eh; [done|].
  destruct (confs st !! cf) as [c|] eqn:Ec; [|done]. cbn [res_bind].
  intros [= <-].
  assert (Hnotin : dsp ∉ mlist c).
  { intros Hin. destruct (L2 cf c dsp Ec Hin) as (d0 & Hd0 & Hcd).
    congruence. }
  set (c2 := if has_next _ then _ else _).
  assert (Hm2 : mlist c2 = APPEND_TO_LIST dsp (mlist c)).
  { subst c2. repeat match goal with |- context [if ?b then _ else _] =>
      destruct b end; done. }
  assert (Hs2 : shape (set_mlist (mlist c) c2) = shape c).
  { subst c2. repeat match goal with |- context [if ?b then _ else _] =>
      destruct b end; done. }
  unfold dsp_cmx_del_conf_member, deref. cbn [dsps confs].
  rewrite lookup_insert_eq. cbn [res_bind conf set_conf].
  rewrite lookup_insert_eq. cbn [res_bind]. rewrite Hm2.
  unfold APPEND_TO_LIST at 1.
  destruct (mlist c ++ [dsp]) eqn:Eapp; [by destruct (mlist c)|].
  rewrite bool_decide_eq_true_2
    by (apply elem_of_app; right; by apply list_elem_of_singleton).
  rewrite REMOVE_appended by done.
  eexists. split; [done|]. cbn [heap_free]. split; [|done].
  split_and!; cbn [Conf_list next_conf hfc_log dsps confs]; try done.
  - intros a. rewrite insert_insert_eq.
    destruct (decide (dsp = a)) as [<-|Hne].
    + rewrite lookup_insert_eq, Ed. cbn. unfold wiring. cbn.
      by rewrite Hm0, Hc0.
    + by rewrite lookup_insert_ne.
  - intros a. rewrite insert_insert_eq.
    destruct (decide (cf = a)) as [<-|Hne].
    + rewrite lookup_insert_eq, Ec. cbn. f_equal.
      rewrite <- Hs2. by destruct c2.
    + by rewrite lookup_insert_ne.
Qed.

(** X14: the first join.  [dsp_cmx] for an active dsp outside any
    conference whose [conf_id] no conference has creates that conference
    at the next free address, with this dsp as its only member and in
    software mode; a search for the id finds it from then on, no message
    goes to the HFC chip and two allocations are used. *)
Theorem join_new_conference (fuel : nat) (st : cmx_state) (dsp : nat) (d : dsp_t) :
  registry_ok st -> dsps st !! dsp = Some d ->
  conf d = None -> member d = None ->
  conf_id d <> 0 -> b_active d = true ->
  (forall a c, confs st !! a = Some c -> id c <> conf_id d) ->
  (2 <= heap_free st)%nat ->
  exists st' d' c',
    dsp_cmx pf fuel st dsp = Ret (0, st') /\
    dsp_cmx_search_conf st' (conf_id d) = Ret (Some (next_conf st)) /\
    confs st' !! next_conf st = Some c' /\
    id c' = conf_id d /\ mlist c' = [dsp] /\ solution c' = -1 /\
    dsps st' !! dsp = Some d' /\ conf d' = Some (next_conf st) /\
    wiring d' = wiring (set_conf (Some (next_conf st)) (Some dsp) d) /\
    hfc_log st' = hfc_log st /\
    heap_free st' = (heap_free st - 2)%nat.
Proof.
  intros Hreg Hd Hconf Hmem Hid Hact Hnone Hheap.
  assert (Hsearch : dsp_cmx_search_conf st (conf_id d) = Ret None).
  { destruct (search_conf_core st (conf_id d) Hreg) as [[o Ho] Hiff].
    destruct o as [a|]; [|done]. apply Hiff in Ho as (c & Hc & Hi).
    by destruct (Hnone a c Hc). }
  assert (Hfresh : confs st !! next_conf st = None)
    by (destruct Hreg as (_ & _ & _ & _ & R5); by apply R5).
  assert (Hnotin : next_conf st ∉ Conf_list st).
  { destruct Hreg as (_ & R2 & _). intros Hin. apply R2 in Hin as [? Hin].
    congruence. }
  destruct (heap_free st) as [|[|hf]] eqn:Eh; try lia.
  set (c0 := mk_conf (conf_id d) (-1) 0 []
               (replicate (Z.to_nat (CMX_BUFF_SIZE pf)) 0) 0 0 0).
  set (st0 := mk_state (dsps st) (<[next_conf st := c0]> (confs st))
                (APPEND_TO_LIST (next_conf st) (Conf_list st)) (S hf)
                (S (next_conf st)) (hfc_log st)).
  assert (Hnew : dsp_cmx_new_conf pf st (conf_id d) = (Some (next_conf st), st0)).
  { unfold dsp_cmx_new_conf. rewrite (proj2 (Z.eqb_neq _ _) Hid), Eh. done. }
  destruct (add_to_conf pf fuel st dsp) as [[e st']| |] eqn:Eadd.
  2,3: exfalso.
  all: pose proof Eadd as Eadd0;
    unfold add_to_conf, deref in Eadd; rewrite Hd in Eadd;
    cbn [res_bind] in Eadd;
    rewrite (proj2 (Z.eqb_neq _ _) Hid), Hact, Hsearch in Eadd;
    cbn [negb andb res_bind] in Eadd; rewrite Hnew in Eadd;
    replace (confs st0 !! next_conf st) with (Some c0) in Eadd
      by (subst st0; cbn; by rewrite lookup_insert_eq);
    cbn [res_bind] in Eadd;
    unfold dsp_cmx_add_conf_member, deref in Eadd;
    replace (dsps st0 !! dsp) with (Some d) in Eadd by done;
    cbn [res_bind] in Eadd; rewrite Hmem, Hconf in Eadd;
    rewrite !bool_decide_eq_false_2 in Eadd by (intros H; by apply H);
    replace (heap_free st0) with (S hf) in Eadd by done;
    replace (confs st0 !! next_conf st) with (Some c0) in Eadd
      by (subst st0; cbn; by rewrite lookup_insert_eq);
    cbn [res_bind] in Eadd;
    change (mlist (set_mlist (APPEND_TO_LIST dsp (mlist c0)) c0))
      with [dsp] in Eadd;
    cbn [has_next negb Z.eqb] in Eadd;
    cbn [Conf_list] in Eadd;
    replace (Conf_list st0) with (Conf_list st ++ [next_conf st]) in Eadd
      by done;
    rewrite (chain_next_last _ _ Hnotin) in Eadd; try done.
  injection Eadd as <- Hst.
  assert (Hrun : dsp_cmx pf fuel st dsp = Ret (0, st')).
  { unfold dsp_cmx, deref. rewrite Hd. cbn [res_bind].
    rewrite Hconf, (proj2 (Z.eqb_neq _ _) Hid). exact Eadd0. }
  assert (Hc' : confs st' !! next_conf st
                = Some (set_mlist (APPEND_TO_LIST dsp (mlist c0)) c0)).
  { rewrite <- Hst. cbn [confs]. by rewrite lookup_insert_eq. }
  eexists st', _, _. split; [exact Hrun|]. split.
  { apply (search_conf_core st' (conf_id d)); [by eapply reg_cmx|].
    eexists. split; [exact Hc'|done]. }
  split; [exact Hc'|]. split; [done|]. split; [done|]. split; [done|].
  split; [rewrite <- Hst; cbn [dsps]; apply lookup_insert_eq|].
  split; [done|]. split; [done|].
  rewrite <- Hst. cbn [hfc_log heap_free]. split; [done|lia].
Qed.

(** X15: the last leave.  [dsp_cmx] for the only member of a conference
    in software mode, once the dsp asks for no conference or is not
    active, takes the dsp out and frees the conference: it is gone from
    the map and from [Conf_list], both allocations are given back, and
    no message goes to the HFC chip. *)
Theorem leave_last_member (fuel : nat) (st : cmx_state) (dsp : nat) (d : dsp_t)
    (cf : nat) (c : conference_t) :
  dsps st !! dsp = Some d -> conf d = Some cf ->
  confs st !! cf = Some c -> mlist c = [dsp] -> solution c < 0 ->
  negb (conf_id d =? 0) && b_active d = false ->
  dsp_cmx pf fuel st dsp
  = Ret (0, mk_state (<[dsp := set_conf None None d]> (dsps st))
              (delete cf (confs st))
              (REMOVE_FROM_LISTBASE cf (Conf_list st))
              (S (S (heap_free st))) (next_conf st) (hfc_log st)).
Proof.
  intros Hd Hconf Hc Hm Hsol Hoff.
  set (d1 := set_conf None None d).
  set (c1 := set_mlist [] c).
  set (st1 := mk_state (<[dsp := d1]> (dsps st)) (<[cf := c1]> (confs st))
                (Conf_list st) (S (heap_free st)) (next_conf st)
                (hfc_log st)).
  assert (Hdel : dsp_cmx_del_conf_member st dsp = Ret (0, st1)).
  { unfold dsp_cmx_del_conf_member, deref. rewrite Hd. cbn [res_bind].
    rewrite Hconf, Hc. cbn [res_bind]. rewrite Hm.
    rewrite bool_decide_eq_true_2 by (by apply list_elem_of_singleton).
    cbn [REMOVE_FROM_LISTBASE]. by rewrite bool_decide_eq_true_2. }
  assert (Hc1 : confs st1 !! cf = Some c1) by apply lookup_insert_eq.
  assert (Hhfc : dsp_cmx_hfc fuel st1 cf = Ret (-1)).
  { unfold dsp_cmx_hfc, deref. rewrite Hc1. done. }
  assert (Hdc : dsp_cmx_del_conf st1 cf
                = Ret (0, mk_state (dsps st1) (delete cf (confs st))
                            (REMOVE_FROM_LISTBASE cf (Conf_list st))
                            (S (S (heap_free st))) (next_conf st)
                            (hfc_log st))).
  { unfold dsp_cmx_del_conf, deref. rewrite Hc1. cbn [res_bind mlist c1 set_mlist].
    subst st1. cbn [confs dsps Conf_list heap_free next_conf hfc_log].
    by rewrite delete_insert_eq. }
  assert (Hrem : remove_from_conf fuel st dsp
                 = Ret (None, mk_state (dsps st1) (delete cf (confs st))
                            (REMOVE_FROM_LISTBASE cf (Conf_list st))
                            (S (S (heap_free st))) (next_conf st)
                            (hfc_log st))).
  { unfold remove_from_conf. unfold deref at 1. rewrite Hd. cbn [res_bind].
    rewrite Hconf. cbn [res_bind]. unfold deref at 1. rewrite Hc.
    cbn [res_bind]. rewrite Hdel. cbn [res_bind].
    change (negb (0 =? 0)) with false. cbn iota. rewrite Hhfc.
    cbn [res_bind].
    change (0 <? -1) with false. change (-1 <=? 0) with true.
    change (-1 <? 0) with true. change (-1 =? 0) with false.
    cbn [andb].
    destruct (Z.ltb_spec 0 (solution c)) as [?|_]; [lia|].
    destruct (Z.eqb_spec (solution c) 0) as [?|_]; [lia|].
    cbn [res_bind]. unfold deref. rewrite Hc1. cbn [res_bind].
    change (mlist c1) with (@nil nat). cbn iota. rewrite Hdc. done. }
  unfold dsp_cmx. unfold deref at 1. rewrite Hd. cbn [res_bind].
  rewrite Hconf. unfold deref at 1. rewrite Hc. cbn [res_bind].
  rewrite Hoff. cbn [andb]. rewrite Hrem. cbn [res_bind].
  unfold add_to_conf, deref. cbn [dsps]. subst st1. cbn [dsps].
  rewrite lookup_insert_eq. cbn [res_bind].
  change (conf_id d1) with (conf_id d). change (b_active d1) with (b_active d).
  rewrite Hoff. done.
Qed.

End WithPlatform.
End MemberFacts.

(** ** The DTMF decoder as a whole *)

Module DecoderFacts.
Import Dtmf DtmfHistory DtmfRuns DtmfFacts.

Lemma clip_and_peak_quiet (result : list Z) :
  forall tresh, Forall (fun x => x <= DTMF_TRESH) result ->
    snd (clip_and_peak result tresh) = tresh.
Proof.
  induction result as [|x result IH]; intros tresh H; simpl; [done|].
  apply Forall_cons in H as [Hx H].
  assert (E : (DTMF_TRESH <? (if x <? 0 then 0 else x)) = false).
  { unfold DTMF_TRESH in *. destruct (Z.ltb_spec x 0); lia. }
  rewrite E. specialize (IH tresh H).
  destruct (clip_and_peak result tresh) as [l tr]. done.
Qed.

(** X16: a frame in which no coefficient is above [DTMF_TRESH] decides
    "no tone". *)
Theorem frame_what_quiet (result : list Z) :
  Forall (fun x => x <= DTMF_TRESH) result -> frame_what result = NUL.
Proof.
  intros H. unfold frame_what.
  pose proof (clip_and_peak_quiet result 0 H) as E.
  destruct (clip_and_peak result 0) as [l tr]. simpl in E. by subst tr.
Qed.

Lemma matrix_entry (i j : nat) :
  nth j (nth i dtmf_matrix []) NUL = NUL \/
  In (nth j (nth i dtmf_matrix []) NUL) keypad.
Proof.
  destruct (nth_in_or_default i dtmf_matrix []) as [Hi|Hi].
  - destruct (nth_in_or_default j (nth i dtmf_matrix []) NUL) as [Hj|Hj];
      [|by left].
    right. unfold keypad. apply in_concat. eauto.
  - rewrite Hi. left. by destruct j.
Qed.

Lemma frame_what_alphabet (result : list Z) :
  frame_what result = NUL \/ In (frame_what result) keypad.
Proof.
  unfold frame_what. destruct (clip_and_peak result 0) as [l tr].
  destruct (tr =? 0); [by left|].
  destruct (groups _ _ _ _ _ _) as [lo hi].
  destruct (_ && _); [apply matrix_entry | by left].
Qed.

Section WithPlatform.
Context (pf : platform).

Lemma storedigit_digits (dt : dtmf_t) (what : ascii) :
  digits (storedigit pf dt what) = digits dt \/
  (digits (storedigit pf dt what) = digits dt ++ [what] /\ what <> NUL /\
   (length (digits dt) + 1 < dtmf_digits_size pf)%nat).
Proof.
  unfold storedigit.
  destruct (_ =? 2); [|by left].
  destruct (negb (Ascii.eqb (lastdigit dt) what)); [|by left].
  destruct (Ascii.eqb_spec what NUL); cbn [negb]; [by left|].
  destruct (Nat.ltb_spec (length (digits dt) + 1) (dtmf_digits_size pf));
    [by right | by left].
Qed.

(** What every passage through [again] keeps *)
Lemma decode_again_keeps (P : dtmf_t -> Prop) :
  (forall dt what, (what = NUL \/ In what keypad) -> P dt ->
                   P (storedigit pf dt what)) ->
  (forall dt sz buf, P dt -> P (refill sz buf dt)) ->
  forall fuel dt data fmt dt',
    P dt -> decode_again pf fuel dt data fmt = Ret dt' -> P dt'.
Proof.
  intros Hstore Hrefill.
  induction fuel as [|fuel IH]; intros dt data fmt dt' H; simpl; [done|].
  destruct ((fmt =? 0) || (fmt =? 1)).
  - destruct (convert pf _ (buffer dt) (size dt) data) as [[buf sz] data'].
    destruct (sz <? dtmf_npoints pf)%nat.
    + intros [= <-]. apply (Hrefill dt sz buf H).
    + apply IH. apply Hstore; [apply frame_what_alphabet|].
      apply (Hrefill dt 0%nat buf H).
  - destruct data as [|b data]; [by intros [= <-]|].
    destruct (_ <? 32)%nat; [by intros [= <-]|].
    apply IH. apply Hstore; [apply frame_what_alphabet | done].
Qed.

(** X17: the digits a call of the decoder returns fit into [digits]
    together with the terminating 0, and each of them is one of the
    sixteen characters of [dtmf_matrix]. *)
Theorem digits_fit (fuel : nat) (dt : dtmf_t) (data : list Z) (fmt : Z)
    (dt' : dtmf_t) :
  dsp_dtmf_goertzel_decode pf fuel dt data fmt = Ret dt' ->
  (length (digits dt') <= dtmf_digits_size pf - 1)%nat /\
  Forall (fun ch => In ch keypad) (digits dt').
Proof.
  unfold dsp_dtmf_goertzel_decode.
  apply (decode_again_keeps
    (fun d => (length (digits d) <= dtmf_digits_size pf - 1)%nat /\
              Forall (fun ch => In ch keypad) (digits d))).
  - intros d what Hw [H1 H2].
    destruct (storedigit_digits d what) as [->|(-> & Hn & Hroom)]; [done|].
    split; [rewrite length_app; simpl; lia|].
    apply Forall_app. split; [done|]. constructor; [|constructor].
    by destruct Hw.
  - done.
  - cbn. split; [lia | constructor].
Qed.

Lemma decode_again_not_full (fuel : nat) :
  forall dt data fmt dt',
    (fmt =? 0) || (fmt =? 1) = true ->
    decode_again pf fuel dt data fmt = Ret dt' ->
    (size dt' < dtmf_npoints pf)%nat.
Proof.
  induction fuel as [|fuel IH]; intros dt data fmt dt' Hf; simpl; [done|].
  rewrite Hf.
  destruct (convert pf _ (buffer dt) (size dt) data) as [[buf sz] data'].
  destruct (Nat.ltb_spec sz (dtmf_npoints pf)).
  - by intros [= <-].
  - by apply IH.
Qed.

(** X20: when the decoder returns from A-law or u-law samples, the
    sample buffer is not full: a full buffer is always decoded before
    the return. *)
Theorem decode_not_full (fuel : nat) (dt : dtmf_t) (data : list Z)
    (fmt : Z) (dt' : dtmf_t) :
  (fmt =? 0) || (fmt =? 1) = true ->
  dsp_dtmf_goertzel_decode pf fuel dt data fmt = Ret dt' ->
  (size dt' < dtmf_npoints pf)%nat.
Proof.
  intros Hf. unfold dsp_dtmf_goertzel_decode. by apply decode_again_not_full.
Qed.

(** *** A decision that is held *)

Lemma hold_done (what : ascii) (n : nat) :
  forall dt, lastwhat dt = what -> count dt = 2 -> lastdigit dt = what ->
    digits (hold pf n what dt) = digits dt.
Proof.
  induction n as [|n IH]; intros dt H1 H2 H3; simpl; [done|].
  assert (E : storedigit pf dt what
              = mk_dtmf (size dt) (buffer dt) what what 2 (digits dt)).
  { unfold storedigit. rewrite H1, H2, H3, Ascii.eqb_refl. cbn.
    by rewrite <- H3. }
  rewrite E. by rewrite IH.
Qed.

Lemma hold_armed (what : ascii) (dt : dtmf_t) (n : nat) :
  what <> NUL -> lastdigit dt <> what -> lastwhat dt = what ->
  (length (digits dt) + 1 < dtmf_digits_size pf)%nat ->
  0 <= count dt <= 2 ->
  (3 <= Z.to_nat (count dt) + n)%nat ->
  digits (hold pf n what dt) = digits dt ++ [what].
Proof.
  intros Hw. revert dt.
  induction n as [|n IH]; intros dt Hd Hl Hroom Hc Hn; [simpl in *; lia|].
  simpl. unfold storedigit at 1. rewrite Hl, Ascii.eqb_refl. cbn [negb].
  destruct (Z.eqb_spec (count dt) 2) as [E2|E2].
  - rewrite (proj2 (Ascii.eqb_neq _ _) Hd). cbn [negb].
    rewrite (proj2 (Ascii.eqb_neq _ _) Hw). cbn [negb].
    rewrite (proj2 (Nat.ltb_lt _ _) Hroom).
    by rewrite hold_done.
  - rewrite IH; cbn; try done; lia.
Qed.

(** X18: a key that is held is reported once.  After three or more
    frames in a row that decide the same character, which is not the
    digit reported last, exactly that character has been added to
    [digits], given there is room. *)
Theorem held_digit_reported_once (what : ascii) (dt : dtmf_t) (n : nat) :
  what <> NUL -> lastdigit dt <> what ->
  (length (digits dt) + 1 < dtmf_digits_size pf)%nat ->
  0 <= count dt <= 2 -> (3 <= n)%nat ->
  digits (hold pf n what dt) = digits dt ++ [what].
Proof.
  intros Hw Hd Hroom Hc Hn.
  destruct (Ascii.eqb_spec (lastwhat dt) what) as [E|E].
  - apply hold_armed; try done. lia.
  - destruct n as [|n]; [lia|]. simpl.
    assert (Es : storedigit pf dt what
                 = mk_dtmf (size dt) (buffer dt) what (lastdigit dt) 1
                     (digits dt)).
    { unfold storedigit. rewrite (proj2 (Ascii.eqb_neq _ _) E). done. }
    rewrite Es. rewrite hold_armed; cbn; try done; lia.
Qed.

(** X19: with a frame size above 0 the decoder returns for every
    input; one passage through [again] per byte and two more are
    enough. *)
Theorem decode_returns (dt : dtmf_t) (data : list Z) (fmt : Z) :
  (0 < dtmf_npoints pf)%nat ->
  exists dt', dsp_dtmf_goertzel_decode pf (length data + 2) dt data fmt
              = Ret dt'.
Proof.
  intros Hn. unfold dsp_dtmf_goertzel_decode.
  apply decode_again_total; [done|]. cbn [size].
  destruct (_ <? _)%nat; lia.
Qed.

End WithPlatform.
End DecoderFacts.

(** ** The frame of a member of a conference *)

Module SendMixes.
Import Ring Cmx Wf Runs RingFacts SendFacts ReceiveFacts SendLoops
  SendContent.

Section WithPlatform.
Context (pf : platform).
Hypothesis Hbits : 0 < buff_bits pf.

(** With nothing queued in the tx ring a mixing branch is its second
    loop. *)
Lemma mix_branch_idle (f : Z -> Z -> Z) (g : Z -> Z) (fuel m : nat)
    (r rr t : Z) (out : list Z) :
  in_ring pf r -> in_ring pf rr ->
  Z.of_nat m = mask pf (rr - r) -> (m < fuel)%nat ->
  mix_branch pf fuel f g r rr t t out = Ret (t, out ++ run1 pf g r m).
Proof.
  intros Hr Hrr Hm Hf. destruct fuel as [|fuel]; [lia|].
  unfold mix_branch. cbn [mix_loop]. rewrite Z.eqb_refl.
  cbn [negb]. rewrite andb_false_r. cbn [res_bind].
  rewrite (rest_loop_run pf Hbits g rr (S fuel) m); done.
Qed.

(** The frame of a dsp without tone whose tx ring is empty is what the
    mixing step yields for the read window. *)
Lemma send_idle (fuel : nat) (st : cmx_state) (dsp : nat) (d : dsp_t)
    (len dinfo lim : Z) :
  dsps st !! dsp = Some d -> heap_free st <> 0%nat ->
  read_limit st d = Some lim ->
  tone d = 0 -> R_tx d = W_tx d ->
  let w := read_window pf (R_rx d) lim len in
  let d1 := set_R_rx (snd w) d in
  let st1 := mk_state (<[dsp := d1]> (dsps st)) (confs st) (Conf_list st)
               (Nat.pred (heap_free st)) (next_conf st) (hfc_log st) in
  dsp_cmx_send pf fuel st dsp len dinfo
  = let* (t2, out2) :=
      send_mix pf fuel st1 dsp d1 (fst w) (snd w) (W_tx d) (W_tx d) [] in
    Ret (Some (mk_skb dinfo len out2), put_dsp dsp (set_R_tx t2 d1) st1).
Proof.
  intros Hd Hheap Hlim Htone Hempty. cbv zeta.
  unfold dsp_cmx_send. unfold deref at 1. rewrite Hd. cbn [res_bind].
  destruct (heap_free st) as [|hf] eqn:Ehf; [done|].
  rewrite (read_limit_deref st d lim Hlim). cbn [res_bind].
  destruct (read_window pf (R_rx d) lim len) as [r rr] eqn:Ew.
  cbn [tone set_R_rx tx_mix tx_buff fst snd Nat.pred].
  rewrite Htone. cbn [negb Z.eqb].
  rewrite Hempty, Z.eqb_refl. cbn [negb andb]. rewrite andb_false_r.
  cbn [res_bind andb]. reflexivity.
Qed.

(** X21: in a conference of two, a member without tone and with an
    empty tx ring gets the bytes the other member received, read from
    the other's rx ring over the read window; with echo on, each byte is
    the sum of the other's and its own sample, clipped to 16 bits and
    encoded in its law. *)
Theorem send_pair_hears_other (fuel : nat) (st : cmx_state) (dsp : nat) (d : dsp_t)
    (cf : nat) (c : conference_t) (m1 m2 : nat) (other : dsp_t)
    (len dinfo : Z) :
  dsps st !! dsp = Some d -> heap_free st <> 0%nat ->
  conf d = Some cf -> confs st !! cf = Some c -> mlist c = [m1; m2] ->
  dsps st !! (if bool_decide (m1 = dsp) then m2 else m1) = Some other ->
  in_ring pf (R_rx d) -> in_ring pf (W_min c) ->
  tone d = 0 -> R_tx d = W_tx d ->
  0 < len < CMX_BUFF_SIZE pf -> len < Z.of_nat fuel ->
  let w := read_window pf (R_rx d) (W_min c) len in
  dsp_cmx_send pf fuel st dsp len dinfo
  = Ret (Some (mk_skb dinfo len
                 (run1 pf
                    (if echo d
                     then fun r => encode_law pf d (Z.land
                            (saturate (decode_law pf other
                                         (rd (rx_buff other) r)
                                       + decode_law pf d (rd (rx_buff d) r)))
                            65535)
                     else rd (rx_buff other))
                    (fst w) (Z.to_nat len))),
         sent st dsp d (snd w) (R_tx d)).
Proof.
  intros Hd Hheap Hconf Hc Hm Ho HR Hl Htone Hempty Hlen Hfuel. cbv zeta.
  assert (Hlim : read_limit st d = Some (W_min c))
    by (unfold read_limit; by rewrite Hconf, Hc).
  rewrite (send_idle fuel st dsp d len dinfo (W_min c) Hd Hheap Hlim Htone
             Hempty).
  destruct (read_window pf (R_rx d) (W_min c) len) as [r rr] eqn:Ew.
  destruct (read_window_spec pf Hbits _ _ _ _ _ HR Hl Ew) as (Hr & Hrr & Hdist).
  rewrite (mask_small pf Hbits len) in Hdist by (unfold in_ring; lia).
  cbn [fst snd]. unfold send_mix. cbn [conf set_R_rx confs].
  rewrite Hconf. unfold deref at 1. rewrite Hc. cbn [res_bind]. rewrite Hm.
  set (oa := if bool_decide (m1 = dsp) then m2 else m1) in *.
  set (d1 := set_R_rx rr d).
  assert (Hother : exists o1, dsps (mk_state (<[dsp := d1]> (dsps st))
                     (confs st) (Conf_list st) (Nat.pred (heap_free st))
                     (next_conf st) (hfc_log st)) !! oa = Some o1 /\
                   rx_buff o1 = rx_buff other /\ ulaw o1 = ulaw other).
  { cbn [dsps]. destruct (decide (dsp = oa)) as [<-|Hne].
    - rewrite lookup_insert_eq. exists d1. split; [done|].
      rewrite Hd in Ho. injection Ho as <-. done.
    - rewrite lookup_insert_ne by done. by exists other. }
  destruct Hother as (o1 & Ho1 & Hrx & Hul).
  unfold deref. rewrite Ho1. cbn [res_bind].
  unfold send_pair. cbn [echo d1 set_R_rx tx_buff rx_buff].
  assert (Hdec : decode_law pf o1 = decode_law pf other)
    by (unfold decode_law; by rewrite Hul).
  rewrite Hrx, Hdec.
  assert (Hm' : Z.of_nat (Z.to_nat len) = mask pf (rr - r)) by lia.
  assert (Hf' : (Z.to_nat len < fuel)%nat) by lia.
  destruct (echo d); cbn [negb];
    rewrite (mix_branch_idle _ _ fuel (Z.to_nat len) r rr (W_tx d) [] Hr Hrr
               Hm' Hf');
    cbn [res_bind app]; unfold sent; rewrite Hempty; reflexivity.
Qed.

(** X22: in a conference of three or more, a member without tone and
    with an empty tx ring gets, for every position of the read window,
    the conference sum at that position minus its own sample, computed
    as a [signed long] of 32 bits (with echo on: the sum as it is),
    clipped to 16 bits and encoded in its law. *)
Theorem send_conf_minus_own (fuel : nat) (st : cmx_state) (dsp : nat) (d : dsp_t)
    (cf : nat) (c : conference_t) (len dinfo : Z) :
  dsps st !! dsp = Some d -> heap_free st <> 0%nat ->
  conf d = Some cf -> confs st !! cf = Some c ->
  (3 <= length (mlist c))%nat ->
  in_ring pf (R_rx d) -> in_ring pf (W_min c) ->
  tone d = 0 -> R_tx d = W_tx d ->
  0 < len < CMX_BUFF_SIZE pf -> len < Z.of_nat fuel ->
  let w := read_window pf (R_rx d) (W_min c) len in
  dsp_cmx_send pf fuel st dsp len dinfo
  = Ret (Some (mk_skb dinfo len
                 (run1 pf
                    (fun r => encode_law pf d (Z.land
                       (saturate
                          (if echo d then rd (conf_buff c) r
                           else int_wrap
                                  (rd (conf_buff c) r
                                   - decode_law pf d (rd (rx_buff d) r))))
                       65535))
                    (fst w) (Z.to_nat len))),
         sent st dsp d (snd w) (R_tx d)).
Proof.
  intros Hd Hheap Hconf Hc Hm HR Hl Htone Hempty Hlen Hfuel. cbv zeta.
  assert (Hlim : read_limit st d = Some (W_min c))
    by (unfold read_limit; by rewrite Hconf, Hc).
  rewrite (send_idle fuel st dsp d len dinfo (W_min c) Hd Hheap Hlim Htone
             Hempty).
  destruct (read_window pf (R_rx d) (W_min c) len) as [r rr] eqn:Ew.
  destruct (read_window_spec pf Hbits _ _ _ _ _ HR Hl Ew) as (Hr & Hrr & Hdist).
  rewrite (mask_small pf Hbits len) in Hdist by (unfold in_ring; lia).
  cbn [fst snd]. unfold send_mix. cbn [conf set_R_rx confs].
  rewrite Hconf. unfold deref at 1. rewrite Hc. cbn [res_bind].
  destruct (mlist c) as [|m1 [|m2 [|m3 ml]]]; simpl in Hm; try lia.
  unfold send_conf. cbn [echo set_R_rx tx_buff rx_buff].
  assert (Hm' : Z.of_nat (Z.to_nat len) = mask pf (rr - r)) by lia.
  assert (Hf' : (Z.to_nat len < fuel)%nat) by lia.
  change (encode_law pf (set_R_rx rr d)) with (encode_law pf d).
  change (decode_law pf (set_R_rx rr d)) with (decode_law pf d).
  destruct (echo d); cbn [negb];
    rewrite (mix_branch_idle _ _ fuel (Z.to_nat len) r rr (W_tx d) [] Hr Hrr
               Hm' Hf');
    cbn [res_bind app]; unfold sent; rewrite Hempty; reflexivity.
Qed.

End WithPlatform.
End SendMixes.

(** ** Silence in, no tone out *)

Module Silence.
Import Dtmf DtmfRuns.

Lemma goertzel_run_zeros (coef : Z) (n : nat) :
  goertzel_run coef (replicate n 0) 0 0 0 = (0, 0).
Proof.
  induction n as [|n IH]; [done|]. simpl.
  rewrite Z.mul_0_r, Z.shiftr_0_l. exact IH.
Qed.

Lemma goertzel_power_zeros (coef : Z) (n : nat) :
  goertzel_power coef (replicate n 0) = 0.
Proof.
  unfold goertzel_power. rewrite goertzel_run_zeros.
  rewrite Z.shiftr_0_l, !Z.mul_0_r, ?Z.shiftr_0_l. reflexivity.
Qed.

(** X23: a sample buffer of zeros, of any length, has power 0 at each of
    the eight frequencies and decides "no tone". *)
Theorem zero_samples_no_tone (n : nat) :
  goertzel (replicate n 0) = replicate 8 0 /\
  frame_what (goertzel (replicate n 0)) = NUL.
Proof.
  assert (E : goertzel (replicate n 0) = replicate 8 0).
  { unfold goertzel, cos2pik. cbn [map]. by rewrite !goertzel_power_zeros. }
  split; [exact E|]. rewrite E. reflexivity.
Qed.

End Silence.

(** ** A dsp that is where it asks to be *)

Module Settled.
Import Ring Cmx Wf Inv MemberFacts.

Section WithPlatform.
Context (pf : platform).

(** A dsp that is in the conference it asks for *)
Lemma dsp_cmx_settled (fuel : nat) (st : cmx_state) (dsp : nat) (d : dsp_t)
    (cf : nat) (c : conference_t) :
  dsps st !! dsp = Some d -> conf d = Some cf -> confs st !! cf = Some c ->
  conf_id d <> 0 -> b_active d = true -> id c = conf_id d ->
  dsp_cmx pf fuel st dsp = Ret (0, st).
Proof.
  intros Hd Hconf Hc Hid Hact Hsame. unfold dsp_cmx, deref.
  rewrite Hd. cbn [res_bind]. rewrite Hconf, Hc. cbn [res_bind].
  rewrite (proj2 (Z.eqb_neq _ _) Hid), Hact, Hsame, Z.eqb_refl. done.
Qed.

End WithPlatform.
End Settled.

(** ** [dsp_cmx] reaches what the dsp asks for *)

Module Requests.
Import Ring Cmx Wf Inv CmxTactics CmxSteps RegistryFacts Settled.

Section WithPlatform.
Context (pf : platform).

Lemma EINVAL_nonzero : - EINVAL <> 0.
Proof. done. Qed.

(** What the steps after a leave or a join keep: the dsp objects *)
Lemma dsps_solution (D : gmap nat dsp_t) (st : cmx_state) (cf : nat)
    (s h : Z) (st' : cmx_state) :
  dsps st = D -> store_solution cf s h st = Ret st' -> dsps st' = D.
Proof.
  intros H. unfold store_solution. bind_as c Ec. by intros [= <-].
Qed.

Lemma dsps_del (D : gmap nat dsp_t) (st : cmx_state) (cf : nat) (e : Z)
    (st' : cmx_state) :
  dsps st = D -> dsp_cmx_del_conf st cf = Ret (e, st') -> dsps st' = D.
Proof.
  intros H. unfold dsp_cmx_del_conf. bind_as c Ec.
  destruct (mlist c); by intros [= <- <-].
Qed.

Lemma remove_from_conf_out (fuel : nat) (st : cmx_state) (dsp : nat)
    (d : dsp_t) (o : option Z) (st' : cmx_state) :
  dsps st !! dsp = Some d ->
  remove_from_conf fuel st dsp = Ret (o, st') ->
  match o with
  | None => dsps st' = <[dsp := set_conf None None d]> (dsps st)
  | Some e => e <> 0
  end.
Proof.
  intros Hd. unfold remove_from_conf. unfold deref at 1. rewrite Hd.
  cbn [res_bind]. bind_as cf Ecf. bind_as c Ec.
  set (D := <[dsp := set_conf None None d]> (dsps st)).
  set (P := fun s : cmx_state => dsps s = D).
  assert (P_solution : forall st cf s h st',
            P st -> store_solution cf s h st = Ret st' -> P st')
    by (intros; by eapply dsps_solution).
  assert (P_log : forall st m, P st -> P (log_msg m st)) by done.
  bind_as r1 E1. destruct r1 as [err st1].
  destruct (Z.eqb_spec err 0) as [->|Herr]; cbn [negb];
    [|by intros [= <- <-]].
  assert (H1 : P st1).
  { unfold dsp_cmx_del_conf_member, deref in E1. rewrite Hd in E1.
    cbn [res_bind] in E1. destruct (conf d) as [cf0|]; [|done].
    destruct (confs st !! cf0) as [c0|]; [|done]. cbn [res_bind] in E1.
    destruct (mlist c0); [done|].
    destruct (bool_decide _); [|done]. by injection E1 as <-. }
  bind_as new Enew.
  set (st2 := if (0 <? new) && (0 <? solution c) then _ else st1).
  assert (H2 : P st2) by (subst st2; destruct (_ && _); auto).
  bind_as st3 E3.
  assert (H3 : P st3).
  { destruct (_ && _) in E3; [|by injection E3 as <-].
    destruct (deref (confs st2) cf) as [c2| |] in E3; try discriminate.
    by eapply (solution_after_messages P). }
  bind_as r4 E4. destruct r4 as [o4 st4].
  assert (H4 : P st4 /\ forall e, o4 = Some e -> e <> 0).
  { destruct (_ && _) in E4; [|by injection E4 as <- <-].
    destruct (two_members _) as [[m1 m2]|] in E4;
      [|injection E4 as <- <-; split; [done | by intros e [= <-]]].
    destruct (store_solution _ _ _ _) as [s| |] eqn:Es in E4;
      try discriminate.
    injection E4 as <- <-. split; [|done].
    by eapply (solution_after_message P). }
  destruct H4 as [H4 He4].
  destruct o4 as [e4|]; [intros [= <- <-]; by apply He4|].
  bind_as r5 E5. destruct r5 as [o5 st5].
  assert (H5 : P st5 /\ forall e, o5 = Some e -> e <> 0).
  { destruct (new =? 0) in E5; [|by injection E5 as <- <-].
    destruct (deref (confs st4) cf) as [c4| |] in E5; try discriminate.
    cbn [res_bind] in E5.
    destruct (two_members _) as [[m1 m2]|] in E5;
      [|injection E5 as <- <-; split; [done | by intros e [= <-]]].
    destruct (store_solution _ _ _ _) as [s| |] eqn:Es in E5;
      try discriminate.
    injection E5 as <- <-. split; [|done].
    by eapply (solution_after_message P). }
  destruct H5 as [H5 He5].
  destruct o5 as [e5|]; [intros [= <- <-]; by apply He5|].
  bind_as c5 Ec5. destruct (mlist c5); [|by intros [= <- <-]].
  bind_as r6 E6. destruct r6 as [err6 st6].
  assert (H6 : P st6) by (by eapply dsps_del).
  destruct (Z.eqb_spec err6 0) as [->|Herr6]; cbn [negb];
    by intros [= <- <-].
Qed.

(** The conference [cf] keeps its id *)
Lemma id_solution (cf : nat) (x : Z) (st : cmx_state) (cf0 : nat)
    (s h : Z) (st' : cmx_state) :
  (exists c, confs st !! cf = Some c /\ id c = x) ->
  store_solution cf0 s h st = Ret st' ->
  exists c, confs st' !! cf = Some c /\ id c = x.
Proof.
  intros (c & Hc & Hid). unfold store_solution. bind_as c0 Ec0.
  intros [= <-]. cbn [confs put_conf].
  destruct (decide (cf0 = cf)) as [->|Hne].
  - rewrite lookup_insert_eq. eexists. split; [done|].
    unfold deref in Ec0. rewrite Hc in Ec0. by injection Ec0 as <-.
  - rewrite lookup_insert_ne by done. eauto.
Qed.

Lemma add_to_conf_idle (fuel : nat) (st : cmx_state) (dsp : nat)
    (d : dsp_t) :
  dsps st !! dsp = Some d ->
  negb (conf_id d =? 0) && b_active d = false ->
  add_to_conf pf fuel st dsp = Ret (0, st).
Proof.
  intros Hd Hw. unfold add_to_conf, deref. rewrite Hd. cbn [res_bind].
  by rewrite Hw.
Qed.

Lemma add_to_conf_in (fuel : nat) (st : cmx_state) (dsp : nat) (d : dsp_t)
    (st' : cmx_state) :
  dsps st !! dsp = Some d ->
  negb (conf_id d =? 0) && b_active d = true ->
  add_to_conf pf fuel st dsp = Ret (0, st') ->
  exists cf c d',
    dsps st' !! dsp = Some d' /\ conf d' = Some cf /\
    conf_id d' = conf_id d /\ b_active d' = b_active d /\
    confs st' !! cf = Some c /\ id c = conf_id d.
Proof.
  intros Hd Hw. unfold add_to_conf. unfold deref at 1. rewrite Hd.
  cbn [res_bind]. rewrite Hw. bind_as found Ef.
  assert (H0 : forall ocf st0,
    match found with
    | Some cf => (Some cf, st)
    | None => dsp_cmx_new_conf pf st (conf_id d)
    end = (ocf, st0) ->
    dsps st0 = dsps st /\
    forall cf, ocf = Some cf ->
      exists c, confs st0 !! cf = Some c /\ id c = conf_id d).
  { intros ocf st0. destruct found as [cf|].
    - intros [= <- <-]. split; [done|]. intros cf0 [= <-].
      unfold dsp_cmx_search_conf in Ef. destruct (conf_id d =? 0); [done|].
      by apply search_chain_some in Ef as [_ Hc].
    - unfold dsp_cmx_new_conf. destruct (conf_id d =? 0); [by intros [= <- <-]|].
      destruct (heap_free st); [by intros [= <- <-]|].
      intros [= <- <-]. split; [done|]. intros cf0 [= <-]. cbn [confs].
      rewrite lookup_insert_eq. by eexists. }
  destruct (match found with Some cf => _ | None => _ end) as [ocf st0].
  destruct (H0 ocf st0 eq_refl) as [Hds Hid].
  destruct ocf as [cf|]; [|done].
  destruct (Hid cf eq_refl) as (c0 & Hc0 & Hid0).
  unfold deref at 1. rewrite Hc0. cbn [res_bind].
  bind_as r1 E1. destruct r1 as [err st1].
  destruct (Z.eqb_spec err 0) as [->|Herr]; cbn [negb];
    [|by intros [= ? _]].
  set (P := fun s : cmx_state =>
    (exists d', dsps s !! dsp = Some d' /\ conf d' = Some cf /\
                conf_id d' = conf_id d /\ b_active d' = b_active d) /\
    exists c, confs s !! cf = Some c /\ id c = conf_id d).
  assert (P_solution : forall st cf s h st',
            P st -> store_solution cf s h st = Ret st' -> P st').
  { intros s0 cf0 s h s1 [Hp1 Hp2] Es. split; [|by eapply id_solution].
    by rewrite (dsps_solution _ _ _ _ _ _ eq_refl Es). }
  assert (P_log : forall st m, P st -> P (log_msg m st)) by done.
  assert (H1 : P st1).
  { unfold dsp_cmx_add_conf_member, deref in E1. rewrite Hds, Hd in E1.
    cbn [res_bind] in E1.
    destruct (bool_decide _) in E1; [done|].
    destruct (bool_decide _) in E1; [done|].
    destruct (heap_free st0) in E1; [done|].
    rewrite Hc0 in E1. cbn [res_bind] in E1. injection E1 as <-.
    split; cbn [dsps confs]; rewrite lookup_insert_eq.
    - by eexists.
    - eexists. split; [done|].
      repeat match goal with |- context [if ?b then _ else _] =>
        destruct b end; done. }
  assert (Hfin : forall s, P s -> exists cf c d',
            dsps s !! dsp = Some d' /\ conf d' = Some cf /\
            conf_id d' = conf_id d /\ b_active d' = b_active d /\
            confs s !! cf = Some c /\ id c = conf_id d).
  { intros s [(d' & ? & ? & ? & ?) (c & ? & ?)]. by exists cf, c, d'. }
  destruct (chain_next _ _); [|intros [= <-]; by apply Hfin].
  bind_as new Enew. bind_as c1 Ec1. bind_as st2 E2.
  assert (H2 : P st2).
  { destruct (_ && _) in E2; [|by injection E2 as <-].
    by eapply (solution_after_messages P). }
  bind_as r3 E3. destruct r3 as [o3 st3].
  assert (H3 : P st3 /\ forall e, o3 = Some e -> e <> 0).
  { destruct (_ && _) in E3; [|by injection E3 as <- <-].
    destruct (two_members _) as [[m1 m2]|] in E3;
      [|injection E3 as <- <-; split; [done | by intros e [= <-]]].
    destruct (store_solution _ _ _ _) as [s| |] eqn:Es in E3;
      try discriminate.
    injection E3 as <- <-. split; [|done].
    by eapply (solution_after_message P). }
  destruct H3 as [H3 He3].
  destruct o3 as [e3|]; [intros [= E _]; by destruct (He3 e3)|].
  bind_as st4 E4.
  assert (H4 : P st4).
  { destruct (0 <? new) in E4; [|by injection E4 as <-].
    destruct (deref (confs st3) cf) as [c3| |] in E4; try discriminate.
    by eapply (solution_after_messages P). }
  destruct (new =? 0); [|intros [= <-]; by apply Hfin].
  bind_as c4 Ec4.
  destruct (two_members (mlist c4)) as [[m1 m2]|]; [|done].
  bind_as s Es. intros [= <-]. apply Hfin.
  by eapply (solution_after_message P).
Qed.

(** X24: when [dsp_cmx] returns 0 the dsp is where it asks to be: in a
    conference with the id [conf_id] when that is not 0 and the dsp is
    active, in no conference otherwise; [conf_id] and [b_active] are
    untouched.  A second call then returns 0 and changes nothing. *)
Theorem dsp_cmx_reaches_request (fuel fuel' : nat) (st : cmx_state) (dsp : nat)
    (d : dsp_t) (st' : cmx_state) :
  dsps st !! dsp = Some d ->
  dsp_cmx pf fuel st dsp = Ret (0, st') ->
  (exists d',
     dsps st' !! dsp = Some d' /\
     conf_id d' = conf_id d /\ b_active d' = b_active d /\
     if negb (conf_id d =? 0) && b_active d
     then exists cf c, conf d' = Some cf /\ confs st' !! cf = Some c /\
                       id c = conf_id d
     else conf d' = None) /\
  dsp_cmx pf fuel' st' dsp = Ret (0, st').
Proof.
  intros Hd. unfold dsp_cmx at 1. unfold deref at 1. rewrite Hd.
  cbn [res_bind].
  assert (Hjoin : forall s0 d0 s1,
    dsps s0 !! dsp = Some d0 -> conf d0 = None ->
    conf_id d0 = conf_id d -> b_active d0 = b_active d ->
    add_to_conf pf fuel s0 dsp = Ret (0, s1) ->
    (exists d',
       dsps s1 !! dsp = Some d' /\
       conf_id d' = conf_id d /\ b_active d' = b_active d /\
       if negb (conf_id d =? 0) && b_active d
       then exists cf c, conf d' = Some cf /\ confs s1 !! cf = Some c /\
                         id c = conf_id d
       else conf d' = None) /\
    dsp_cmx pf fuel' s1 dsp = Ret (0, s1)).
  { intros s0 d0 s1 Hd0 Hc0 Hi0 Ha0 Ea.
    destruct (negb (conf_id d =? 0) && b_active d) eqn:Hw.
    - destruct (add_to_conf_in fuel s0 dsp d0 s1 Hd0) as
        (cf & c & d' & Hd' & Hcf & Hid' & Hact' & Hc & Hidc);
        [by rewrite Hi0, Ha0 | done |].
      split.
      + exists d'. split_and!; try congruence. exists cf, c.
        split_and!; congruence.
      + apply andb_prop in Hw as [Hn Hb].
        eapply dsp_cmx_settled; try done; try congruence.
        rewrite Hid', Hi0. intros E. rewrite E in Hn. done.
    - rewrite (add_to_conf_idle fuel s0 dsp d0 Hd0) in Ea
        by (by rewrite Hi0, Ha0).
      injection Ea as <-. split; [by exists d0|].
      unfold dsp_cmx, deref. rewrite Hd0. cbn [res_bind]. rewrite Hc0.
      destruct (conf_id d0 =? 0); [done|].
      apply add_to_conf_idle with d0; [done|]. by rewrite Hi0, Ha0. }
  destruct (conf d) as [cf|] eqn:Hconf.
  - bind_as c Ec.
    destruct (negb (conf_id d =? 0) && b_active d && (conf_id d =? id c))
      eqn:Hs.
    + intros [= <-]. apply andb_prop in Hs as [Hw Hi]. rewrite Hw.
      apply andb_prop in Hw as [Hn Hb].
      unfold deref in Ec. destruct (confs st !! cf) as [c'|] eqn:Ecf; [|done].
      injection Ec as ->.
      split.
      * exists d. split_and!; try done. exists cf, c. split_and!; try done.
        symmetry. by apply Z.eqb_eq.
      * eapply dsp_cmx_settled; try done.
        -- intros E. rewrite E in Hn. done.
        -- symmetry. by apply Z.eqb_eq.
    + bind_as r1 E1. destruct r1 as [oerr st1].
      pose proof (remove_from_conf_out fuel st dsp d oerr st1 Hd E1) as Hout.
      destruct oerr as [err|]; [by intros [= ? _]|].
      apply (Hjoin st1 (set_conf None None d)); try done.
      rewrite Hout. apply lookup_insert_eq.
  - destruct (Z.eqb_spec (conf_id d) 0) as [E0|N0].
    + intros [= <-]. cbn [negb andb]. split; [by exists d|].
      unfold dsp_cmx, deref. rewrite Hd. cbn [res_bind].
      rewrite Hconf, E0. done.
    + by apply (Hjoin st d).
Qed.

End WithPlatform.
End Requests.

(** ** What each audio path leaves alone *)

Module Locality.
Import Ring Cmx Wf Inv RingFacts ReceiveFacts.

Section WithPlatform.
Context (pf : platform).

(** X25: [dsp_cmx_receive] writes to the rx side of the receiving dsp
    and to its conference only: the tx ring and the read pointers of
    the dsp, every other dsp, every other conference and the heap are
    what they were. *)
Theorem receive_touches_rx_side (st : cmx_state) (dsp : nat) (d : dsp_t)
    (skb : list Z) (st' : cmx_state) :
  dsps st !! dsp = Some d ->
  dsp_cmx_receive pf st dsp skb = Ret st' ->
  (exists d', dsps st' !! dsp = Some d' /\
              tx_buff d' = tx_buff d /\ W_tx d' = W_tx d /\
              R_tx d' = R_tx d /\ R_rx d' = R_rx d /\ tone d' = tone d) /\
  (forall a, a <> dsp -> dsps st' !! a = dsps st !! a) /\
  (forall cf, conf d <> Some cf -> confs st' !! cf = confs st !! cf) /\
  heap_free st' = heap_free st.
Proof.
  intros Hd. unfold dsp_cmx_receive, deref. rewrite Hd. cbn [res_bind].
  assert (Hput : forall d1,
    tx_buff d1 = tx_buff d -> W_tx d1 = W_tx d -> R_tx d1 = R_tx d ->
    R_rx d1 = R_rx d -> tone d1 = tone d ->
    (exists d', dsps (put_dsp dsp d1 st) !! dsp = Some d' /\
                tx_buff d' = tx_buff d /\ W_tx d' = W_tx d /\
                R_tx d' = R_tx d /\ R_rx d' = R_rx d /\ tone d' = tone d) /\
    (forall a, a <> dsp -> dsps (put_dsp dsp d1 st) !! a = dsps st !! a)).
  { intros d1 ? ? ? ? ?. split.
    - exists d1. cbn [dsps put_dsp]. by rewrite lookup_insert_eq.
    - intros a Ha. cbn [dsps put_dsp]. by rewrite lookup_insert_ne. }
  destruct (_ <? 1).
  { intros [= <-]. split_and!; try done. by exists d. }
  rewrite bump_largest. set (d1 := set_largest _ d).
  destruct (_ <=? Z.of_nat (length skb)).
  { intros [= <-]. destruct (Hput d1) as [H1 H2]; try done. }
  change (conf d1) with (conf d). destruct (conf d) as [cf|] eqn:Ecf.
  - destruct (confs st !! cf) as [c|] eqn:Ec; [|done]. cbn [res_bind].
    rewrite bump_c_largest, bump_largest.
    set (c1 := set_c_largest _ c). set (d2 := set_largest _ d1).
    destruct (lowest_W_rx _ _ _ _ _) as [Wm| |] eqn:El; try done.
    cbn [res_bind].
    destruct (_ <=? largest d2); intros [= <-];
      cbn [dsps confs heap_free put_conf put_dsp].
    + destruct (Hput (set_W_rx (mask pf (W_rx d2 + Z.of_nat (length skb)))
                        (set_rx_buff (rx_write pf (rx_buff d2) (W_rx d2) skb)
                           d2))) as [H1 H2]; try done.
      split_and!; try done.
      intros cf0 Hne. rewrite lookup_insert_ne; [done|congruence].
    + destruct (Hput d2) as [H1 H2]; try done.
      split_and!; try done.
      intros cf0 Hne. rewrite lookup_insert_ne; [done|congruence].
  - destruct (_ <=? largest d1); intros [= <-].
    + destruct (Hput (set_W_rx (mask pf (W_rx d1 + Z.of_nat (length skb)))
                        (set_rx_buff (rx_write pf (rx_buff d1) (W_rx d1) skb)
                           d1))) as [H1 H2]; try done.
    + destruct (Hput d1) as [H1 H2]; try done.
Qed.

(** X26: [dsp_cmx_send] writes to no buffer: the rx and tx rings of the
    sending dsp, its write pointer [W_rx] and every conference are what
    they were, as is every other dsp; without a tone [W_tx] stays too.
    One allocation is taken when there is one. *)
Theorem send_writes_no_buffer (fuel : nat) (st : cmx_state) (dsp : nat)
    (d : dsp_t) (len dinfo : Z) (nskb : option sk_buff)
    (st' : cmx_state) :
  dsps st !! dsp = Some d ->
  dsp_cmx_send pf fuel st dsp len dinfo = Ret (nskb, st') ->
  (exists d', dsps st' !! dsp = Some d' /\
              rx_buff d' = rx_buff d /\ tx_buff d' = tx_buff d /\
              W_rx d' = W_rx d /\ largest d' = largest d /\
              (tone d = 0 -> W_tx d' = W_tx d)) /\
  (forall a, a <> dsp -> dsps st' !! a = dsps st !! a) /\
  confs st' = confs st /\
  heap_free st' = Nat.pred (heap_free st).
Proof.
  intros Hd. unfold dsp_cmx_send. unfold deref at 1. rewrite Hd.
  cbn [res_bind].
  destruct (heap_free st) as [|hf] eqn:Ehf.
  { intros [= <- <-]. rewrite Ehf. split_and!; try done. by exists d. }
  destruct (match conf d with Some cf => _ | None => _ end) as [lim| |];
    try done.
  cbn [res_bind].
  destruct (read_window pf (R_rx d) lim len) as [r rr] eqn:Ew.
  assert (Hput : forall d1,
    rx_buff d1 = rx_buff d -> tx_buff d1 = tx_buff d -> W_rx d1 = W_rx d ->
    largest d1 = largest d -> (tone d = 0 -> W_tx d1 = W_tx d) ->
    forall s1, s1 = put_dsp dsp d1
                 (mk_state (<[dsp := set_R_rx rr d]> (dsps st)) (confs st)
                    (Conf_list st) hf (next_conf st) (hfc_log st)) ->
    (exists d', dsps s1 !! dsp = Some d' /\
                rx_buff d' = rx_buff d /\ tx_buff d' = tx_buff d /\
                W_rx d' = W_rx d /\ largest d' = largest d /\
                (tone d = 0 -> W_tx d' = W_tx d)) /\
    (forall a, a <> dsp -> dsps s1 !! a = dsps st !! a) /\
    confs s1 = confs st /\ heap_free s1 = Nat.pred (S hf)).
  { intros d1 ? ? ? ? ? s1 ->. cbn [dsps confs heap_free put_dsp].
    split_and!; try done.
    - exists d1. by rewrite lookup_insert_eq.
    - intros a Ha. by rewrite !lookup_insert_ne. }
  destruct (Z.eqb_spec (tone (set_R_rx rr d)) 0) as [Et|Et]; cbn [negb].
  2:{ intros [= <- <-]. eapply Hput; cycle -1; [reflexivity|..]; done. }
  destruct (if _ && _ then _ else _) as [[[r1 t1] out1]| |] eqn:E1; try done.
  cbn [res_bind].
  destruct (_ && _ && _).
  { intros [= <- <-]. eapply Hput; cycle -1; [reflexivity|..]; done. }
  destruct (send_mix _ _ _ _ _ _ _ _ _ _) as [[t2 out2]| |] eqn:E2; try done.
  cbn [res_bind]. intros [= <- <-].
  eapply Hput; cycle -1; [reflexivity|..]; done.
Qed.

(** X27: [dsp_cmx_transmit] writes to the tx ring and to [W_tx] of the
    dsp only: its rx side, its read pointer [R_tx], every other dsp,
    the conferences and the heap are what they were. *)
Theorem transmit_touches_tx_side (fuel : nat) (st : cmx_state) (dsp : nat)
    (d : dsp_t) (skb : list Z) (st' : cmx_state) :
  dsps st !! dsp = Some d ->
  dsp_cmx_transmit pf fuel st dsp skb = Ret st' ->
  (exists d', dsps st' !! dsp = Some d' /\
              rx_buff d' = rx_buff d /\ W_rx d' = W_rx d /\
              R_rx d' = R_rx d /\ R_tx d' = R_tx d /\
              largest d' = largest d /\ tone d' = tone d) /\
  (forall a, a <> dsp -> dsps st' !! a = dsps st !! a) /\
  confs st' = confs st /\
  heap_free st' = heap_free st.
Proof.
  intros Hd. unfold dsp_cmx_transmit, deref. rewrite Hd. cbn [res_bind].
  destruct (_ <? 1).
  { intros [= <-]. split_and!; try done. by exists d. }
  destruct (tx_write _ _ _ _ _ _) as [p| |]; try done. cbn [res_bind].
  intros [= <-]. cbn [dsps confs heap_free put_dsp]. split_and!; try done.
  - eexists. rewrite lookup_insert_eq. done.
  - intros a Ha. by rewrite lookup_insert_ne.
Qed.

End WithPlatform.
End Locality.

(** ** The properties above on concrete states *)

Module Checks.
Import Ring Cmx Dtmf Wf Sample Runs Inv DtmfRuns Cases.

(** *** The invariants hold when the card boots, and after the first join *)

Lemma platform_bits : 0 < buff_bits pf.
Proof. reflexivity. Qed.

Lemma boot_rings (card : Z) : rings_ok pf (boot card).
Proof.
  split.
  - intros a d H. cbn [dsps boot] in H.
    repeat (apply lookup_insert_Some in H as [[_ <-]|[_ H]];
            [vm_compute; intuition discriminate|]).
    by rewrite lookup_empty in H.
  - intros a c H. cbn [confs boot] in H. by rewrite lookup_empty in H.
Qed.

Lemma boot_link (card : Z) : member_link (boot card).
Proof.
  split_and!.
  - intros a d cf H Hc. cbn [dsps boot] in H.
    repeat (apply lookup_insert_Some in H as [[_ <-]|[_ H]]; [done|]).
    by rewrite lookup_empty in H.
  - intros cf c a H. cbn [confs boot] in H. by rewrite lookup_empty in H.
  - intros cf c H. cbn [confs boot] in H. by rewrite lookup_empty in H.
  - intros a _. apply lookup_empty.
Qed.

Lemma boot_registry (card : Z) : registry_ok (boot card).
Proof.
  split_and!.
  - apply NoDup_nil_2.
  - intros a. cbn [Conf_list confs boot]. rewrite lookup_empty. split.
    + intros H. by apply elem_of_nil in H.
    + by intros [? ?].
  - intros a c H. cbn [confs boot] in H. by rewrite lookup_empty in H.
  - intros a b c c' H. cbn [confs boot] in H. by rewrite lookup_empty in H.
  - intros a _. apply lookup_empty.
Qed.

Lemma one_run : dsp_cmx pf 20 (boot 7) 1%nat = Ret (0, card7_one).
Proof. vm_compute. reflexivity. Qed.

Lemma pair_run : dsp_cmx pf 20 card7_one 2%nat = Ret (0, card7_pair).
Proof. vm_compute. reflexivity. Qed.

Lemma pair_step : cmx_step pf card7_one card7_pair.
Proof. exact (step_cmx pf 20 card7_one 2%nat 0 card7_pair pair_run). Qed.

Lemma one_rings : rings_ok pf card7_one.
Proof.
  exact (RingInvariant.rings_cmx pf platform_bits 20 (boot 7) 1%nat 0
           card7_one (boot_rings 7) one_run).
Qed.

Lemma one_link : member_link card7_one.
Proof.
  exact (LinkInvariant.link_cmx pf 20 (boot 7) 1%nat 0 card7_one
           (boot_link 7) one_run).
Qed.

Lemma one_registry : registry_ok card7_one.
Proof.
  exact (RegistryFacts.reg_cmx pf 20 (boot 7) 1%nat 0 card7_one
           (boot_registry 7) one_run).
Qed.

(** *** Transmit and send *)

(** X1, witness: three bytes into the empty tx ring of dsp 1 *)
Lemma transmit_stores_frame_witness :
  0 < buff_bits pf /\ buff_bits pf <= 30 /\
  dsps (boot 0) !! 1%nat = Some (new_dsp 0 1) /\
  in_ring pf (W_tx (new_dsp 0 1)) /\ in_ring pf (R_tx (new_dsp 0 1)) /\
  Z.of_nat (length (tx_buff (new_dsp 0 1))) = CMX_BUFF_SIZE pf /\
  (1 <= length [1; 2; 3])%nat /\ CMX_BUFF_SIZE pf <= Z.of_nat 64 /\
  exists p, dsp_cmx_transmit pf 64 (boot 0) 1%nat [1; 2; 3]
            = Ret (put_dsp 1%nat
                     (set_tx_buff p (set_W_tx 3 (new_dsp 0 1))) (boot 0)) /\
            rd p 0 = 1 /\ rd p 1 = 2 /\ rd p 2 = 3.
Proof.
  assert (H0 : buff_bits pf <= 30) by (vm_compute; discriminate).
  assert (H1 : dsps (boot 0) !! 1%nat = Some (new_dsp 0 1))
    by (vm_compute; reflexivity).
  assert (H2 : in_ring pf (W_tx (new_dsp 0 1)))
    by (vm_compute; split; [discriminate | reflexivity]).
  assert (H3 : in_ring pf (R_tx (new_dsp 0 1)))
    by (vm_compute; split; [discriminate | reflexivity]).
  assert (H4 : Z.of_nat (length (tx_buff (new_dsp 0 1))) = CMX_BUFF_SIZE pf)
    by (vm_compute; reflexivity).
  assert (H5 : (1 <= length [1; 2; 3])%nat) by (simpl; lia).
  assert (H6 : CMX_BUFF_SIZE pf <= Z.of_nat 64)
    by (vm_compute; discriminate).
  refine (conj platform_bits (conj H0 (conj H1 (conj H2 (conj H3 (conj H4
            (conj H5 (conj H6 _)))))))).
  destruct (TransmitFacts.transmit_stores_frame pf platform_bits 64 (boot 0)
              1%nat (new_dsp 0 1) [1; 2; 3] H0 H1 H2 H3 H4 H5 H6)
    as (p & Hrun & _ & _ & Hs & _).
  exists p. split; [exact Hrun|].
  split; [exact (Hs 0%nat eq_refl)|].
  split; [exact (Hs 1%nat eq_refl) | exact (Hs 2%nat eq_refl)].
Defined.

(** X2, witness: the three bytes queued in [tx_pending] are the frame *)
Lemma send_forwards_tx_witness :
  0 < buff_bits pf /\
  dsps tx_pending !! 1%nat = Some (the_dsp tx_pending 1) /\
  heap_free tx_pending <> 0%nat /\
  read_limit tx_pending (the_dsp tx_pending 1) = Some 0 /\
  in_ring pf (R_rx (the_dsp tx_pending 1)) /\ in_ring pf 0 /\
  in_ring pf (R_tx (the_dsp tx_pending 1)) /\
  in_ring pf (W_tx (the_dsp tx_pending 1)) /\
  tone (the_dsp tx_pending 1) = 0 /\ tx_mix (the_dsp tx_pending 1) = false /\
  0 < 3 < CMX_BUFF_SIZE pf /\
  3 <= mask pf (W_tx (the_dsp tx_pending 1) - R_tx (the_dsp tx_pending 1)) /\
  3 < Z.of_nat 64 /\
  frame_of (dsp_cmx_send pf 64 tx_pending 1%nat 3 0)
  = Some (mk_skb 0 3 [1; 2; 3]).
Proof.
  assert (H1 : dsps tx_pending !! 1%nat = Some (the_dsp tx_pending 1))
    by (vm_compute; reflexivity).
  assert (H2 : heap_free tx_pending <> 0%nat) by (vm_compute; discriminate).
  assert (H3 : read_limit tx_pending (the_dsp tx_pending 1) = Some 0)
    by (vm_compute; reflexivity).
  assert (H4 : in_ring pf (R_rx (the_dsp tx_pending 1)))
    by (vm_compute; split; [discriminate | reflexivity]).
  assert (H5 : in_ring pf 0)
    by (vm_compute; split; [discriminate | reflexivity]).
  assert (H6 : in_ring pf (R_tx (the_dsp tx_pending 1)))
    by (vm_compute; split; [discriminate | reflexivity]).
  assert (H7 : in_ring pf (W_tx (the_dsp tx_pending 1)))
    by (vm_compute; split; [discriminate | reflexivity]).
  assert (H8 : tone (the_dsp tx_pending 1) = 0) by (vm_compute; reflexivity).
  assert (H9 : tx_mix (the_dsp tx_pending 1) = false)
    by (vm_compute; reflexivity).
  assert (H10 : 0 < 3 < CMX_BUFF_SIZE pf)
    by (vm_compute; split; reflexivity).
  assert (H11 : 3 <= mask pf (W_tx (the_dsp tx_pending 1)
                              - R_tx (the_dsp tx_pending 1)))
    by (vm_compute; discriminate).
  assert (H12 : 3 < Z.of_nat 64) by (vm_compute; reflexivity).
  refine (conj platform_bits (conj H1 (conj H2 (conj H3 (conj H4 (conj H5
            (conj H6 (conj H7 (conj H8 (conj H9 (conj H10 (conj H11
            (conj H12 _))))))))))))).
  rewrite (SendContent.send_forwards_tx pf platform_bits 64 tx_pending
             1%nat (the_dsp tx_pending 1) 3 0 0 H1 H2 H3 H4 H5 H6 H7 H8 H9
             H10 H11 H12).
  vm_compute. reflexivity.
Defined.

(** X3, witness: five bytes of A-law silence for a dsp alone *)
Lemma send_alone_silence_or_echo_witness :
  0 < buff_bits pf /\
  dsps (boot 0) !! 1%nat = Some (new_dsp 0 1) /\
  heap_free (boot 0) <> 0%nat /\
  read_limit (boot 0) (new_dsp 0 1) = Some 0 /\
  in_ring pf (R_rx (new_dsp 0 1)) /\ in_ring pf 0 /\
  alone (boot 0) (new_dsp 0 1) = true /\
  tone (new_dsp 0 1) = 0 /\ R_tx (new_dsp 0 1) = W_tx (new_dsp 0 1) /\
  0 < 5 < CMX_BUFF_SIZE pf /\ 5 < Z.of_nat 64 /\
  frame_of (dsp_cmx_send pf 64 (boot 0) 1%nat 5 0)
  = Some (mk_skb 0 5 [42; 42; 42; 42; 42]).
Proof.
  assert (H1 : dsps (boot 0) !! 1%nat = Some (new_dsp 0 1))
    by (vm_compute; reflexivity).
  assert (H2 : heap_free (boot 0) <> 0%nat) by (vm_compute; discriminate).
  assert (H3 : read_limit (boot 0) (new_dsp 0 1) = Some 0)
    by (vm_compute; reflexivity).
  assert (H4 : in_ring pf (R_rx (new_dsp 0 1)))
    by (vm_compute; split; [discriminate | reflexivity]).
  assert (H5 : in_ring pf 0)
    by (vm_compute; split; [discriminate | reflexivity]).
  assert (H6 : alone (boot 0) (new_dsp 0 1) = true)
    by (vm_compute; reflexivity).
  assert (H7 : tone (new_dsp 0 1) = 0) by (vm_compute; reflexivity).
  assert (H8 : R_tx (new_dsp 0 1) = W_tx (new_dsp 0 1))
    by (vm_compute; reflexivity).
  assert (H9 : 0 < 5 < CMX_BUFF_SIZE pf) by (vm_compute; split; reflexivity).
  assert (H10 : 5 < Z.of_nat 64) by (vm_compute; reflexivity).
  refine (conj platform_bits (conj H1 (conj H2 (conj H3 (conj H4 (conj H5
            (conj H6 (conj H7 (conj H8 (conj H9 (conj H10 _))))))))))).
  rewrite (SendContent.send_alone_silence_or_echo pf platform_bits 64
             (boot 0) 1%nat (new_dsp 0 1) 5 0 0 H1 H2 H3 H4 H5 H6 H7 H8 H9
             H10).
  vm_compute. reflexivity.
Defined.

(** X4, witness: three bytes echoed *)
Lemma echo_round_trip_witness :
  0 < buff_bits pf /\
  dsps echo_state !! 1%nat = Some echo_dsp /\
  heap_free echo_state <> 0%nat /\
  conf echo_dsp = None /\ echo echo_dsp = true /\ tone echo_dsp = 0 /\
  R_tx echo_dsp = W_tx echo_dsp /\ R_rx echo_dsp = W_rx echo_dsp /\
  in_ring pf (W_rx echo_dsp) /\
  Z.of_nat (length (rx_buff echo_dsp)) = CMX_BUFF_SIZE pf /\
  0 <= largest echo_dsp /\
  1 <= Z.of_nat (length [1; 2; 3]) < Z.shiftr (CMX_BUFF_HALF pf) 2 /\
  Z.of_nat (length [1; 2; 3]) < Z.of_nat 64 /\
  exists st1 st2,
    dsp_cmx_receive pf echo_state 1%nat [1; 2; 3] = Ret st1 /\
    dsp_cmx_send pf 64 st1 1%nat (Z.of_nat (length [1; 2; 3])) 0
    = Ret (Some (mk_skb 0 (Z.of_nat (length [1; 2; 3])) [1; 2; 3]), st2).
Proof.
  assert (H1 : dsps echo_state !! 1%nat = Some echo_dsp)
    by (vm_compute; reflexivity).
  assert (H2 : heap_free echo_state <> 0%nat) by (vm_compute; discriminate).
  assert (H3 : conf echo_dsp = None) by reflexivity.
  assert (H4 : echo echo_dsp = true) by reflexivity.
  assert (H5 : tone echo_dsp = 0) by reflexivity.
  assert (H6 : R_tx echo_dsp = W_tx echo_dsp) by reflexivity.
  assert (H7 : R_rx echo_dsp = W_rx echo_dsp) by reflexivity.
  assert (H8 : in_ring pf (W_rx echo_dsp))
    by (vm_compute; split; [discriminate | reflexivity]).
  assert (H9 : Z.of_nat (length (rx_buff echo_dsp)) = CMX_BUFF_SIZE pf)
    by (vm_compute; reflexivity).
  assert (H10 : 0 <= largest echo_dsp) by (vm_compute; discriminate).
  assert (H11 : 1 <= Z.of_nat (length [1; 2; 3])
                < Z.shiftr (CMX_BUFF_HALF pf) 2)
    by (vm_compute; split; [discriminate | reflexivity]).
  assert (H12 : Z.of_nat (length [1; 2; 3]) < Z.of_nat 64)
    by (vm_compute; reflexivity).
  refine (conj platform_bits (conj H1 (conj H2 (conj H3 (conj H4 (conj H5
            (conj H6 (conj H7 (conj H8 (conj H9 (conj H10 (conj H11
            (conj H12 _))))))))))))).
  destruct (RoundTrips.echo_round_trip pf platform_bits 64 echo_state 1%nat
              echo_dsp [1; 2; 3] 0 H1 H2 H3 H4 H5 H6 H7 H8 H9 H10 H11 H12)
    as (st1 & st2 & d2 & Hr & Hs & _).
  exists st1, st2. exact (conj Hr Hs).
Defined.

(** X5, witness: three bytes queued and sent *)
Lemma transmit_send_round_trip_witness :
  0 < buff_bits pf /\ buff_bits pf <= 30 /\
  dsps (boot 0) !! 1%nat = Some (new_dsp 0 1) /\
  heap_free (boot 0) <> 0%nat /\
  read_limit (boot 0) (new_dsp 0 1) = Some 0 /\
  in_ring pf (R_rx (new_dsp 0 1)) /\ in_ring pf 0 /\
  R_tx (new_dsp 0 1) = W_tx (new_dsp 0 1) /\
  in_ring pf (W_tx (new_dsp 0 1)) /\
  Z.of_nat (length (tx_buff (new_dsp 0 1))) = CMX_BUFF_SIZE pf /\
  tone (new_dsp 0 1) = 0 /\ tx_mix (new_dsp 0 1) = false /\
  (1 <= length [1; 2; 3])%nat /\
  Z.of_nat (length [1; 2; 3]) < CMX_BUFF_SIZE pf /\
  CMX_BUFF_SIZE pf <= Z.of_nat 64 /\
  exists st1 st2,
    dsp_cmx_transmit pf 64 (boot 0) 1%nat [1; 2; 3] = Ret st1 /\
    dsp_cmx_send pf 64 st1 1%nat (Z.of_nat (length [1; 2; 3])) 0
    = Ret (Some (mk_skb 0 (Z.of_nat (length [1; 2; 3])) [1; 2; 3]), st2).
Proof.
  assert (H0 : buff_bits pf <= 30) by (vm_compute; discriminate).
  assert (H1 : dsps (boot 0) !! 1%nat = Some (new_dsp 0 1))
    by (vm_compute; reflexivity).
  assert (H2 : heap_free (boot 0) <> 0%nat) by (vm_compute; discriminate).
  assert (H3 : read_limit (boot 0) (new_dsp 0 1) = Some 0)
    by (vm_compute; reflexivity).
  assert (H4 : in_ring pf (R_rx (new_dsp 0 1)))
    by (vm_compute; split; [discriminate | reflexivity]).
  assert (H5 : in_ring pf 0)
    by (vm_compute; split; [discriminate | reflexivity]).
  assert (H6 : R_tx (new_dsp 0 1) = W_tx (new_dsp 0 1)) by reflexivity.
  assert (H7 : in_ring pf (W_tx (new_dsp 0 1)))
    by (vm_compute; split; [discriminate | reflexivity]).
  assert (H8 : Z.of_nat (length (tx_buff (new_dsp 0 1))) = CMX_BUFF_SIZE pf)
    by (vm_compute; reflexivity).
  assert (H9 : tone (new_dsp 0 1) = 0) by reflexivity.
  assert (H10 : tx_mix (new_dsp 0 1) = false) by reflexivity.
  assert (H11 : (1 <= length [1; 2; 3])%nat) by (simpl; lia).
  assert (H12 : Z.of_nat (length [1; 2; 3]) < CMX_BUFF_SIZE pf)
    by (vm_compute; reflexivity).
  assert (H13 : CMX_BUFF_SIZE pf <= Z.of_nat 64)
    by (vm_compute; discriminate).
  refine (conj platform_bits (conj H0 (conj H1 (conj H2 (conj H3 (conj H4
            (conj H5 (conj H6 (conj H7 (conj H8 (conj H9 (conj H10
            (conj H11 (conj H12 (conj H13 _))))))))))))))).
  destruct (RoundTrips.transmit_send_round_trip pf platform_bits 64 (boot 0)
              1%nat (new_dsp 0 1) [1; 2; 3] 0 0 H0 H1 H2 H3 H4 H5 H6 H7 H8
              H9 H10 H11 H12 H13)
    as (st1 & st2 & d2 & Hr & Hs & _).
  exists st1, st2. exact (conj Hr Hs).
Defined.

(** *** Invariants *)

(** X6, witness: the second join on card 7 *)
Lemma rings_step_witness :
  0 < buff_bits pf /\ rings_ok pf card7_one /\
  cmx_step pf card7_one card7_pair /\ rings_ok pf card7_pair.
Proof.
  refine (conj platform_bits (conj one_rings (conj pair_step _))).
  exact (RingInvariant.rings_step pf platform_bits card7_one card7_pair
           one_rings pair_step).
Defined.

(** X7, witness: the second join on card 7 *)
Lemma link_step_witness :
  member_link card7_one /\ cmx_step pf card7_one card7_pair /\
  member_link card7_pair.
Proof.
  refine (conj one_link (conj pair_step _)).
  exact (Topology.link_step pf card7_one card7_pair one_link pair_step).
Defined.

(** X8, witness: the second join on card 7 *)
Lemma registry_step_witness :
  registry_ok card7_one /\ cmx_step pf card7_one card7_pair /\
  registry_ok card7_pair.
Proof.
  refine (conj one_registry (conj pair_step _)).
  exact (RegistryFacts.registry_step pf card7_one card7_pair one_registry
           pair_step).
Defined.

(** X9, witness: three bytes received by dsp 1 *)
Lemma audio_keeps_topology_witness :
  audio_step pf (boot 0) rx_pending /\ same_topology (boot 0) rx_pending.
Proof.
  assert (H1 : dsp_cmx_receive pf (boot 0) 1%nat [1; 2; 3] = Ret rx_pending)
    by (vm_compute; reflexivity).
  assert (H2 : audio_step pf (boot 0) rx_pending)
    by exact (audio_receive pf (boot 0) 1%nat [1; 2; 3] rx_pending H1).
  refine (conj H2 _).
  exact (Topology.audio_keeps_topology pf (boot 0) rx_pending H2).
Defined.

(** X10, witness: the conference of dsp 1 is found under its id *)
Lemma search_conf_finds_witness :
  registry_ok card7_one /\
  dsp_cmx_search_conf card7_one 1 = Ret (Some 0%nat).
Proof.
  refine (conj one_registry _).
  apply (proj2 (RegistryFacts.search_conf_finds card7_one 1 one_registry)).
  exists (the_conf card7_one 0). split; vm_compute; reflexivity.
Defined.

(** *** The classifier and the membership *)

(** X12, witness: two members on card 7 are crossconnected *)
Lemma hfc_hardware_needs_witness :
  confs card7_pair !! 0%nat = Some (the_conf card7_pair 0) /\
  dsp_cmx_hfc 20 card7_pair 0%nat = Ret 0 /\
  (2 <= length (mlist (the_conf card7_pair 0)))%nat.
Proof.
  assert (H1 : confs card7_pair !! 0%nat = Some (the_conf card7_pair 0))
    by (vm_compute; reflexivity).
  assert (H2 : dsp_cmx_hfc 20 card7_pair 0%nat = Ret 0)
    by (vm_compute; reflexivity).
  refine (conj H1 (conj H2 _)).
  destruct (HfcFacts.hfc_hardware_needs 20 card7_pair 0%nat
              (the_conf card7_pair 0) 0 H1 H2) as (_ & Hm & _).
  exact (proj1 (Hm (Z.le_refl 0))).
Defined.

(** X13, witness: dsp 2 joins the conference of dsp 1 and leaves again *)
Lemma add_del_member_witness :
  member_link card7_one /\
  dsp_cmx_add_conf_member pf card7_one 2%nat 0%nat = Ret (0, card7_added) /\
  exists st2, dsp_cmx_del_conf_member card7_added 2%nat = Ret (0, st2) /\
              same_topology card7_one st2 /\
              heap_free st2 = heap_free card7_one.
Proof.
  assert (H1 : dsp_cmx_add_conf_member pf card7_one 2%nat 0%nat
               = Ret (0, card7_added)) by (vm_compute; reflexivity).
  refine (conj one_link (conj H1 _)).
  exact (MemberFacts.add_del_member pf card7_one 2%nat 0%nat card7_added
           one_link H1).
Defined.

(** X14, witness: the first join on card 7 *)
Lemma join_new_conference_witness :
  registry_ok (boot 7) /\
  dsps (boot 7) !! 1%nat = Some (new_dsp 7 1) /\
  conf (new_dsp 7 1) = None /\ member (new_dsp 7 1) = None /\
  conf_id (new_dsp 7 1) <> 0 /\ b_active (new_dsp 7 1) = true /\
  (forall a c, confs (boot 7) !! a = Some c -> id c <> conf_id (new_dsp 7 1))
  /\ (2 <= heap_free (boot 7))%nat /\
  exists st', dsp_cmx pf 20 (boot 7) 1%nat = Ret (0, st') /\
              dsp_cmx_search_conf st' 1 = Ret (Some 0%nat).
Proof.
  assert (H1 : dsps (boot 7) !! 1%nat = Some (new_dsp 7 1))
    by (vm_compute; reflexivity).
  assert (H2 : conf (new_dsp 7 1) = None) by reflexivity.
  assert (H3 : member (new_dsp 7 1) = None) by reflexivity.
  assert (H4 : conf_id (new_dsp 7 1) <> 0) by (vm_compute; discriminate).
  assert (H5 : b_active (new_dsp 7 1) = true) by reflexivity.
  assert (H6 : forall a c, confs (boot 7) !! a = Some c ->
                           id c <> conf_id (new_dsp 7 1))
    by (intros a c H; cbn [confs boot] in H; rewrite lookup_empty in H;
        discriminate).
  assert (H7 : (2 <= heap_free (boot 7))%nat) by (simpl; lia).
  refine (conj (boot_registry 7) (conj H1 (conj H2 (conj H3 (conj H4
            (conj H5 (conj H6 (conj H7 _)))))))).
  destruct (MemberFacts.join_new_conference pf 20 (boot 7) 1%nat
              (new_dsp 7 1) (boot_registry 7) H1 H2 H3 H4 H5 H6 H7)
    as (st' & d' & c' & Hrun & Hsearch & _).
  exists st'. exact (conj Hrun Hsearch).
Defined.

(** X15, witness: the only member of conference 1 leaves *)
Lemma leave_last_member_witness :
  dsps leaving !! 1%nat = Some leaving_dsp /\
  conf leaving_dsp = Some 0%nat /\
  confs leaving !! 0%nat = Some leaving_conf /\
  mlist leaving_conf = [1%nat] /\ solution leaving_conf < 0 /\
  negb (conf_id leaving_dsp =? 0) && b_active leaving_dsp = false /\
  exists st', dsp_cmx pf 20 leaving 1%nat = Ret (0, st') /\
              confs st' !! 0%nat = None /\ Conf_list st' = [] /\
              heap_free st' = 16%nat.
Proof.
  assert (H1 : dsps leaving !! 1%nat = Some leaving_dsp)
    by (vm_compute; reflexivity).
  assert (H2 : conf leaving_dsp = Some 0%nat) by reflexivity.
  assert (H3 : confs leaving !! 0%nat = Some leaving_conf)
    by (vm_compute; reflexivity).
  assert (H4 : mlist leaving_conf = [1%nat]) by reflexivity.
  assert (H5 : solution leaving_conf < 0) by (vm_compute; reflexivity).
  assert (H6 : negb (conf_id leaving_dsp =? 0) && b_active leaving_dsp
               = false) by reflexivity.
  refine (conj H1 (conj H2 (conj H3 (conj H4 (conj H5 (conj H6 _)))))).
  rewrite (MemberFacts.leave_last_member pf 20 leaving 1%nat leaving_dsp
             0%nat leaving_conf H1 H2 H3 H4 H5 H6).
  eexists. split; [reflexivity|]. vm_compute. auto.
Defined.

(** X28, witness: dsp 2 of a conference of two receives four bytes,
    which are stored. *)
Lemma receive_guard_decides_witness :
  0 < buff_bits pf /\
  dsps pair_state !! 2%nat = Some (the_dsp pair_state 2) /\
  conf (the_dsp pair_state 2) = Some 0%nat /\
  confs pair_state !! 0%nat = Some (the_conf pair_state 0) /\
  members_mapped pair_state (mlist (the_conf pair_state 0)) = true /\
  Z.of_nat (length (rx_buff (the_dsp pair_state 2))) = CMX_BUFF_SIZE pf /\
  1 <= Z.of_nat (length [200; 201; 202; 203])
    < Z.shiftr (CMX_BUFF_HALF pf) 2 /\
  exists st' d' c',
    dsp_cmx_receive pf pair_state 2%nat [200; 201; 202; 203] = Ret st' /\
    dsps st' !! 2%nat = Some d' /\ confs st' !! 0%nat = Some c' /\
    largest d' = 8 /\ c_largest c' = 8 /\ W_min c' = 0 /\
    W_rx d' = 4 /\ W_max c' = 0.
Proof.
  assert (H1 : dsps pair_state !! 2%nat = Some (the_dsp pair_state 2))
    by (vm_compute; reflexivity).
  assert (H2 : conf (the_dsp pair_state 2) = Some 0%nat)
    by (vm_compute; reflexivity).
  assert (H3 : confs pair_state !! 0%nat = Some (the_conf pair_state 0))
    by (vm_compute; reflexivity).
  assert (H4 : members_mapped pair_state (mlist (the_conf pair_state 0))
               = true) by (vm_compute; reflexivity).
  assert (H5 : Z.of_nat (length (rx_buff (the_dsp pair_state 2)))
               = CMX_BUFF_SIZE pf) by (vm_compute; reflexivity).
  assert (H6 : 1 <= Z.of_nat (length [200; 201; 202; 203])
               < Z.shiftr (CMX_BUFF_HALF pf) 2)
    by (vm_compute; split; [discriminate | reflexivity]).
  refine (conj platform_bits (conj H1 (conj H2 (conj H3 (conj H4 (conj H5
            (conj H6 _))))))).
  destruct (ReceiveFacts.receive_guard_decides pf platform_bits pair_state
              2%nat 0%nat (the_dsp pair_state 2) (the_conf pair_state 0)
              [200; 201; 202; 203] H1 H2 H3 H4 H5 H6)
    as (Wm & st' & d' & c' & Hlow & Hrun & Hd' & Hc' & HL & HcL & HWm & Hif).
  assert (EWm : Wm = 0).
  { vm_compute in Hlow. by injection Hlow as <-. }
  rewrite EWm in Hif, HWm. vm_compute in Hif.
  destruct Hif as (HW & HX & _).
  exists st', d', c'.
  exact (conj Hrun (conj Hd' (conj Hc' (conj HL (conj HcL (conj HWm
           (conj HW HX))))))).
Defined.

(** X21, witness: dsp 1 hears what dsp 2 received *)
Lemma send_pair_hears_other_witness :
  0 < buff_bits pf /\
  dsps pair_heard !! 1%nat = Some (the_dsp pair_heard 1) /\
  heap_free pair_heard <> 0%nat /\
  conf (the_dsp pair_heard 1) = Some 0%nat /\
  confs pair_heard !! 0%nat = Some (the_conf pair_heard 0) /\
  mlist (the_conf pair_heard 0) = [1%nat; 2%nat] /\
  dsps pair_heard !! (if bool_decide (1%nat = 1%nat) then 2%nat else 1%nat)
  = Some (the_dsp pair_heard 2) /\
  in_ring pf (R_rx (the_dsp pair_heard 1)) /\
  in_ring pf (W_min (the_conf pair_heard 0)) /\
  tone (the_dsp pair_heard 1) = 0 /\
  R_tx (the_dsp pair_heard 1) = W_tx (the_dsp pair_heard 1) /\
  0 < 3 < CMX_BUFF_SIZE pf /\ 3 < Z.of_nat 64 /\
  frame_of (dsp_cmx_send pf 64 pair_heard 1%nat 3 0)
  = Some (mk_skb 0 3 [200; 201; 202]).
Proof.
  assert (H1 : dsps pair_heard !! 1%nat = Some (the_dsp pair_heard 1))
    by (vm_compute; reflexivity).
  assert (H2 : heap_free pair_heard <> 0%nat) by (vm_compute; discriminate).
  assert (H3 : conf (the_dsp pair_heard 1) = Some 0%nat)
    by (vm_compute; reflexivity).
  assert (H4 : confs pair_heard !! 0%nat = Some (the_conf pair_heard 0))
    by (vm_compute; reflexivity).
  assert (H5 : mlist (the_conf pair_heard 0) = [1%nat; 2%nat])
    by (vm_compute; reflexivity).
  assert (H6 : dsps pair_heard
                 !! (if bool_decide (1%nat = 1%nat) then 2%nat else 1%nat)
               = Some (the_dsp pair_heard 2)) by (vm_compute; reflexivity).
  assert (H7 : in_ring pf (R_rx (the_dsp pair_heard 1)))
    by (vm_compute; split; [discriminate | reflexivity]).
  assert (H8 : in_ring pf (W_min (the_conf pair_heard 0)))
    by (vm_compute; split; [discriminate | reflexivity]).
  assert (H9 : tone (the_dsp pair_heard 1) = 0) by (vm_compute; reflexivity).
  assert (H10 : R_tx (the_dsp pair_heard 1) = W_tx (the_dsp pair_heard 1))
    by (vm_compute; reflexivity).
  assert (H11 : 0 < 3 < CMX_BUFF_SIZE pf)
    by (vm_compute; split; reflexivity).
  assert (H12 : 3 < Z.of_nat 64) by (vm_compute; reflexivity).
  refine (conj platform_bits (conj H1 (conj H2 (conj H3 (conj H4 (conj H5
            (conj H6 (conj H7 (conj H8 (conj H9 (conj H10 (conj H11
            (conj H12 _))))))))))))).
  rewrite (SendMixes.send_pair_hears_other pf platform_bits 64 pair_heard
             1%nat (the_dsp pair_heard 1) 0%nat (the_conf pair_heard 0)
             1%nat 2%nat (the_dsp pair_heard 2) 3 0 H1 H2 H3 H4 H5 H6 H7 H8
             H9 H10 H11 H12).
  vm_compute. reflexivity.
Defined.

(** X22, witness: dsp 1 of three members reads three conference sums;
    the second, at the lowest [signed long], wraps when the own sample
    is taken off and is clipped to the highest sample. *)
Lemma send_conf_minus_own_witness :
  0 < buff_bits pf /\
  dsps trio_summed !! 1%nat = Some (the_dsp trio_summed 1) /\
  heap_free trio_summed <> 0%nat /\
  conf (the_dsp trio_summed 1) = Some 0%nat /\
  confs trio_summed !! 0%nat = Some (the_conf trio_summed 0) /\
  (3 <= length (mlist (the_conf trio_summed 0)))%nat /\
  in_ring pf (R_rx (the_dsp trio_summed 1)) /\
  in_ring pf (W_min (the_conf trio_summed 0)) /\
  tone (the_dsp trio_summed 1) = 0 /\
  R_tx (the_dsp trio_summed 1) = W_tx (the_dsp trio_summed 1) /\
  0 < 3 < CMX_BUFF_SIZE pf /\ 3 < Z.of_nat 64 /\
  frame_of (dsp_cmx_send pf 64 trio_summed 1%nat 3 0)
  = Some (mk_skb 0 3 [244; 255; 129]).
Proof.
  assert (H1 : dsps trio_summed !! 1%nat = Some (the_dsp trio_summed 1))
    by (vm_compute; reflexivity).
  assert (H2 : heap_free trio_summed <> 0%nat) by (vm_compute; discriminate).
  assert (H3 : conf (the_dsp trio_summed 1) = Some 0%nat)
    by (vm_compute; reflexivity).
  assert (H4 : confs trio_summed !! 0%nat = Some (the_conf trio_summed 0))
    by (vm_compute; reflexivity).
  assert (H5 : (3 <= length (mlist (the_conf trio_summed 0)))%nat)
    by (vm_compute; lia).
  assert (H6 : in_ring pf (R_rx (the_dsp trio_summed 1)))
    by (vm_compute; split; [discriminate | reflexivity]).
  assert (H7 : in_ring pf (W_min (the_conf trio_summed 0)))
    by (vm_compute; split; [discriminate | reflexivity]).
  assert (H8 : tone (the_dsp trio_summed 1) = 0) by (vm_compute; reflexivity).
  assert (H9 : R_tx (the_dsp trio_summed 1) = W_tx (the_dsp trio_summed 1))
    by (vm_compute; reflexivity).
  assert (H10 : 0 < 3 < CMX_BUFF_SIZE pf)
    by (vm_compute; split; reflexivity).
  assert (H11 : 3 < Z.of_nat 64) by (vm_compute; reflexivity).
  refine (conj platform_bits (conj H1 (conj H2 (conj H3 (conj H4 (conj H5
            (conj H6 (conj H7 (conj H8 (conj H9 (conj H10 (conj H11
            _)))))))))))).
  rewrite (SendMixes.send_conf_minus_own pf platform_bits 64 trio_summed 1%nat
             (the_dsp trio_summed 1) 0%nat (the_conf trio_summed 0) 3 0 H1 H2 H3 H4 H5 H6
             H7 H8 H9 H10 H11).
  vm_compute. reflexivity.
Defined.

(** X24, witness: the first join on card 7, asked for twice *)
Lemma dsp_cmx_reaches_request_witness :
  dsps (boot 7) !! 1%nat = Some (new_dsp 7 1) /\
  dsp_cmx pf 20 (boot 7) 1%nat = Ret (0, card7_one) /\
  dsp_cmx pf 20 card7_one 1%nat = Ret (0, card7_one).
Proof.
  assert (H1 : dsps (boot 7) !! 1%nat = Some (new_dsp 7 1))
    by (vm_compute; reflexivity).
  refine (conj H1 (conj one_run _)).
  exact (proj2 (Requests.dsp_cmx_reaches_request pf 20 20 (boot 7) 1%nat
                  (new_dsp 7 1) card7_one H1 one_run)).
Defined.

(** X25, witness: three bytes received by dsp 1 *)
Lemma receive_touches_rx_side_witness :
  dsps (boot 0) !! 1%nat = Some (new_dsp 0 1) /\
  dsp_cmx_receive pf (boot 0) 1%nat [1; 2; 3] = Ret rx_pending /\
  (forall a, a <> 1%nat -> dsps rx_pending !! a = dsps (boot 0) !! a) /\
  heap_free rx_pending = heap_free (boot 0).
Proof.
  assert (H1 : dsps (boot 0) !! 1%nat = Some (new_dsp 0 1))
    by (vm_compute; reflexivity).
  assert (H2 : dsp_cmx_receive pf (boot 0) 1%nat [1; 2; 3] = Ret rx_pending)
    by (vm_compute; reflexivity).
  refine (conj H1 (conj H2 _)).
  destruct (Locality.receive_touches_rx_side pf (boot 0) 1%nat (new_dsp 0 1)
              [1; 2; 3] rx_pending H1 H2) as (_ & Ho & _ & Hh).
  exact (conj Ho Hh).
Defined.

(** X26, witness: five bytes of silence sent to dsp 1 *)
Lemma send_writes_no_buffer_witness :
  dsps (boot 0) !! 1%nat = Some (new_dsp 0 1) /\
  dsp_cmx_send pf 64 (boot 0) 1%nat 5 0
  = Ret (frame_of (dsp_cmx_send pf 64 (boot 0) 1%nat 5 0), silence_sent) /\
  (forall a, a <> 1%nat -> dsps silence_sent !! a = dsps (boot 0) !! a) /\
  confs silence_sent = confs (boot 0) /\
  heap_free silence_sent = Nat.pred (heap_free (boot 0)).
Proof.
  assert (H1 : dsps (boot 0) !! 1%nat = Some (new_dsp 0 1))
    by (vm_compute; reflexivity).
  assert (H2 : dsp_cmx_send pf 64 (boot 0) 1%nat 5 0
               = Ret (frame_of (dsp_cmx_send pf 64 (boot 0) 1%nat 5 0),
                      silence_sent))
    by (vm_compute; reflexivity).
  refine (conj H1 (conj H2 _)).
  exact (proj2 (Locality.send_writes_no_buffer pf 64 (boot 0) 1%nat
                  (new_dsp 0 1) 5 0 _ silence_sent H1 H2)).
Defined.

(** X27, witness: three bytes queued for dsp 1 *)
Lemma transmit_touches_tx_side_witness :
  dsps (boot 0) !! 1%nat = Some (new_dsp 0 1) /\
  dsp_cmx_transmit pf 64 (boot 0) 1%nat [1; 2; 3] = Ret tx_pending /\
  (forall a, a <> 1%nat -> dsps tx_pending !! a = dsps (boot 0) !! a) /\
  confs tx_pending = confs (boot 0) /\
  heap_free tx_pending = heap_free (boot 0).
Proof.
  assert (H1 : dsps (boot 0) !! 1%nat = Some (new_dsp 0 1))
    by (vm_compute; reflexivity).
  assert (H2 : dsp_cmx_transmit pf 64 (boot 0) 1%nat [1; 2; 3]
               = Ret tx_pending) by (vm_compute; reflexivity).
  refine (conj H1 (conj H2 _)).
  exact (proj2 (Locality.transmit_touches_tx_side pf 64 (boot 0) 1%nat
                  (new_dsp 0 1) [1; 2; 3] tx_pending H1 H2)).
Defined.

(** *** The DTMF decoder *)

(** X16, witness: eight coefficients of 0 *)
Lemma frame_what_quiet_witness :
  Forall (fun x => x <= DTMF_TRESH) [0; 0; 0; 0; 0; 0; 0; 0] /\
  frame_what [0; 0; 0; 0; 0; 0; 0; 0] = NUL.
Proof.
  assert (H1 : Forall (fun x => x <= DTMF_TRESH) [0; 0; 0; 0; 0; 0; 0; 0])
    by (repeat constructor; vm_compute; discriminate).
  refine (conj H1 _).
  exact (DecoderFacts.frame_what_quiet [0; 0; 0; 0; 0; 0; 0; 0] H1).
Defined.

(** X17, witness: three frames of the key 5 from the HFC decoder *)
Lemma digits_fit_witness :
  dsp_dtmf_goertzel_decode pf 5 dtmf0 three_fives 2
  = Ret (decoded (dsp_dtmf_goertzel_decode pf 5 dtmf0 three_fives 2)) /\
  (length (digits (decoded
     (dsp_dtmf_goertzel_decode pf 5 dtmf0 three_fives 2)))
   <= dtmf_digits_size pf - 1)%nat /\
  Forall (fun ch => In ch keypad)
    (digits (decoded (dsp_dtmf_goertzel_decode pf 5 dtmf0 three_fives 2))).
Proof.
  assert (H1 : dsp_dtmf_goertzel_decode pf 5 dtmf0 three_fives 2
               = Ret (decoded
                        (dsp_dtmf_goertzel_decode pf 5 dtmf0 three_fives 2)))
    by (vm_compute; reflexivity).
  refine (conj H1 _).
  exact (DecoderFacts.digits_fit pf 5 dtmf0 three_fives 2 _ H1).
Defined.

(** X18, witness: the key 5 held for four frames *)
Lemma held_digit_reported_once_witness :
  "5"%char <> NUL /\ lastdigit dtmf0 <> "5"%char /\
  (length (digits dtmf0) + 1 < dtmf_digits_size pf)%nat /\
  0 <= count dtmf0 <= 2 /\ (3 <= 4)%nat /\
  digits (hold pf 4 "5"%char dtmf0) = digits dtmf0 ++ ["5"%char].
Proof.
  assert (H1 : "5"%char <> NUL) by discriminate.
  assert (H2 : lastdigit dtmf0 <> "5"%char) by discriminate.
  assert (H3 : (length (digits dtmf0) + 1 < dtmf_digits_size pf)%nat)
    by (vm_compute; lia).
  assert (H4 : 0 <= count dtmf0 <= 2)
    by (vm_compute; split; discriminate).
  assert (H5 : (3 <= 4)%nat) by lia.
  refine (conj H1 (conj H2 (conj H3 (conj H4 (conj H5 _))))).
  exact (DecoderFacts.held_digit_reported_once pf "5"%char dtmf0 4 H1 H2 H3 H4
           H5).
Defined.

(** X19, witness: three samples on the sample platform *)
Lemma decode_returns_witness :
  (0 < dtmf_npoints pf)%nat /\
  exists dt', dsp_dtmf_goertzel_decode pf 5 dtmf0 [1; 2; 3] 0 = Ret dt'.
Proof.
  assert (H1 : (0 < dtmf_npoints pf)%nat) by (vm_compute; lia).
  refine (conj H1 _).
  exact (DecoderFacts.decode_returns pf dtmf0 [1; 2; 3] 0 H1).
Defined.

(** X20, witness: three A-law samples leave three in the buffer *)
Lemma decode_not_full_witness :
  (0 =? 0) || (0 =? 1) = true /\
  dsp_dtmf_goertzel_decode pf 5 dtmf0 three_samples 0
  = Ret (decoded (dsp_dtmf_goertzel_decode pf 5 dtmf0 three_samples 0)) /\
  (size (decoded (dsp_dtmf_goertzel_decode pf 5 dtmf0 three_samples 0))
   < dtmf_npoints pf)%nat.
Proof.
  assert (H1 : (0 =? 0) || (0 =? 1) = true) by reflexivity.
  assert (H2 : dsp_dtmf_goertzel_decode pf 5 dtmf0 three_samples 0
               = Ret (decoded
                        (dsp_dtmf_goertzel_decode pf 5 dtmf0 three_samples 0)))
    by (vm_compute; reflexivity).
  refine (conj H1 (conj H2 _)).
  exact (DecoderFacts.decode_not_full pf 5 dtmf0 three_samples 0 _ H1 H2).
Defined.

End Checks.
